(** * Dokatrade/splitter: the delimiter-aware file splitter

    A shallow embedding of [split_file_delimiter.py], [split_file_simple.py]
    and the classification loop of [debug_split.py], followed by the
    properties of the splitters.

    A file is the list of its lines as [readlines()] returns them.  A line is
    a Python [str]; it is modelled as a [string] whose characters are the
    code points below 256.  The only file-system effect of the scripts is the
    call [write_part(filepath, part_number, lines, output_dir)]; a run is
    modelled by the list of these calls and of the warnings printed, in
    program order. *)

From Stdlib Require Import String Ascii DecimalString.
From Stdlib Require DecimalNat DecimalFacts.
From Stdlib Require Import List Arith ZArith Lia Bool.
Import ListNotations.

Set Implicit Arguments.

(** ** Python [str] methods used by the scripts *)

Module PyStr.

Open Scope string_scope.

(** [str.isspace] on one character, for the code points below 256:
    TAB..CR, FS..US, SPACE, NEL and NBSP. *)
Definition isspace (c : ascii) : bool :=
  let n := nat_of_ascii c in
  (((9 <=? n) && (n <=? 13)) || ((28 <=? n) && (n <=? 32))
   || (n =? 133) || (n =? 160))%nat.

(** [s.lstrip()] *)
Fixpoint lstrip (s : string) : string :=
  match s with
  | EmptyString => EmptyString
  | String c r => if isspace c then lstrip r else s
  end.

(** [s.rstrip()] *)
Fixpoint rstrip (s : string) : string :=
  match s with
  | EmptyString => EmptyString
  | String c r =>
      match rstrip r with
      | EmptyString => if isspace c then EmptyString else String c EmptyString
      | r' => String c r'
      end
  end.

(** [s.strip()] *)
Definition strip (s : string) : string := rstrip (lstrip s).

(** [s.split()] with no argument: the maximal runs of non-space
    characters.  [tok] is the token being read. *)
Fixpoint split_from (tok : string) (s : string) : list string :=
  match s with
  | EmptyString => match tok with EmptyString => [] | _ => [tok] end
  | String c r =>
      if isspace c
      then match tok with
           | EmptyString => split_from EmptyString r
           | _ => tok :: split_from EmptyString r
           end
      else split_from (tok ++ String c EmptyString) r
  end.

Definition split (s : string) : list string := split_from EmptyString s.

(** [d in s]: [d] is a substring of [s]. *)
Fixpoint contains (d s : string) : bool :=
  String.prefix d s
  || match s with
     | EmptyString => false
     | String _ r => contains d r
     end.

(** [len(s.encode('utf-8'))] for code points below 256. *)
Fixpoint utf8_len (s : string) : nat :=
  match s with
  | EmptyString => 0
  | String c r => ((if nat_of_ascii c <? 128 then 1 else 2) + utf8_len r)%nat
  end.

(** [str(n)] for a non-negative integer. *)
Definition str_of_nat (n : nat) : string :=
  NilZero.string_of_uint (Nat.to_uint n).

(** [s.split(c)] for a separator [c] of one character: the pieces between
    the occurrences of [c], at least one. *)
Fixpoint split_char (c : ascii) (s : string) : list string :=
  match s with
  | EmptyString => [EmptyString]
  | String a r =>
      if Ascii.eqb a c then EmptyString :: split_char c r
      else match split_char c r with
           | [] => [String a EmptyString]
           | p :: ps => String a p :: ps
           end
  end.

(** [c not in s] *)
Fixpoint lacks (c : ascii) (s : string) : bool :=
  match s with
  | EmptyString => true
  | String a r => negb (Ascii.eqb a c) && lacks c r
  end.

(** [sep.join(l)] *)
Fixpoint join (sep : string) (l : list string) : string :=
  match l with
  | [] => EmptyString
  | [s] => s
  | s :: r => (s ++ sep ++ join sep r)%string
  end.

(** [s.endswith(c)] for one character [c]. *)
Fixpoint endswith_char (c : ascii) (s : string) : bool :=
  match s with
  | EmptyString => false
  | String a EmptyString => Ascii.eqb a c
  | String _ r => endswith_char c r
  end.

(** [str.lower] on one character, for the code points below 256: the
    letters A..Z and the capital letters of Latin-1. *)
Definition lower_char (c : ascii) : ascii :=
  let n := nat_of_ascii c in
  if (((65 <=? n) && (n <=? 90))
      || ((192 <=? n) && (n <=? 222) && negb (n =? 215)))%nat
  then ascii_of_nat (n + 32)
  else c.

(** [s.lower()] *)
Fixpoint lower (s : string) : string :=
  match s with
  | EmptyString => EmptyString
  | String c r => String (lower_char c) (lower r)
  end.

(** [s.replace(a, b)] for single characters. *)
Fixpoint replace_char (a b : ascii) (s : string) : string :=
  match s with
  | EmptyString => EmptyString
  | String c r => String (if Ascii.eqb c a then b else c) (replace_char a b r)
  end.

(** A character at which [str.splitlines] cuts, among the code points
    below 256: LF, VT, FF, CR, FS, GS, RS and NEL. *)
Definition is_linebreak (c : ascii) : bool :=
  let n := nat_of_ascii c in
  (((10 <=? n) && (n <=? 13)) || ((28 <=? n) && (n <=? 30)) || (n =? 133))%nat.

(** [s.splitlines()]; [cur] is the line being read.  CR LF is one cut. *)
Fixpoint splitlines_from (cur : string) (s : string) : list string :=
  match s with
  | EmptyString => match cur with EmptyString => [] | _ => [cur] end
  | String c r =>
      if is_linebreak c
      then if Ascii.eqb c (ascii_of_nat 13)
           then match r with
                | String c' r' =>
                    if Ascii.eqb c' (ascii_of_nat 10)
                    then cur :: splitlines_from EmptyString r'
                    else cur :: splitlines_from EmptyString r
                | EmptyString => cur :: splitlines_from EmptyString r
                end
           else cur :: splitlines_from EmptyString r
      else splitlines_from (cur ++ String c EmptyString) r
  end.

Definition splitlines (s : string) : list string :=
  splitlines_from EmptyString s.

(** The newline character, for writing lines down. *)
Definition nl : string := String (ascii_of_nat 10) EmptyString.

End PyStr.

(** ** Lists as Python uses them *)

(** [l[a:b]] for non-negative [a] and [b]. *)
Definition slice {A} (a b : nat) (l : list A) : list A :=
  firstn (b - a) (skipn a l).

(** [l[a:b]] for any integers: a negative index counts from the end, and
    both are clamped to the list. *)
Definition py_index {A} (l : list A) (x : Z) : nat :=
  let n := Z.of_nat (length l) in
  Z.to_nat (if (x <? 0)%Z then Z.max (n + x) 0 else Z.min x n).

Definition py_slice {A} (a b : Z) (l : list A) : list A :=
  slice (py_index l a) (py_index l b) l.

(** Truthiness of a list: [if l:]. *)
Definition truthy {A} (l : list A) : bool :=
  match l with [] => false | _ => true end.

(** ** What a run does *)

Definition line := string.

Inductive warning :=
| EmptyFile                                  (* "Warning: {filepath} is empty." *)
| NoDelimitersFound (delimiters : list string).
                                             (* "Warning: No delimiters ... found" *)

Inductive event :=
| WritePart (part_number : nat) (lines : list line)
| PrintWarning (w : warning).

(** The [write_part] calls of a run, and the chunks they were given. *)
Fixpoint parts (evs : list event) : list (nat * list line) :=
  match evs with
  | [] => []
  | WritePart n ls :: r => (n, ls) :: parts r
  | PrintWarning _ :: r => parts r
  end.

Definition chunks (evs : list event) : list (list line) :=
  map snd (parts evs).

Definition part_numbers (evs : list event) : list nat :=
  map fst (parts evs).

Fixpoint warnings (evs : list event) : list warning :=
  match evs with
  | [] => []
  | WritePart _ _ :: r => warnings r
  | PrintWarning w :: r => w :: warnings r
  end.

(** [len(line.split())] *)
Definition line_words (l : line) : Z := Z.of_nat (length (PyStr.split l)).

(** The word count of a chunk. *)
Definition chunk_words (c : list line) : Z :=
  fold_right (fun l acc => line_words l + acc)%Z 0%Z c.

(** [line.strip() == ''] *)
Definition is_blank (l : line) : bool := String.eqb (PyStr.strip l) EmptyString.

(** ** The writer: [write_part] *)

Section Writer.

(** [os.path.splitext(os.path.basename(p))] and [os.path.join] are the
    platform's; they are taken as they come. *)
Variable splitext_basename : string -> string * string.
Variable path_join : string -> string -> string.

(** The name [write_part] opens for writing:
    [os.path.join(output_dir, f"{base}_part_{part_number}{ext}")]. *)
Definition output_filename (original_filepath : string) (part_number : nat)
  (output_dir : string) : string :=
  let '(base, ext) := splitext_basename original_filepath in
  path_join output_dir
    (base ++ "_part_" ++ PyStr.str_of_nat part_number ++ ext)%string.

(** The files a run creates, in order, with their contents. *)
Definition files_written (original_filepath output_dir : string)
  (evs : list event) : list (string * list line) :=
  map (fun p => (output_filename original_filepath (fst p) output_dir, snd p))
      (parts evs).

End Writer.

(** ** [split_file_simple.py] *)

Module Simple.

(** *** [split_file_by_lines] *)

Record lines_state := {
  l_file_count : nat;
  l_lines : list line;
  l_written : list event
}.

(** The body of [for line in f]. *)
Definition lines_body (lines_per_file : Z) (st : lines_state) (l : line)
  : lines_state :=
  let lines := st.(l_lines) ++ [l] in
  if (lines_per_file <=? Z.of_nat (length lines))%Z
  then {| l_file_count := st.(l_file_count) + 1;
          l_lines := [];
          l_written := st.(l_written) ++ [WritePart st.(l_file_count) lines] |}
  else {| l_file_count := st.(l_file_count);
          l_lines := lines;
          l_written := st.(l_written) |}.

Definition split_file_by_lines (lines_per_file : Z) (f : list line)
  : list event :=
  let st := fold_left (lines_body lines_per_file) f
              {| l_file_count := 1; l_lines := []; l_written := [] |} in
  if truthy st.(l_lines)
  then st.(l_written) ++ [WritePart st.(l_file_count) st.(l_lines)]
  else st.(l_written).

(** *** [split_file_by_bytes] *)

Record bytes_state := {
  b_file_count : nat;
  b_lines : list line;
  b_current_bytes : Z;
  b_written : list event
}.

Definition bytes_body (bytes_per_file : Z) (st : bytes_state) (l : line)
  : bytes_state :=
  let line_bytes := Z.of_nat (PyStr.utf8_len l) in
  let st1 :=
    if (bytes_per_file <? st.(b_current_bytes) + line_bytes)%Z
       && truthy st.(b_lines)
    then {| b_file_count := st.(b_file_count) + 1;
            b_lines := [];
            b_current_bytes := 0;
            b_written := st.(b_written)
                           ++ [WritePart st.(b_file_count) st.(b_lines)] |}
    else st in
  {| b_file_count := st1.(b_file_count);
     b_lines := st1.(b_lines) ++ [l];
     b_current_bytes := st1.(b_current_bytes) + line_bytes;
     b_written := st1.(b_written) |}.

Definition split_file_by_bytes (bytes_per_file : Z) (f : list line)
  : list event :=
  let st := fold_left (bytes_body bytes_per_file) f
              {| b_file_count := 1; b_lines := []; b_current_bytes := 0;
                 b_written := [] |} in
  if truthy st.(b_lines)
  then st.(b_written) ++ [WritePart st.(b_file_count) st.(b_lines)]
  else st.(b_written).

(** *** [split_file_by_words] *)

Record words_state := {
  file_count : nat;
  current_chunk : list line;
  current_words : Z;
  written : list event
}.

(** [write_part(...); current_chunk = []; current_words = 0;
    file_count += 1] *)
Definition flush (st : words_state) : words_state :=
  {| file_count := st.(file_count) + 1;
     current_chunk := [];
     current_words := 0;
     written := st.(written)
                  ++ [WritePart st.(file_count) st.(current_chunk)] |}.

(** The body of [for line in f]. *)
Definition words_body (words_per_file : Z) (st : words_state) (l : line)
  : words_state :=
  let line_words := line_words l in
  let st1 :=
    if (words_per_file <? st.(current_words) + line_words)%Z
       && truthy st.(current_chunk)
    then flush st
    else st in
  {| file_count := st1.(file_count);
     current_chunk := st1.(current_chunk) ++ [l];
     current_words := st1.(current_words) + line_words;
     written := st1.(written) |}.

Definition init : words_state :=
  {| file_count := 1; current_chunk := []; current_words := 0;
     written := [] |}.

(** [if current_chunk: write_part(...)] after the loop. *)
Definition finish (st : words_state) : list event :=
  if truthy st.(current_chunk)
  then st.(written) ++ [WritePart st.(file_count) st.(current_chunk)]
  else st.(written).

Definition split_file_by_words (words_per_file : Z) (f : list line)
  : list event :=
  finish (fold_left (words_body words_per_file) f init).

(** *** [split_file_into_parts] *)

(** [range(n)] *)
Definition range (n : Z) : list nat := seq 0 (Z.to_nat n).

(** The body of [for i in range(num_parts)], as the calls it makes. *)
Definition parts_body (lines : list line) (lines_per_part : Z) (i : nat)
  : list event :=
  let start := (Z.of_nat i * lines_per_part)%Z in
  let end_ := (start + lines_per_part)%Z in
  let part_lines := py_slice start end_ lines in
  if truthy part_lines then [WritePart (i + 1) part_lines] else [].

(** [None] is the [ZeroDivisionError] of [// num_parts]. *)
Definition split_file_into_parts (num_parts : Z) (lines : list line)
  : option (list event) :=
  let total_lines := Z.of_nat (length lines) in
  if (num_parts =? 0)%Z then None
  else
    let lines_per_part := ((total_lines + num_parts - 1) / num_parts)%Z in
    Some (flat_map (parts_body lines lines_per_part) (range num_parts)).

End Simple.

(** ** [split_file_delimiter.py] *)

Module Delimiter.

(** The [delimiters] argument of [split_file_by_delimiter] is a string or a
    list of strings. *)
Inductive delimiters_arg :=
| OneDelimiter (d : string)
| ManyDelimiters (ds : list string).

(** [if isinstance(delimiters, str): delimiters = [delimiters]] *)
Definition normalize (d : delimiters_arg) : list string :=
  match d with
  | OneDelimiter s => [s]
  | ManyDelimiters ds => ds
  end.

(** [any(d in line for d in delimiters)] *)
Definition line_contains_delimiter (delimiters : list string) (l : line) : bool :=
  existsb (fun d => PyStr.contains d l) delimiters.

(** Step 1: [for i, line in enumerate(all_lines)] collecting the indices of
    the lines that contain a delimiter; [i] is the index of the head of
    [ls]. *)
Fixpoint delimiter_indices_from (delimiters : list string) (i : nat)
  (ls : list line) : list nat :=
  match ls with
  | [] => []
  | l :: r =>
      if line_contains_delimiter delimiters l
      then i :: delimiter_indices_from delimiters (S i) r
      else delimiter_indices_from delimiters (S i) r
  end.

Definition delimiter_indices (delimiters : list string) (all_lines : list line)
  : list nat :=
  delimiter_indices_from delimiters 0 all_lines.

(** [prev_idx = idx - 1; while prev_idx >= 0 and all_lines[prev_idx].strip()
    == '': prev_idx -= 1].  [None] stands for the exit with [prev_idx < 0]. *)
Fixpoint prev_non_empty (all_lines : list line) (idx : nat) : option nat :=
  match idx with
  | 0 => None
  | S p =>
      if is_blank (nth p all_lines EmptyString)
      then prev_non_empty all_lines p
      else Some p
  end.

(** The body of the Step 2 loop: does [idx] go into [split_points]? *)
Definition is_split_point (delimiters : list string) (all_lines : list line)
  (idx : nat) : bool :=
  match idx with
  | 0 => true
  | _ =>
      match prev_non_empty all_lines idx with
      | None => true
      | Some prev_idx =>
          negb (line_contains_delimiter delimiters
                  (nth prev_idx all_lines EmptyString))
      end
  end.

(** Step 2: the split points among the delimiter indices. *)
Definition split_points (delimiters : list string) (all_lines : list line)
  : list nat :=
  filter (is_split_point delimiters all_lines)
         (delimiter_indices delimiters all_lines).

(** Step 3, the loop [for i, start_idx in enumerate(split_points)]; [sps] is
    what is left of [split_points], so that [split_points[i + 1]] is the
    head of the tail.  Returns the calls made. *)
Fixpoint write_sections (all_lines : list line) (sps : list nat)
  (file_count : nat) : list event :=
  match sps with
  | [] => []
  | start_idx :: rest =>
      let end_idx :=
        match rest with
        | [] => length all_lines
        | next :: _ => next
        end in
      let section_lines := slice start_idx end_idx all_lines in
      if truthy section_lines
      then WritePart (S file_count) section_lines
             :: write_sections all_lines rest (S file_count)
      else write_sections all_lines rest file_count
  end.

Definition split_file_by_delimiter (delimiters : delimiters_arg)
  (all_lines : list line) : list event :=
  let delimiters := normalize delimiters in
  if negb (truthy all_lines) then [PrintWarning EmptyFile]
  else
    let delimiter_indices := delimiter_indices delimiters all_lines in
    if negb (truthy delimiter_indices)
    then [WritePart 1 all_lines; PrintWarning (NoDelimitersFound delimiters)]
    else
      let split_points := split_points delimiters all_lines in
      let file_count := 0 in
      match split_points with
      | first_split_idx :: _ =>
          if 0 <? first_split_idx
          then WritePart file_count (slice 0 first_split_idx all_lines)
                 :: write_sections all_lines split_points (file_count + 1)
          else write_sections all_lines split_points file_count
      | [] =>
          if truthy all_lines then [WritePart 1 all_lines]
          else write_sections all_lines split_points file_count
      end.

(** [split_file_by_lines], [split_file_by_bytes] and
    [split_file_into_parts] are, word for word, those of
    [split_file_simple.py]. *)
Definition split_file_by_lines := Simple.split_file_by_lines.
Definition split_file_by_bytes := Simple.split_file_by_bytes.
Definition split_file_into_parts := Simple.split_file_into_parts.

(** *** [split_file_by_words], with the module-level [DELIMITER] *)

Module Words.

(** The variables of the [while] loop, and the calls made so far. *)
Record loop_state := {
  file_count : nat;
  current_chunk : list line;
  current_words : Z;
  i : nat;
  written : list event
}.

Section Run.

Variable DELIMITER : list string.
Variable words_per_file : Z.
Variable all_lines : list line.

(** [use_delimiters = DELIMITER and len(DELIMITER) > 0] *)
Definition use_delimiters : bool :=
  truthy DELIMITER && (0 <? length DELIMITER).

(** The closure [line_contains_delimiter] of [split_file_by_words]. *)
Definition line_contains_delimiter (l : line) : bool :=
  if negb use_delimiters then false
  else existsb (fun d => PyStr.contains d l) DELIMITER.

Definition find_prev_non_empty_line_is_delimiter (idx : nat) : bool :=
  match prev_non_empty all_lines idx with
  | None => false
  | Some prev_idx =>
      line_contains_delimiter (nth prev_idx all_lines EmptyString)
  end.

(** [is_split_point] as the loop body computes it at index [idx]. *)
Definition is_split_point (idx : nat) (l : line) : bool :=
  if use_delimiters && line_contains_delimiter l && (0 <? idx)
  then negb (find_prev_non_empty_line_is_delimiter idx)
  else false.

(** [write_part(...); current_chunk = []; current_words = 0;
    file_count += 1] *)
Definition flush (st : loop_state) : loop_state :=
  {| file_count := st.(file_count) + 1;
     current_chunk := [];
     current_words := 0;
     i := st.(i);
     written := st.(written)
                  ++ [WritePart st.(file_count) st.(current_chunk)] |}.

(** [current_chunk.append(line); current_words += line_words; i += 1] *)
Definition append (st : loop_state) (l : line) : loop_state :=
  {| file_count := st.(file_count);
     current_chunk := st.(current_chunk) ++ [l];
     current_words := st.(current_words) + line_words l;
     i := st.(i) + 1;
     written := st.(written) |}.

(** One turn of [while i < len(all_lines)]; [None] when the test
    fails. *)
Definition step (st : loop_state) : option loop_state :=
  match nth_error all_lines st.(i) with
  | None => None
  | Some l =>
      let line_words := line_words l in
      if (words_per_file <=? st.(current_words))%Z
         && is_split_point st.(i) l
         && truthy st.(current_chunk)
      then Some (flush st)                      (* continue *)
      else
        let st1 :=
          if negb use_delimiters
          then if (words_per_file <? st.(current_words) + line_words)%Z
                  && truthy st.(current_chunk)
               then flush st
               else st
          else st in
        Some (append st1 l)
  end.

Fixpoint loop (fuel : nat) (st : loop_state) : option loop_state :=
  match fuel with
  | 0 => None
  | S fuel' =>
      match step st with
      | None => Some st
      | Some st' => loop fuel' st'
      end
  end.

Definition init : loop_state :=
  {| file_count := 1; current_chunk := []; current_words := 0;
     i := 0; written := [] |}.

(** [if current_chunk: write_part(...)] after the loop. *)
Definition finish (st : loop_state) : list event :=
  if truthy st.(current_chunk)
  then st.(written) ++ [WritePart st.(file_count) st.(current_chunk)]
  else st.(written).

(** The whole function; [None] only if the loop were not over after
    [fuel] turns. *)
Definition run (fuel : nat) : option (list event) :=
  if negb (truthy all_lines) then Some []
  else option_map finish (loop fuel init).

End Run.

End Words.

(** Every line costs at most two turns of the loop (a flush, then the
    append), and the failing test one more. *)
Definition split_file_by_words (DELIMITER : list string) (words_per_file : Z)
  (all_lines : list line) : option (list event) :=
  Words.run DELIMITER words_per_file all_lines (2 * length all_lines + 1).

End Delimiter.

(** ** [debug_split.py] *)

Module DebugSplit.

Definition delimiters : list string :=
  ["-- Chat:"%string; "=== Project:"%string; "### Account:"%string].

Definition line_contains_delimiter (l : line) : bool :=
  existsb (fun d => PyStr.contains d l) delimiters.

(** Step 1 and Step 2 of the script are, word for word, those of
    [split_file_by_delimiter], on the script's own [delimiters]. *)
Definition delimiter_indices (all_lines : list line) : list nat :=
  Delimiter.delimiter_indices delimiters all_lines.

Definition split_points (all_lines : list line) : list nat :=
  Delimiter.split_points delimiters all_lines.

End DebugSplit.

(** ** The command lines: [main] of the two splitter scripts *)

(** Truthiness of the values [main] tests: [None], [0], the empty string
    and the empty list are false. *)
Definition truthy_int (x : option Z) : bool :=
  match x with Some z => negb (z =? 0)%Z | None => false end.

Definition truthy_str (x : option string) : bool :=
  match x with Some EmptyString | None => false | Some _ => true end.

(** [x or default] on strings. *)
Definition str_or (x : option string) (default : string) : string :=
  match x with
  | Some EmptyString | None => default
  | Some s => s
  end.

(** The split functions [main] chooses from. *)
Inductive method :=
| by_lines | by_bytes | into_parts | by_words | by_delimiter.

(** What [main] passes as [method_arg]: a number, or the list of strings
    that [--delimiter] collects. *)
Inductive method_arg :=
| IntArg (z : Z)
| ListArg (l : list string).

Definition truthy_arg (v : method_arg) : bool :=
  match v with
  | IntArg z => negb (z =? 0)%Z
  | ListArg l => truthy l
  end.

(** How [main] ends: one of its two error messages, or the call
    [process_path(input_path, output_dir, method, value)]. *)
Inductive main_outcome :=
| NoInputPath
| NoSplitMethod
| ProcessPath (input_path output_dir : string) (m : method) (value : method_arg).

(** The result of [parser.parse_args()]. *)
Record namespace := {
  ns_input_path : option string;
  ns_output_dir : option string;
  ns_lines : option Z;
  ns_bytes : option Z;
  ns_parts : option Z;
  ns_words : option Z;
  ns_delimiter : option (list string)
}.

(** The CONFIGURATION block at the top of a script. *)
Record configuration := {
  INPUT_PATH : string;
  OUTPUT_DIR : string;
  SPLIT_METHOD : string;
  SPLIT_VALUE : Z;
  DELIMITER : list string
}.

Definition int_of (x : option Z) : Z :=
  match x with Some z => z | None => 0%Z end.

Module DelimiterMain.

(** The fallback on the configuration: the chain of [if SPLIT_METHOD ==]
    and, after it, [value = SPLIT_VALUE]. *)
Definition fallback (cfg : configuration) : option method * method_arg :=
  let method_value :=
    if String.eqb cfg.(SPLIT_METHOD) "lines" then (Some by_lines, IntArg 0)
    else if String.eqb cfg.(SPLIT_METHOD) "bytes" then (Some by_bytes, IntArg 0)
    else if String.eqb cfg.(SPLIT_METHOD) "parts" then (Some into_parts, IntArg 0)
    else if String.eqb cfg.(SPLIT_METHOD) "words" then (Some by_words, IntArg 0)
    else if String.eqb cfg.(SPLIT_METHOD) "delimiter"
         then (Some by_delimiter, ListArg cfg.(DELIMITER))
    else (None, IntArg 0) in
  let value := IntArg cfg.(SPLIT_VALUE) in
  (fst method_value, value).

Definition main (cfg : configuration) (args : namespace) : main_outcome :=
  let input_path := str_or args.(ns_input_path) cfg.(INPUT_PATH) in
  let output_dir := str_or args.(ns_output_dir) cfg.(OUTPUT_DIR) in
  if String.eqb input_path EmptyString then NoInputPath
  else
    let method_value :=
      if truthy_int args.(ns_lines)
      then (Some by_lines, IntArg (int_of args.(ns_lines)))
      else if truthy_int args.(ns_bytes)
      then (Some by_bytes, IntArg (int_of args.(ns_bytes)))
      else if truthy_int args.(ns_parts)
      then (Some into_parts, IntArg (int_of args.(ns_parts)))
      else if truthy_int args.(ns_words)
      then (Some by_words, IntArg (int_of args.(ns_words)))
      else match args.(ns_delimiter) with
           | Some (d :: ds) => (Some by_delimiter, ListArg (d :: ds))
           | _ => fallback cfg
           end in
    match method_value with
    | (Some m, value) =>
        if truthy_arg value then ProcessPath input_path output_dir m value
        else NoSplitMethod
    | (None, _) => NoSplitMethod
    end.

End DelimiterMain.

Module SimpleMain.

Definition fallback (cfg : configuration) : option method * method_arg :=
  let method :=
    if String.eqb cfg.(SPLIT_METHOD) "lines" then Some by_lines
    else if String.eqb cfg.(SPLIT_METHOD) "bytes" then Some by_bytes
    else if String.eqb cfg.(SPLIT_METHOD) "parts" then Some into_parts
    else if String.eqb cfg.(SPLIT_METHOD) "words" then Some by_words
    else None in
  (method, IntArg cfg.(SPLIT_VALUE)).

(** [split_file_simple.py] has no [--delimiter]: [ns_delimiter] is not
    read. *)
Definition main (cfg : configuration) (args : namespace) : main_outcome :=
  let input_path := str_or args.(ns_input_path) cfg.(INPUT_PATH) in
  let output_dir := str_or args.(ns_output_dir) cfg.(OUTPUT_DIR) in
  if String.eqb input_path EmptyString then NoInputPath
  else
    let method_value :=
      if truthy_int args.(ns_lines)
      then (Some by_lines, IntArg (int_of args.(ns_lines)))
      else if truthy_int args.(ns_bytes)
      then (Some by_bytes, IntArg (int_of args.(ns_bytes)))
      else if truthy_int args.(ns_parts)
      then (Some into_parts, IntArg (int_of args.(ns_parts)))
      else if truthy_int args.(ns_words)
      then (Some by_words, IntArg (int_of args.(ns_words)))
      else fallback cfg in
    match method_value with
    | (Some m, value) =>
        if truthy_arg value then ProcessPath input_path output_dir m value
        else NoSplitMethod
    | (None, _) => NoSplitMethod
    end.

End SimpleMain.

(** ** [json_to_txt.py] *)

Module JsonToTxt.

(** What [json.loads] returns.  A [dict] is kept as its items in insertion
    order, which is the order of [values()].  A float is kept as its
    literal: [extract_text] does not look at it. *)
#[local] Unset Elimination Schemes.

Inductive data :=
| PyNone
| PyBool (b : bool)
| PyInt (z : Z)
| PyFloat (literal : string)
| PyStr (s : string)
| PyList (items : list data)
| PyDict (items : list (string * data)).

#[local] Set Elimination Schemes.

Fixpoint extract_text (d : data) : list string :=
  match d with
  | PyStr s => [s]
  | PyDict items => flat_map (fun kv => extract_text (snd kv)) items
  | PyList items => flat_map extract_text items
  | _ => []
  end.

(** The text [convert] writes to [output_path], given the parsed input. *)
Definition convert (raw : data) : string :=
  PyStr.join PyStr.nl (extract_text raw).

(** [s] is a string value somewhere in the data (not a key). *)
Inductive string_value (s : string) : data -> Prop :=
| sv_here : string_value s (PyStr s)
| sv_item items d :
    In d items -> string_value s d -> string_value s (PyList items)
| sv_value items k d :
    In (k, d) items -> string_value s d -> string_value s (PyDict items).

End JsonToTxt.

(** ** [htmltotxt.py] *)

Module HtmlToTxt.

(** *** [get_file_number] *)

(** A character that [\d] matches, among the code points below 256. *)
Definition is_digit (c : ascii) : bool :=
  let n := nat_of_ascii c in ((48 <=? n) && (n <=? 57))%nat.

(** The longest run of digits at the head of [s], and what follows it. *)
Fixpoint take_digits (s : string) : string * string :=
  match s with
  | EmptyString => (EmptyString, EmptyString)
  | String c r =>
      if is_digit c
      then let '(ds, rest) := take_digits r in (String c ds, rest)
      else (EmptyString, s)
  end.

(** [s] without the prefix [p], when it starts with it. *)
Fixpoint strip_prefix (p s : string) : option string :=
  match p, s with
  | EmptyString, _ => Some s
  | String a p', String b s' =>
      if Ascii.eqb a b then strip_prefix p' s' else None
  | String _ _, EmptyString => None
  end.

(** The pattern [messages(\d+)\.html] matched at the head of [s]: group 1.
    The digits are followed by a dot, so only the longest run of digits can
    match. *)
Definition match_here (s : string) : option string :=
  match strip_prefix "messages" s with
  | None => None
  | Some r =>
      let '(ds, rest) := take_digits r in
      match ds with
      | EmptyString => None
      | _ => if String.prefix ".html" rest then Some ds else None
      end
  end.

(** [re.search]: the leftmost match. *)
Fixpoint search (s : string) : option string :=
  match match_here s with
  | Some ds => Some ds
  | None =>
      match s with
      | EmptyString => None
      | String _ r => search r
      end
  end.

(** [int(ds)] for a string of digits. *)
Definition int_of_digits (ds : string) : nat :=
  match NilZero.uint_of_string ds with
  | Some u => Nat.of_uint u
  | None => 0
  end.

Definition get_file_number (filename : string) : nat :=
  if String.eqb filename "messages.html" then 1
  else match search filename with
       | Some ds => int_of_digits ds
       | None => 0
       end.

(** *** [clean_text] and [count_words] *)

Definition clean_text (text : string) : string :=
  match text with
  | EmptyString => EmptyString
  | _ => PyStr.strip text
  end.

Definition count_words (text : string) : Z :=
  Z.of_nat (length (PyStr.split text)).

(** *** The loop of [main] *)

(** What the loop reads off a [div] of class [message]: whether it has a
    [body], the [title] of its date (when there is one), and the text of
    its [from_name] and [text] elements (when they are there). *)
Record message := {
  has_body : bool;
  date_title : option string;
  from_name : option string;
  text_div : option string
}.

(** What is written for a message: [date], [sender] and [text]. *)
Record entry := {
  e_date : string;
  e_sender : string;
  e_text : string
}.

(** The two [outfile.write] of an entry. *)
Definition render (e : entry) : list string :=
  [("[" ++ e.(e_date) ++ "] " ++ e.(e_sender) ++ ": " ++ e.(e_text)
    ++ PyStr.nl)%string;
   ("--------------------" ++ PyStr.nl)%string].

(** The variables of the loop; [closed] are the files closed so far, with
    their part number, and [outfile] what was written to the open one. *)
Record state := {
  current_part : nat;
  current_word_count : Z;
  closed : list (nat * list entry);
  outfile : list entry
}.

(** The body of [for msg in messages]. *)
Definition handle_message (WORDS_PER_FILE_LIMIT : Z) (st : state)
  (msg : message) : state :=
  if negb msg.(has_body) then st
  else
    let date := match msg.(date_title) with Some t => t | None => "?"%string end in
    let sender :=
      match msg.(from_name) with
      | Some t => clean_text t
      | None => "System"%string
      end in
    match msg.(text_div) with
    | None => st
    | Some raw =>
        let text := clean_text raw in
        let entry_words := count_words text in
        let st1 :=
          if (WORDS_PER_FILE_LIMIT <? st.(current_word_count) + entry_words)%Z
          then {| current_part := st.(current_part) + 1;
                  current_word_count := 0;
                  closed := st.(closed)
                              ++ [(st.(current_part), st.(outfile))];
                  outfile := [] |}
          else st in
        {| current_part := st1.(current_part);
           current_word_count := st1.(current_word_count) + entry_words;
           closed := st1.(closed);
           outfile := st1.(outfile)
                        ++ [{| e_date := date; e_sender := sender;
                               e_text := text |}] |}
    end.

(** The body of [for file_name in files]; [None] is a file on which
    [open] or the parser raised: the [except] prints and goes on. *)
Definition handle_file (WORDS_PER_FILE_LIMIT : Z) (st : state)
  (html_file : option (list message)) : state :=
  match html_file with
  | None => st
  | Some messages => fold_left (handle_message WORDS_PER_FILE_LIMIT) messages st
  end.

(** The files [main] leaves, in the order they were opened, from the files
    of the export in the order of [files.sort]. *)
Definition main (WORDS_PER_FILE_LIMIT : Z)
  (files : list (option (list message))) : list (nat * list entry) :=
  let st := fold_left (handle_file WORDS_PER_FILE_LIMIT) files
              {| current_part := 1; current_word_count := 0;
                 closed := []; outfile := [] |} in
  st.(closed) ++ [(st.(current_part), st.(outfile))].

(** The constant of the script. *)
Definition WORDS_PER_FILE_LIMIT : Z := 50000.

(** The entry of a message, when the loop writes one. *)
Definition entry_of (msg : message) : list entry :=
  if negb msg.(has_body) then []
  else match msg.(text_div) with
       | None => []
       | Some raw =>
           [{| e_date := match msg.(date_title) with
                         | Some t => t
                         | None => "?"%string
                         end;
               e_sender := match msg.(from_name) with
                           | Some t => clean_text t
                           | None => "System"%string
                           end;
               e_text := clean_text raw |}]
       end.

(** The messages of the files that could be read. *)
Definition messages_of (files : list (option (list message))) : list message :=
  flat_map (fun f => match f with Some ms => ms | None => [] end) files.

(** The words of a part, as the loop counts them. *)
Definition part_words (p : list entry) : Z :=
  fold_right (fun e acc => count_words e.(e_text) + acc)%Z 0%Z p.

End HtmlToTxt.

(** ** [epub_to_txt.py]: [SimpleHTMLTextExtractor] *)

Module Epub.

Definition BLOCK_TAGS : list string :=
  ["p"; "div"; "section"; "article"; "header"; "footer"; "aside"; "nav";
   "li"; "blockquote"; "pre"; "table"; "tr"; "td"; "th";
   "h1"; "h2"; "h3"; "h4"; "h5"; "h6"]%string.

Definition LINE_BREAK_TAGS : list string := ["br"; "hr"]%string.

(** [tag in TAGS] *)
Definition tag_in (tag : string) (tags : list string) : bool :=
  existsb (String.eqb tag) tags.

(** [self._chunks[-1]], for a list that is not empty. *)
Definition last_chunk (chunks : list string) : string :=
  last chunks EmptyString.

Definition _append (chunks : list string) (fragment : string) : list string :=
  if negb (truthy chunks) then chunks ++ [fragment]
  else if String.eqb fragment PyStr.nl
       then if negb (PyStr.endswith_char (ascii_of_nat 10) (last_chunk chunks))
            then chunks ++ [fragment]
            else chunks
       else chunks ++ [fragment].

Definition handle_starttag (chunks : list string) (tag : string)
  : list string :=
  let tag := PyStr.lower tag in
  if tag_in tag LINE_BREAK_TAGS then _append chunks PyStr.nl else chunks.

Definition handle_endtag (chunks : list string) (tag : string)
  : list string :=
  let tag := PyStr.lower tag in
  if tag_in tag BLOCK_TAGS then _append chunks PyStr.nl else chunks.

Section Extractor.

(** [html.unescape], as the library has it. *)
Variable unescape : string -> string.

Definition handle_data (chunks : list string) (data : string) : list string :=
  let text :=
    unescape (PyStr.replace_char (ascii_of_nat 160) (ascii_of_nat 32) data) in
  let collapsed := PyStr.join " " (PyStr.split text) in
  match collapsed with
  | EmptyString => chunks
  | _ =>
      let chunks :=
        if truthy chunks
           && negb (PyStr.endswith_char (ascii_of_nat 10) (last_chunk chunks)
                    || PyStr.endswith_char (ascii_of_nat 32) (last_chunk chunks))
        then chunks ++ [" "%string]
        else chunks in
      chunks ++ [collapsed]
  end.

(** What [HTMLParser.feed] calls, in order. *)
Inductive callback :=
| Starttag (tag : string)
| Endtag (tag : string)
| Data (data : string).

Definition handle (chunks : list string) (cb : callback) : list string :=
  match cb with
  | Starttag tag => handle_starttag chunks tag
  | Endtag tag => handle_endtag chunks tag
  | Data data => handle_data chunks data
  end.

(** [self._chunks] after the callbacks of a document. *)
Definition feed (callbacks : list callback) : list string :=
  fold_left handle callbacks [].

End Extractor.

(** The loop of [get_text]: [cleaned_lines] and [previous_blank]. *)
Definition clean_line (st : list string * bool) (line : string)
  : list string * bool :=
  let '(cleaned_lines, previous_blank) := st in
  let stripped := PyStr.strip line in
  match stripped with
  | EmptyString =>
      (if negb previous_blank then cleaned_lines ++ [EmptyString]
       else cleaned_lines,
       true)
  | _ => (cleaned_lines ++ [stripped], false)
  end.

Definition get_text (chunks : list string) : string :=
  let raw := PyStr.join EmptyString chunks in
  let lines := PyStr.splitlines raw in
  let cleaned_lines := fst (fold_left clean_line lines ([], true)) in
  PyStr.strip (PyStr.join PyStr.nl cleaned_lines).

(** [extract_text_from_markup], from the callbacks the parser makes on the
    decoded payload. *)
Definition extract_text_from_callbacks (unescape : string -> string)
  (callbacks : list callback) : string :=
  get_text (feed unescape callbacks).

(** *** The package document *)

(** An [xml.etree.ElementTree.Element]: its tag, its attributes and its
    children in document order. *)
#[local] Unset Elimination Schemes.

Inductive element :=
| Element (tag : string) (attrib : list (string * string))
    (children : list element).

#[local] Set Elimination Schemes.

Definition tag_of (e : element) : string :=
  let 'Element tag _ _ := e in tag.

Definition attrib_of (e : element) : list (string * string) :=
  let 'Element _ attrib _ := e in attrib.

Definition children_of (e : element) : list element :=
  let 'Element _ _ children := e in children.

(** [d.get(key)] on a dict kept as the list of its items. *)
Fixpoint dict_get {V} (key : string) (d : list (string * V)) : option V :=
  match d with
  | [] => None
  | (k, v) :: r => if String.eqb k key then Some v else dict_get key r
  end.

(** [d.get(key, default)] *)
Definition dict_get_or {V} (key : string) (default : V)
  (d : list (string * V)) : V :=
  match dict_get key d with Some v => v | None => default end.

(** [d[key] = v]: a key that is there keeps its place. *)
Fixpoint dict_set {V} (key : string) (v : V) (d : list (string * V))
  : list (string * V) :=
  match d with
  | [] => [(key, v)]
  | (k, v') :: r =>
      if String.eqb k key then (k, v) :: r else (k, v') :: dict_set key v r
  end.

(** [element.find(t)] and [element.findall(t)] for a tag [t]: the children
    with this tag. *)
Definition find (t : string) (e : element) : option element :=
  List.find (fun c => String.eqb (tag_of c) t) (children_of e).

Definition findall (t : string) (e : element) : list element :=
  filter (fun c => String.eqb (tag_of c) t) (children_of e).

(** The descendants of [e] in document order, for a path [.//t]. *)
Fixpoint descendants (e : element) : list element :=
  let 'Element _ _ children := e in
  flat_map (fun c => c :: descendants c) children.

(** What the functions raise. *)
Inductive exception :=
| ValueError (message : string)
| KeyError
| ParseError
| FileNotFoundError.

Inductive outcome (A : Type) :=
| Returns (a : A)
| Raises (e : exception).

Arguments Returns {A} a.
Arguments Raises {A} e.

(** The local [tag(name)] of [build_manifest] and [iter_spine_itemrefs]. *)
Definition qualified (ns name : string) : string :=
  match ns with
  | EmptyString => name
  | _ => ("{" ++ ns ++ "}" ++ name)%string
  end.

Record manifest_entry := {
  href : string;
  media_type : string
}.

Definition build_manifest (package_root : element) (ns : string)
  : outcome (list (string * manifest_entry)) :=
  match find (qualified ns "manifest") package_root with
  | None => Raises (ValueError "OPF manifest section not found.")
  | Some manifest_element =>
      Returns
        (fold_left
           (fun manifest item =>
              match dict_get "id" (attrib_of item),
                    dict_get "href" (attrib_of item) with
              | Some (String _ _ as item_id), Some (String _ _ as href) =>
                  dict_set item_id
                    {| href := href;
                       media_type :=
                         PyStr.lower
                           (dict_get_or "media-type" ""%string
                              (attrib_of item)) |}
                    manifest
              | _, _ => manifest
              end)
           (findall (qualified ns "item") manifest_element) [])
  end.

(** The ids that the generator yields; it raises before the first. *)
Definition iter_spine_itemrefs (package_root : element) (ns : string)
  : outcome (list string) :=
  match find (qualified ns "spine") package_root with
  | None => Raises (ValueError "OPF spine section not found.")
  | Some spine =>
      Returns
        (flat_map
           (fun itemref =>
              if String.eqb
                   (PyStr.lower
                      (dict_get_or "linear" "yes"%string (attrib_of itemref)))
                   "no"
              then []
              else match dict_get "idref" (attrib_of itemref) with
                   | Some (String _ _ as idref) => [idref]
                   | _ => []
                   end)
           (findall (qualified ns "itemref") spine))
  end.

(** The characters of [s] before the first [c], when there is one. *)
Fixpoint before (c : ascii) (s : string) : option string :=
  match s with
  | EmptyString => None
  | String a r =>
      if Ascii.eqb a c then Some EmptyString
      else option_map (String a) (before c r)
  end.

(** [re.match(r"\{([^}]+)\}", tag)], then group 1 or the empty string. *)
Definition namespace_of (tag : string) : string :=
  match tag with
  | String a r =>
      if Ascii.eqb a "{"
      then match before "}" r with
           | Some (String _ _ as ns) => ns
           | _ => EmptyString
           end
      else EmptyString
  | EmptyString => EmptyString
  end.

Section Package.

(** The payloads of the archive. *)
Variable payload : Type.

(** [zip_file.open(name)] and [read]; [None] is the [KeyError] of a name
    that is not in the archive. *)
Variable read : string -> option payload.

(** [ET.parse] and [getroot]; [None] is a document that does not parse. *)
Variable parse_xml : payload -> option element.

Variable decode_bytes : payload -> string.

(** The callbacks of [HTMLParser.feed] on a text. *)
Variable parser : string -> list callback.

Variable unescape : string -> string.

Variable normalize_member_path : string -> string -> string.

Definition extract_text_from_markup (p : payload) : string :=
  extract_text_from_callbacks unescape (parser (decode_bytes p)).

Definition locate_opf : outcome string :=
  match read "META-INF/container.xml" with
  | None =>
      Raises
        (ValueError "Container definition META-INF/container.xml not found.")
  | Some container =>
      match parse_xml container with
      | None => Raises ParseError
      | Some root =>
          match
            List.find
              (fun e =>
                 String.eqb (tag_of e)
                   "{urn:oasis:names:tc:opendocument:xmlns:container}rootfile")
              (descendants root)
          with
          | None =>
              Raises (ValueError "OPF rootfile entry missing from container.xml.")
          | Some rootfile =>
              match dict_get "full-path" (attrib_of rootfile) with
              | Some (String _ _ as opf_path) => Returns opf_path
              | _ =>
                  Raises
                    (ValueError
                       "OPF rootfile path not specified in container.xml.")
              end
          end
      end
  end.

(** The body of the loop of [extract_spine_text] over the spine. *)
Definition spine_body (opf_path : string)
  (manifest : list (string * manifest_entry))
  (sections : list string) (item_id : string) : list string :=
  match dict_get item_id manifest with
  | None => sections
  | Some manifest_entry =>
      let media_type := media_type manifest_entry in
      if negb (String.eqb media_type EmptyString)
         && negb (existsb (fun token => PyStr.contains token media_type)
                    ["html"; "xml"; "text"]%string)
      then sections
      else
        let member_path :=
          normalize_member_path opf_path (href manifest_entry) in
        match read member_path with
        | None => sections
        | Some p =>
            let text_content :=
              if String.eqb media_type "text/plain"
              then decode_bytes p
              else extract_text_from_markup p in
            let cleaned := PyStr.strip text_content in
            match cleaned with
            | EmptyString => sections
            | _ => sections ++ [cleaned]
            end
        end
  end.

Definition extract_spine_text (opf_path : string) : outcome (list string) :=
  match read opf_path with
  | None => Raises KeyError
  | Some opf =>
      match parse_xml opf with
      | None => Raises ParseError
      | Some package_root =>
          let namespace := namespace_of (tag_of package_root) in
          match build_manifest package_root namespace with
          | Raises e => Raises e
          | Returns manifest =>
              match iter_spine_itemrefs package_root namespace with
              | Raises e => Raises e
              | Returns item_ids =>
                  let sections :=
                    fold_left (spine_body opf_path manifest) item_ids [] in
                  if negb (truthy sections)
                  then
                    Raises
                      (ValueError
                         "No textual spine items found in the EPUB package.")
                  else Returns sections
              end
          end
      end
  end.

(** The text that [convert_epub_to_txt] writes to [output_path];
    [is_file] is the outcome of [epub_path.is_file()]. *)
Definition convert_epub_to_txt (is_file : bool) : outcome string :=
  if negb is_file then Raises FileNotFoundError
  else
    match locate_opf with
    | Raises e => Raises e
    | Returns opf_path =>
        match extract_spine_text opf_path with
        | Raises e => Raises e
        | Returns sections =>
            let final_text :=
              PyStr.join (PyStr.nl ++ PyStr.nl)%string sections in
            Returns (final_text ++ PyStr.nl)%string
        end
    end.

End Package.

End Epub.

(** ** Vocabulary of the statements *)

(** Where a chunk starts: the number of lines in the chunks before it. *)
Definition offset (pre : list (list line)) : nat := length (concat pre).

(** [chunked P s cs]: every chunk of [cs], laid out from position [s] on,
    satisfies [P] at its position. *)
Fixpoint chunked (P : nat -> list line -> Prop) (s : nat) (cs : list (list line))
  : Prop :=
  match cs with
  | [] => True
  | c :: r => P s c /\ chunked P (s + length c) r
  end.

(** [ascending lo hi l]: [l] is strictly increasing, within [lo, hi). *)
Fixpoint ascending (lo hi : nat) (l : list nat) : Prop :=
  match l with
  | [] => True
  | x :: r => lo <= x < hi /\ ascending (S x) hi r
  end.

(** Where the chunks of [cs] start, the first one starting at [s]. *)
Fixpoint starts (s : nat) (cs : list (list line)) : list nat :=
  match cs with
  | [] => []
  | c :: r => s :: starts (s + length c) r
  end.

(** The size of a chunk in bytes, as [split_file_by_bytes] counts it. *)
Definition line_bytes (l : line) : Z := Z.of_nat (PyStr.utf8_len l).

Definition chunk_bytes (c : list line) : Z :=
  fold_right (fun l acc => line_bytes l + acc)%Z 0%Z c.

(** *** The loop of [split_file_by_words]: variant and invariants *)

Module WordsInv.

Import Delimiter Delimiter.Words.

Section Inv.

Variable DELIMITER : list string.
Variable words_per_file : Z.
Variable all_lines : list line.

(** What decreases at every turn of the loop. *)
Definition variant (st : loop_state) : nat :=
  2 * (length all_lines - st.(i))
  + (if truthy st.(current_chunk) then 1 else 0).

(** What holds at every turn, with or without delimiters: the lines read so
    far are the chunks written followed by the current chunk, the counter of
    words is the word count of the current chunk, the parts are numbered
    from 1 on, and no written chunk is empty. *)
Definition base (st : loop_state) : Prop :=
  st.(i) <= length all_lines
  /\ concat (chunks st.(written)) ++ st.(current_chunk)
     = firstn st.(i) all_lines
  /\ st.(current_words) = chunk_words st.(current_chunk)
  /\ part_numbers st.(written) = seq 1 (length (chunks st.(written)))
  /\ st.(file_count) = S (length (chunks st.(written)))
  /\ Forall (fun c => c <> []) (chunks st.(written))
  /\ (st.(current_chunk) = [] -> all_lines <> [] -> st.(i) < length all_lines).

(** A Boundary: a split point of the classifier of [split_file_by_delimiter]. *)
Definition boundary (k : nat) : Prop := In k (split_points DELIMITER all_lines).

(** In a chunk that starts at [s], the words before any Boundary inside the
    chunk stay below the budget. *)
Definition inner_ok (s : nat) (c : list line) : Prop :=
  forall b, s < b < s + length c -> boundary b ->
            (chunk_words (firstn (b - s) c) < words_per_file)%Z.

(** A chunk flushed by the delimiter-aware test. *)
Definition flushed_at_boundary (s : nat) (c : list line) : Prop :=
  (words_per_file <= chunk_words c)%Z
  /\ boundary (s + length c)
  /\ inner_ok s c.

Definition delim_inv (st : loop_state) : Prop :=
  chunked flushed_at_boundary 0 (chunks st.(written))
  /\ inner_ok (offset (chunks st.(written))) st.(current_chunk).

(** From its second line on, a chunk of the greedy policy is within the
    budget after every append. *)
Definition greedy_inner (c : list line) : Prop :=
  forall n, 2 <= n <= length c ->
            (chunk_words (firstn n c) <= words_per_file)%Z.

(** A chunk flushed by the greedy test: the next line did not fit. *)
Definition flushed_greedy (s : nat) (c : list line) : Prop :=
  greedy_inner c
  /\ (words_per_file
      < chunk_words c + line_words (nth (s + length c) all_lines EmptyString))%Z.

Definition greedy_inv (st : loop_state) : Prop :=
  chunked flushed_greedy 0 (chunks st.(written))
  /\ greedy_inner st.(current_chunk).

End Inv.

End WordsInv.

(** The loop of [split_file_delimiter.py] and the [for] loop of
    [split_file_simple.py] keep the same variables, but for the index. *)
Definition to_simple (st : Delimiter.Words.loop_state) : Simple.words_state :=
  {| Simple.file_count := st.(Delimiter.Words.file_count);
     Simple.current_chunk := st.(Delimiter.Words.current_chunk);
     Simple.current_words := st.(Delimiter.Words.current_words);
     Simple.written := st.(Delimiter.Words.written) |}.

Definition of_simple (idx : nat) (st : Simple.words_state)
  : Delimiter.Words.loop_state :=
  {| Delimiter.Words.file_count := st.(Simple.file_count);
     Delimiter.Words.current_chunk := st.(Simple.current_chunk);
     Delimiter.Words.current_words := st.(Simple.current_words);
     Delimiter.Words.i := idx;
     Delimiter.Words.written := st.(Simple.written) |}.

(** *** The Boundary of the specification *)

(** Position [k] holds a line that contains a delimiter, and it is the first
    line, or only blank lines come before it, or the nearest line before it
    that is not blank contains no delimiter. *)
Definition boundary_spec (delimiters : list string) (all_lines : list line)
  (k : nat) : Prop :=
  k < length all_lines
  /\ Delimiter.line_contains_delimiter delimiters (nth k all_lines EmptyString)
     = true
  /\ (k = 0
      \/ (forall j, j < k -> is_blank (nth j all_lines EmptyString) = true)
      \/ exists p,
          p < k
          /\ is_blank (nth p all_lines EmptyString) = false
          /\ (forall j, p < j < k ->
                        is_blank (nth j all_lines EmptyString) = true)
          /\ Delimiter.line_contains_delimiter delimiters
               (nth p all_lines EmptyString) = false).

(** *** Sample files *)

Module Ex.

Import PyStr.

Definition chat_delimiters : list string := ["-- Chat:"%string].

Definition chat_A : line := ("-- Chat: A" ++ nl)%string.
Definition chat_B : line := ("-- Chat: B" ++ nl)%string.
Definition hello : line := ("hello" ++ nl)%string.
Definition world : line := ("world" ++ nl)%string.
Definition intro : line := ("intro" ++ nl)%string.

(** The scenario of the specification: two sections. *)
Definition chat_lines : list line := [chat_A; hello; chat_B; world].

(** Lines before the first delimiter. *)
Definition intro_lines : list line := [intro; chat_A; hello].

(** Two delimiter lines with a blank line between them. *)
Definition repeated_lines : list line := [chat_A; nl; chat_B; world].

(** A delimiter made of white space: the line [" \n"] contains it and is
    blank. *)
Definition space_delimiters : list string := [" "%string].
Definition space_lines : list line := [(" " ++ nl)%string; ("a b" ++ nl)%string].

(** One line of three words. *)
Definition three_words : list line := [("a b c" ++ nl)%string].

(** [os.path] on the sample path [chat.txt]. *)
Definition splitext_basename (p : string) : string * string :=
  ("chat"%string, ".txt"%string).
Definition path_join (d n : string) : string := (d ++ "/" ++ n)%string.

(** A small EPUB archive: a container, a package with two spine items, a
    plain text and a page of markup.  A payload is named by a string. *)
Definition epub_read (name : string) : option string :=
  if String.eqb name "META-INF/container.xml" then Some "container"%string
  else if String.eqb name "content.opf" then Some "package"%string
  else if String.eqb name "ch1.txt" then Some "  hello "%string
  else if String.eqb name "ch2.xhtml" then Some "<p>two</p>"%string
  else None.

Definition epub_parse_xml (p : string) : option Epub.element :=
  if String.eqb p "container"
  then
    Some
      (Epub.Element "container" []
         [Epub.Element "rootfiles" []
            [Epub.Element
               "{urn:oasis:names:tc:opendocument:xmlns:container}rootfile"
               [("full-path", "content.opf")]%string []]])
  else
    Some
      (Epub.Element "package" []
         [Epub.Element "manifest" []
            [Epub.Element "item"
               [("id", "c1"); ("href", "ch1.txt");
                ("media-type", "text/plain")]%string [];
             Epub.Element "item"
               [("id", "c2"); ("href", "ch2.xhtml");
                ("media-type", "application/xhtml+xml")]%string []];
          Epub.Element "spine" []
            [Epub.Element "itemref" [("idref", "c1")]%string [];
             Epub.Element "itemref" [("idref", "c2")]%string []]]).

Definition epub_parser (text : string) : list Epub.callback :=
  [Epub.Starttag "p"; Epub.Data "two"; Epub.Endtag "p"]%string.

Definition epub_normalize_member_path (opf_path href : string) : string :=
  href.

End Ex.

(** *** The loop of [htmltotxt.py]: invariants *)

Module HtmlInv.

Import HtmlToTxt.

Section Inv.

Variable limit : Z.

(** A part is within the limit, or holds one entry at most. *)
Definition fits (p : list entry) : Prop :=
  (part_words p <= limit)%Z \/ length p <= 1.

(** In a sequence of parts each part fits, and the first entry of the next
    part would have brought it above the limit. *)
Fixpoint parts_ok (ps : list (list entry)) : Prop :=
  match ps with
  | [] => True
  | p :: r =>
      fits p
      /\ match r with
         | [] => True
         | q :: _ =>
             exists e q', q = e :: q'
                          /\ (limit < part_words p + count_words e.(e_text))%Z
         end
      /\ parts_ok r
  end.

(** What the loop keeps, [pre] being the messages read. *)
Definition inv (pre : list message) (st : state) : Prop :=
  concat (map snd st.(closed)) ++ st.(outfile) = flat_map entry_of pre
  /\ st.(current_word_count) = part_words st.(outfile)
  /\ map fst st.(closed) = seq 1 (length st.(closed))
  /\ st.(current_part) = S (length st.(closed))
  /\ parts_ok (map snd st.(closed) ++ [st.(outfile)])
  /\ (st.(outfile) = [] -> st.(closed) = [])
  /\ Forall (fun p => p <> []) (tl (map snd st.(closed))).

End Inv.

End HtmlInv.

(** ** Vocabulary for the text extractor of [epub_to_txt.py] *)

Module EpubInv.

Fixpoint no_space (s : string) : bool :=
  match s with
  | EmptyString => true
  | String c r => negb (PyStr.isspace c) && no_space r
  end.

(** A word as [str.split] returns it: not empty, no space in it. *)
Definition word (w : string) : Prop :=
  w <> EmptyString /\ no_space w = true.

(** A line of text: one word or more, one space between two. *)
Definition text_line (l : string) : Prop :=
  exists ws, ws <> [] /\ Forall word ws /\ l = PyStr.join " " ws.

Definition first_is_space (s : string) : bool :=
  match s with
  | EmptyString => false
  | String c _ => PyStr.isspace c
  end.

Fixpoint last_is_space (s : string) : bool :=
  match s with
  | EmptyString => false
  | String c r =>
      match r with
      | EmptyString => PyStr.isspace c
      | _ => last_is_space r
      end
  end.

(** Not empty, and no space at either end. *)
Definition trimmed (s : string) : Prop :=
  s <> EmptyString /\ first_is_space s = false /\ last_is_space s = false.

Fixpoint no_linebreak (s : string) : bool :=
  match s with
  | EmptyString => true
  | String c r => negb (PyStr.is_linebreak c) && no_linebreak r
  end.

Definition is_nil {A} (l : list A) : bool :=
  match l with [] => true | _ => false end.

(** The text of the chunks: the lines [L] with a line break between two,
    one before them if [lead], one after them if [trail]. *)
Definition render (lead : bool) (L : list string) (trail : bool) : string :=
  ((if lead then PyStr.nl else EmptyString)
   ++ PyStr.join PyStr.nl L
   ++ (if trail then PyStr.nl else EmptyString))%string.

(** What the callbacks keep true of [_chunks]. *)
Record shape (chunks : list string) (lead : bool) (L : list string)
  (trail : bool) : Prop := {
  shape_raw : PyStr.join EmptyString chunks = render lead L trail;
  shape_lines : Forall text_line L;
  shape_trail : trail = true -> L <> [];
  shape_nonempty : chunks <> [] -> lead = true \/ L <> [];
  shape_last_nl :
    PyStr.endswith_char (ascii_of_nat 10) (Epub.last_chunk chunks)
    = trail || (lead && is_nil L);
  shape_last_sp :
    PyStr.endswith_char (ascii_of_nat 32) (Epub.last_chunk chunks) = false
}.

Definition well_shaped (chunks : list string) : Prop :=
  exists lead L trail, shape chunks lead L trail.

(** The callback asks for a line break: a start tag of [LINE_BREAK_TAGS] or
    an end tag of [BLOCK_TAGS], in any case of the letters. *)
Definition breaks_line (cb : Epub.callback) : bool :=
  match cb with
  | Epub.Starttag tag => Epub.tag_in (PyStr.lower tag) Epub.LINE_BREAK_TAGS
  | Epub.Endtag tag => Epub.tag_in (PyStr.lower tag) Epub.BLOCK_TAGS
  | Epub.Data _ => false
  end.

(** The words of a piece of character data, as [handle_data] reads them. *)
Definition words_of (unescape : string -> string) (cb : Epub.callback)
  : list string :=
  match cb with
  | Epub.Data data =>
      PyStr.split
        (unescape
           (PyStr.replace_char (ascii_of_nat 160) (ascii_of_nat 32) data))
  | _ => []
  end.

(** [_chunks] while no line break has been asked for: the words [ws] so
    far, one space between two. *)
Definition one_line (ws : list string) (chunks : list string) : Prop :=
  PyStr.join EmptyString chunks = PyStr.join " " ws
  /\ Forall word ws
  /\ (chunks = [] -> ws = [])
  /\ (chunks <> [] ->
      ws <> []
      /\ PyStr.endswith_char (ascii_of_nat 10) (Epub.last_chunk chunks) = false
      /\ PyStr.endswith_char (ascii_of_nat 32) (Epub.last_chunk chunks)
         = false).

End EpubInv.

(** * Properties *)

(** ** Lists, chunks and events *)

Section ListFacts.

Context {A : Type}.

Lemma truthy_true (l : list A) : truthy l = true <-> l <> [].
Proof. destruct l; simpl; split; congruence. Qed.

Lemma truthy_false (l : list A) : truthy l = false <-> l = [].
Proof. destruct l; simpl; split; congruence. Qed.

Lemma truthy_snoc (l : list A) (x : A) : truthy (l ++ [x]) = true.
Proof. destruct l; reflexivity. Qed.

Lemma slice_from_0 (b : nat) (l : list A) : slice 0 b l = firstn b l.
Proof. unfold slice. rewrite Nat.sub_0_r. reflexivity. Qed.

Lemma slice_to_end (a : nat) (l : list A) : slice a (length l) l = skipn a l.
Proof.
  unfold slice. apply firstn_all2. rewrite length_skipn. lia.
Qed.

Lemma slice_app_skipn (a b : nat) (l : list A) :
  a <= b -> slice a b l ++ skipn b l = skipn a l.
Proof.
  intros Hab. unfold slice.
  replace (skipn b l) with (skipn (b - a) (skipn a l)).
  - apply firstn_skipn.
  - rewrite skipn_skipn. f_equal. lia.
Qed.

Lemma slice_length (a b : nat) (l : list A) :
  a <= b -> b <= length l -> length (slice a b l) = b - a.
Proof.
  intros Hab Hb. unfold slice.
  rewrite length_firstn, length_skipn. lia.
Qed.

Lemma firstn_snoc_nth_error (l : list A) (n : nat) (x : A) :
  nth_error l n = Some x -> firstn (S n) l = firstn n l ++ [x].
Proof.
  revert n. induction l as [|y l IH]; intros [|n] H; simpl in *; try discriminate.
  - congruence.
  - f_equal. auto.
Qed.

Lemma skipn_cons_nth_error (l : list A) (n : nat) (x : A) :
  nth_error l n = Some x -> skipn n l = x :: skipn (S n) l.
Proof.
  revert n. induction l as [|y l IH]; intros [|n] H; simpl in *; try discriminate.
  - congruence.
  - auto.
Qed.

Lemma nth_error_nth_default (l : list A) (n : nat) (x d : A) :
  nth_error l n = Some x -> nth n l d = x.
Proof.
  revert n. induction l as [|y l IH]; intros [|n] H; simpl in *; try discriminate.
  - congruence.
  - auto.
Qed.

(** A list that ends with an element, cut in two somewhere. *)
Lemma snoc_eq_app_cons (old pre post : list A) (x c : A) :
  old ++ [x] = pre ++ c :: post ->
  (post = [] /\ pre = old /\ c = x)
  \/ exists post', post = post' ++ [x] /\ old = pre ++ c :: post'.
Proof.
  intros H. destruct (exists_last (l := c :: post)) as [post' [y Hy]];
    [discriminate|].
  rewrite Hy, app_assoc in H. apply app_inj_tail in H. destruct H as [H ->].
  destruct post' as [|c0 post'].
  - left. simpl in Hy. injection Hy as -> ->. rewrite app_nil_r in H. auto.
  - right. simpl in Hy. injection Hy as -> ->. eauto.
Qed.

End ListFacts.

Lemma parts_app (evs evs' : list event) : parts (evs ++ evs') = parts evs ++ parts evs'.
Proof.
  induction evs as [|[n c|w] evs IH]; simpl; congruence.
Qed.

Lemma chunks_app (evs evs' : list event) :
  chunks (evs ++ evs') = chunks evs ++ chunks evs'.
Proof. unfold chunks. rewrite parts_app. apply map_app. Qed.

Lemma chunks_snoc (evs : list event) (n : nat) (c : list line) :
  chunks (evs ++ [WritePart n c]) = chunks evs ++ [c].
Proof. apply chunks_app. Qed.

Lemma part_numbers_app (evs evs' : list event) :
  part_numbers (evs ++ evs') = part_numbers evs ++ part_numbers evs'.
Proof. unfold part_numbers. rewrite parts_app. apply map_app. Qed.

Lemma chunk_words_app (c c' : list line) :
  chunk_words (c ++ c') = (chunk_words c + chunk_words c')%Z.
Proof.
  induction c as [|l c IH]; simpl; [reflexivity|]. rewrite IH. lia.
Qed.

Lemma chunk_words_one (l : line) : chunk_words [l] = line_words l.
Proof. simpl. lia. Qed.

Lemma line_words_nonneg (l : line) : (0 <= line_words l)%Z.
Proof. unfold line_words. lia. Qed.

Lemma chunk_words_nonneg (c : list line) : (0 <= chunk_words c)%Z.
Proof.
  induction c as [|l c IH]; simpl; [lia|]. pose proof (line_words_nonneg l). lia.
Qed.


Lemma offset_app (pre post : list (list line)) :
  offset (pre ++ post) = offset pre + offset post.
Proof. unfold offset. rewrite concat_app, length_app. reflexivity. Qed.

Lemma offset_snoc (pre : list (list line)) (c : list line) :
  offset (pre ++ [c]) = offset pre + length c.
Proof. rewrite offset_app. unfold offset. simpl. rewrite app_nil_r. reflexivity. Qed.


Lemma chunked_app P s cs cs' :
  chunked P s (cs ++ cs') <-> chunked P s cs /\ chunked P (s + offset cs) cs'.
Proof.
  revert s. induction cs as [|c cs IH]; intros s; simpl.
  - unfold offset. simpl. rewrite Nat.add_0_r. tauto.
  - rewrite IH. unfold offset. simpl. rewrite length_app, Nat.add_assoc. tauto.
Qed.

Lemma chunked_snoc P s cs c :
  chunked P s (cs ++ [c]) <-> chunked P s cs /\ P (s + offset cs) c.
Proof. rewrite chunked_app. simpl. tauto. Qed.

Lemma chunked_at P s pre c post :
  chunked P s (pre ++ c :: post) -> P (s + offset pre) c.
Proof. rewrite chunked_app. simpl. tauto. Qed.

(** A chunk is the slice of the whole at its offset. *)
Lemma chunk_is_slice (pre : list (list line)) (c : list line)
  (post : list (list line)) :
  slice (offset pre) (offset pre + length c) (concat (pre ++ c :: post)) = c.
Proof.
  unfold slice, offset. rewrite concat_app. simpl.
  rewrite skipn_app, skipn_all, Nat.sub_diag. simpl.
  replace (length (concat pre) + length c - length (concat pre))
    with (length c + 0) by lia.
  rewrite firstn_app_2. simpl. apply app_nil_r.
Qed.

(** Two chunks of the same list that hold the same position are the same
    chunk. *)
Lemma chunk_at_position_unique (cs pre pre' post post' : list (list line))
  (c c' : list line) (b : nat) :
  cs = pre ++ c :: post -> cs = pre' ++ c' :: post' ->
  offset pre <= b < offset pre + length c ->
  offset pre' <= b < offset pre' + length c' ->
  pre = pre' /\ c = c' /\ post = post'.
Proof.
  intros H H' Hb Hb'. rewrite H in H'.
  apply app_eq_app in H'. destruct H' as (m & [[Hp Hq] | [Hp Hq]]).
  - destruct m as [|x m]; simpl in Hq.
    + rewrite app_nil_r in Hp. injection Hq as -> ->. auto.
    + exfalso. injection Hq as -> ->. rewrite Hp in Hb.
      rewrite offset_app in Hb. unfold offset at 2 in Hb. simpl in Hb.
      rewrite length_app in Hb. lia.
  - destruct m as [|x m]; simpl in Hq.
    + rewrite app_nil_r in Hp. injection Hq as -> ->. auto.
    + exfalso. injection Hq as -> ->. rewrite Hp in Hb'.
      rewrite offset_app in Hb'. unfold offset at 2 in Hb'. simpl in Hb'.
      rewrite length_app in Hb'. lia.
Qed.

(** When every chunk but the first starts on a mark, a span with no mark
    strictly inside lies within one chunk. *)
Lemma span_in_one_chunk (B : nat -> Prop) (cs : list (list line)) :
  forall s,
    (forall pre c post, cs = pre ++ c :: post -> pre <> [] -> B (s + offset pre)) ->
    forall b e, s <= b -> b < e -> e <= s + offset cs ->
                (forall k, b < k < e -> ~ B k) ->
                exists pre c post,
                  cs = pre ++ c :: post
                  /\ s + offset pre <= b /\ e <= s + offset pre + length c.
Proof.
  induction cs as [|c0 r IH]; intros s Hstart b e Hsb Hbe He Hno.
  - unfold offset in He. simpl in He. lia.
  - assert (Hoff : offset (c0 :: r) = length c0 + offset r).
    { unfold offset. simpl. apply length_app. }
    destruct (Nat.lt_ge_cases b (s + length c0)) as [Hin|Hout].
    + exists [], c0, r. split; [reflexivity|]. unfold offset. simpl.
      split; [lia|]. rewrite Nat.add_0_r.
      destruct (Nat.le_gt_cases e (s + length c0)) as [Hle|Hgt]; [assumption|].
      exfalso. destruct r as [|c1 r'].
      * unfold offset in Hoff, He. simpl in *. rewrite app_nil_r in He. lia.
      * apply (Hno (s + length c0)); [lia|].
        specialize (Hstart [c0] c1 r' eq_refl). unfold offset in Hstart.
        simpl in Hstart. rewrite app_nil_r in Hstart. apply Hstart. discriminate.
    + destruct (IH (s + length c0)) with (b := b) (e := e)
        as (pre & c & post & -> & Hlo & Hhi); try assumption; try lia.
      * intros pre c post -> Hpre.
        specialize (Hstart (c0 :: pre) c post eq_refl).
        assert (Hoff' : offset (c0 :: pre) = length c0 + offset pre).
        { unfold offset. simpl. apply length_app. }
        rewrite Hoff' in Hstart. rewrite <- Nat.add_assoc. apply Hstart.
        discriminate.
      * exists (c0 :: pre), c, post. split; [reflexivity|].
        assert (Hoff' : offset (c0 :: pre) = length c0 + offset pre).
        { unfold offset. simpl. apply length_app. }
        rewrite Hoff'. lia.
Qed.

(** ** The boundary classifier *)

Module ClassifierFacts.

Import Delimiter.

Section Classifier.

Variable delimiters : list string.
Variable all_lines : list line.

Local Abbreviation line_at k := (nth k all_lines EmptyString).
Local Abbreviation delim k := (line_contains_delimiter delimiters (line_at k) = true).
Local Abbreviation blank k := (is_blank (line_at k) = true).

(** The backward walk stops on the nearest line that is not blank. *)
Lemma prev_non_empty_None idx :
  prev_non_empty all_lines idx = None <-> forall j, j < idx -> blank j.
Proof.
  induction idx as [|p IH]; simpl.
  - split; [intros _ j Hj; lia | reflexivity].
  - destruct (is_blank (line_at p)) eqn:Hb.
    + rewrite IH. split; intros H j Hj.
      * destruct (Nat.eq_dec j p) as [->|Hne]; [assumption | apply H; lia].
      * apply H; lia.
    + split; [discriminate|]. intros H. specialize (H p (Nat.lt_succ_diag_r p)).
      congruence.
Qed.

Lemma prev_non_empty_Some idx p :
  prev_non_empty all_lines idx = Some p <->
  p < idx /\ is_blank (line_at p) = false
  /\ forall j, p < j < idx -> blank j.
Proof.
  induction idx as [|q IH]; simpl.
  - split; [discriminate | intros [H _]; lia].
  - destruct (is_blank (line_at q)) eqn:Hb.
    + rewrite IH. split; intros (Hlt & Hp & Hbetween).
      * repeat split; [lia | assumption |]. intros j Hj.
        destruct (Nat.eq_dec j q) as [->|Hne]; [assumption | apply Hbetween; lia].
      * assert (p <> q) by congruence.
        repeat split; [lia | assumption |]. intros j Hj. apply Hbetween; lia.
    + split.
      * intros [= <-]. repeat split; [lia | assumption |]. intros j Hj; lia.
      * intros (Hlt & Hp & Hbetween).
        destruct (Nat.eq_dec p q) as [->|Hne]; [reflexivity|].
        specialize (Hbetween q). rewrite Hb in Hbetween.
        assert (false = true) by (apply Hbetween; lia). discriminate.
Qed.

(** The delimiter indices are the positions of the lines that contain a
    delimiter, in increasing order. *)
Lemma In_delimiter_indices_from i ls k :
  In k (delimiter_indices_from delimiters i ls) <->
  exists j, k = i + j /\ j < length ls
            /\ line_contains_delimiter delimiters (nth j ls EmptyString) = true.
Proof.
  revert i. induction ls as [|l ls IH]; intros i; simpl.
  - split; [tauto | intros (j & _ & Hj & _); lia].
  - assert (Hrest : In k (delimiter_indices_from delimiters (S i) ls) <->
                    exists j, k = i + S j /\ j < length ls /\
                      line_contains_delimiter delimiters (nth j ls EmptyString) = true).
    { rewrite IH. split; intros (j & Hk & Hj); exists j; split; auto; lia. }
    destruct (line_contains_delimiter delimiters l) eqn:Hl; simpl;
      rewrite ?Hrest; split.
    + intros [<-|(j & Hk & Hj & Hd)].
      * exists 0. rewrite Nat.add_0_r. repeat split; [lia | assumption].
      * exists (S j). repeat split; [assumption | lia | assumption].
    + intros ([|j] & Hk & Hj & Hd).
      * left. lia.
      * right. exists j. repeat split; [assumption | lia | assumption].
    + intros (j & Hk & Hj & Hd). exists (S j).
      repeat split; [assumption | lia | assumption].
    + intros ([|j] & Hk & Hj & Hd); [congruence|].
      exists j. repeat split; [assumption | lia | assumption].
Qed.

Lemma In_delimiter_indices k :
  In k (delimiter_indices delimiters all_lines) <->
  k < length all_lines /\ delim k.
Proof.
  unfold delimiter_indices. rewrite In_delimiter_indices_from. simpl. split.
  - intros (j & -> & H). exact H.
  - intros H. exists k. auto.
Qed.

Lemma In_split_points k :
  In k (split_points delimiters all_lines) <->
  k < length all_lines /\ delim k
  /\ is_split_point delimiters all_lines k = true.
Proof.
  unfold split_points. rewrite filter_In, In_delimiter_indices. tauto.
Qed.

End Classifier.


Lemma ascending_weaken lo lo' hi l :
  lo' <= lo -> ascending lo hi l -> ascending lo' hi l.
Proof. destruct l; simpl; [tauto|]. intros H [H1 H2]. split; [lia | assumption]. Qed.

Lemma ascending_filter f lo hi l :
  ascending lo hi l -> ascending lo hi (filter f l).
Proof.
  revert lo. induction l as [|x l IH]; intros lo; simpl; [tauto|].
  intros [H1 H2]. destruct (f x); simpl.
  - split; auto.
  - apply ascending_weaken with (S x); [lia | auto].
Qed.

Lemma delimiter_indices_from_ascending delimiters i ls :
  ascending i (i + length ls) (delimiter_indices_from delimiters i ls).
Proof.
  revert i. induction ls as [|l ls IH]; intros i; simpl; [exact I|].
  specialize (IH (S i)). replace (S i + length ls) with (i + S (length ls)) in IH by lia.
  destruct (line_contains_delimiter delimiters l); simpl.
  - split; [lia | assumption].
  - apply ascending_weaken with (S i); [lia | assumption].
Qed.

Lemma split_points_ascending delimiters all_lines :
  ascending 0 (length all_lines) (split_points delimiters all_lines).
Proof.
  apply ascending_filter. apply (delimiter_indices_from_ascending delimiters 0).
Qed.

(** No line before the first delimiter index contains a delimiter. *)
Lemma before_first_delimiter_index delimiters i ls d0 r :
  delimiter_indices_from delimiters i ls = d0 :: r ->
  forall j, i + j < d0 ->
            line_contains_delimiter delimiters (nth j ls EmptyString) = false.
Proof.
  revert i. induction ls as [|l ls IH]; intros i; simpl; [discriminate|].
  destruct (line_contains_delimiter delimiters l) eqn:Hl.
  - intros [= <- _] j Hj. lia.
  - intros H [|j] Hj; [assumption|]. apply (IH (S i) H). lia.
Qed.

(** The first delimiter index is always a split point: the [elif] branch of
    Step 3 is never taken. *)
Lemma split_points_nonempty delimiters all_lines :
  delimiter_indices delimiters all_lines <> [] ->
  split_points delimiters all_lines <> [].
Proof.
  unfold split_points, delimiter_indices.
  destruct (delimiter_indices_from delimiters 0 all_lines) as [|d0 r] eqn:Hd;
    [congruence|]. intros _. simpl.
  assert (Hsp : is_split_point delimiters all_lines d0 = true).
  { unfold is_split_point. destruct d0 as [|d]; [reflexivity|].
    destruct (prev_non_empty all_lines (S d)) as [p|] eqn:Hp; [|reflexivity].
    apply prev_non_empty_Some in Hp. destruct Hp as (Hlt & _ & _).
    rewrite (before_first_delimiter_index _ _ _ Hd p); [reflexivity | simpl; lia]. }
  rewrite Hsp. discriminate.
Qed.

End ClassifierFacts.

(** ** The delimiter-only splitter *)

Module DelimiterFacts.

Import Delimiter ClassifierFacts.

Section Sections.

Variable all_lines : list line.

(** Between two successive split points the slice is not empty, so the
    guard [if section_lines] always passes. *)
Lemma write_sections_unfold start_idx rest file_count lo :
  ascending lo (length all_lines) (start_idx :: rest) ->
  write_sections all_lines (start_idx :: rest) file_count =
  WritePart (S file_count)
    (slice start_idx (hd (length all_lines) rest) all_lines)
    :: write_sections all_lines rest (S file_count).
Proof.
  intros [Hs Hr]. simpl.
  set (end_idx := match rest with [] => length all_lines | next :: _ => next end).
  assert (He : end_idx = hd (length all_lines) rest) by (destruct rest; reflexivity).
  assert (Hlt : start_idx < end_idx <= length all_lines).
  { subst end_idx. destruct rest as [|next r]; simpl in *; lia. }
  assert (Hne : truthy (slice start_idx end_idx all_lines) = true).
  { apply truthy_true. intros Hnil.
    pose proof (slice_length (a := start_idx) (b := end_idx) all_lines) as Hl.
    rewrite Hnil in Hl. simpl in Hl. lia. }
  rewrite Hne, He. reflexivity.
Qed.

Lemma write_sections_concat sps file_count lo :
  ascending lo (length all_lines) sps ->
  concat (chunks (write_sections all_lines sps file_count)) =
  match sps with [] => [] | s0 :: _ => skipn s0 all_lines end.
Proof.
  revert file_count lo. induction sps as [|s0 rest IH]; intros fc lo Hasc;
    [reflexivity|].
  rewrite (write_sections_unfold _ Hasc). destruct Hasc as [Hs Hr].
  unfold chunks in *. simpl. rewrite (IH _ _ Hr).
  destruct rest as [|s1 r]; simpl.
  - rewrite app_nil_r. apply slice_to_end.
  - apply slice_app_skipn. simpl in Hr. lia.
Qed.

Lemma write_sections_numbers sps file_count lo :
  ascending lo (length all_lines) sps ->
  part_numbers (write_sections all_lines sps file_count) =
  seq (S file_count) (length sps).
Proof.
  revert file_count lo. induction sps as [|s0 rest IH]; intros fc lo Hasc;
    [reflexivity|].
  rewrite (write_sections_unfold _ Hasc). destruct Hasc as [Hs Hr].
  unfold part_numbers in *. simpl. rewrite (IH _ _ Hr). reflexivity.
Qed.

Lemma write_sections_nonempty sps file_count :
  Forall (fun c => c <> []) (chunks (write_sections all_lines sps file_count)).
Proof.
  revert file_count. induction sps as [|s0 rest IH]; intros fc; simpl;
    [constructor|].
  match goal with |- context [truthy ?x] => destruct (truthy x) eqn:Hne end.
  - unfold chunks. simpl. constructor; [apply truthy_true; exact Hne | apply IH].
  - apply IH.
Qed.

End Sections.

(** The three ways [split_file_by_delimiter] returns. *)
Lemma split_file_by_delimiter_cases d all_lines :
  let delimiters := normalize d in
  (all_lines = []
   /\ split_file_by_delimiter d all_lines = [PrintWarning EmptyFile])
  \/ (all_lines <> []
      /\ delimiter_indices delimiters all_lines = []
      /\ split_file_by_delimiter d all_lines =
         [WritePart 1 all_lines; PrintWarning (NoDelimitersFound delimiters)])
  \/ (all_lines <> []
      /\ exists s0 rest,
          split_points delimiters all_lines = s0 :: rest
          /\ split_file_by_delimiter d all_lines =
             if 0 <? s0
             then WritePart 0 (firstn s0 all_lines)
                    :: write_sections all_lines (s0 :: rest) 1
             else write_sections all_lines (s0 :: rest) 0).
Proof.
  intros delimiters. unfold split_file_by_delimiter. fold delimiters.
  destruct all_lines as [|l ls] eqn:Hls; [left; auto | right]. rewrite <- Hls.
  assert (Hne : all_lines <> []) by (rewrite Hls; discriminate).
  replace (truthy all_lines) with true by (rewrite Hls; reflexivity). simpl negb.
  cbv iota.
  destruct (delimiter_indices delimiters all_lines) as [|d0 r] eqn:Hd.
  - left. auto.
  - right. split; [assumption|]. simpl truthy. simpl negb. cbv iota.
    pose proof (@split_points_nonempty delimiters all_lines) as Hsp.
    rewrite Hd in Hsp.
    destruct (split_points delimiters all_lines) as [|s0 rest] eqn:Hs.
    + exfalso. apply Hsp; [discriminate | reflexivity].
    + exists s0, rest. split; [reflexivity|]. rewrite slice_from_0. reflexivity.
Qed.

Lemma split_file_by_delimiter_concat d all_lines :
  concat (chunks (split_file_by_delimiter d all_lines)) = all_lines.
Proof.
  destruct (split_file_by_delimiter_cases d all_lines)
    as [[-> ->] | [(_ & _ & ->) | (_ & s0 & rest & Hs & ->)]].
  - reflexivity.
  - simpl. apply app_nil_r.
  - pose proof (split_points_ascending (normalize d) all_lines) as Hasc.
    rewrite Hs in Hasc.
    destruct (0 <? s0) eqn:H0.
    + change (firstn s0 all_lines
              ++ concat (chunks (write_sections all_lines (s0 :: rest) 1))
              = all_lines).
      rewrite (@write_sections_concat all_lines _ _ 0 Hasc). apply firstn_skipn.
    + rewrite (@write_sections_concat all_lines _ _ 0 Hasc).
      apply Nat.ltb_ge in H0. replace s0 with 0 by lia. reflexivity.
Qed.

Lemma split_file_by_delimiter_nonempty d all_lines :
  Forall (fun c => c <> []) (chunks (split_file_by_delimiter d all_lines)).
Proof.
  destruct (split_file_by_delimiter_cases d all_lines)
    as [[-> ->] | [(Hne & _ & ->) | (Hne & s0 & rest & Hs & ->)]].
  - constructor.
  - repeat constructor. assumption.
  - pose proof (split_points_ascending (normalize d) all_lines) as Hasc.
    rewrite Hs in Hasc. destruct Hasc as [Hs0 _].
    destruct (0 <? s0) eqn:H0.
    + change (Forall (fun c => c <> [])
                (firstn s0 all_lines
                   :: chunks (write_sections all_lines (s0 :: rest) 1))).
      constructor; [|apply write_sections_nonempty].
      apply Nat.ltb_lt in H0. intros Hnil.
      apply (f_equal (@length line)) in Hnil. rewrite length_firstn in Hnil.
      simpl in Hnil. lia.
    + apply write_sections_nonempty.
Qed.

(** The part numbers of a run that splits: [1, 2, ..., k] when the first
    line is a split point, and [0, 2, 3, ..., k + 1] when lines come before
    the first split point. *)
Lemma split_file_by_delimiter_numbers d all_lines s0 rest :
  split_points (normalize d) all_lines = s0 :: rest ->
  part_numbers (split_file_by_delimiter d all_lines) =
  if 0 <? s0 then 0 :: seq 2 (S (length rest)) else seq 1 (S (length rest)).
Proof.
  intros Hs.
  pose proof (split_points_ascending (normalize d) all_lines) as Hasc.
  destruct (split_file_by_delimiter_cases d all_lines)
    as [[-> _] | [(_ & Hd & _) | (_ & s0' & rest' & Hs' & ->)]].
  - discriminate.
  - unfold split_points in Hs. rewrite Hd in Hs. discriminate.
  - rewrite Hs in Hs'. injection Hs' as <- <-. rewrite Hs in Hasc.
    destruct (0 <? s0).
    + change (0 :: part_numbers (write_sections all_lines (s0 :: rest) 1)
              = 0 :: seq 2 (S (length rest))).
      rewrite (@write_sections_numbers all_lines _ _ 0 Hasc). reflexivity.
    + rewrite (@write_sections_numbers all_lines _ _ 0 Hasc). reflexivity.
Qed.

End DelimiterFacts.

(** ** The word-budget splitter of [split_file_delimiter.py] *)

Module WordsFacts.

Import Delimiter Delimiter.Words ClassifierFacts WordsInv.

Section Loop.

Variable DELIMITER : list string.
Variable words_per_file : Z.
Variable all_lines : list line.

Local Abbreviation W := words_per_file.
Local Abbreviation use_delims := (use_delimiters DELIMITER).
Local Abbreviation split_point_here := (Words.is_split_point DELIMITER all_lines).
Local Abbreviation step := (Words.step DELIMITER words_per_file all_lines).
Local Abbreviation loop := (Words.loop DELIMITER words_per_file all_lines).
Local Abbreviation base := (base all_lines).
Local Abbreviation boundary := (boundary DELIMITER all_lines).
Local Abbreviation inner_ok := (inner_ok DELIMITER words_per_file all_lines).
Local Abbreviation delim_inv := (delim_inv DELIMITER words_per_file all_lines).
Local Abbreviation greedy_inner := (greedy_inner words_per_file).
Local Abbreviation greedy_inv := (greedy_inv words_per_file all_lines).

Lemma use_delimiters_false : use_delims = false <-> DELIMITER = [].
Proof.
  unfold use_delimiters, Nat.ltb. destruct DELIMITER; simpl; split; congruence.
Qed.

Lemma use_delimiters_true : use_delims = true <-> DELIMITER <> [].
Proof.
  unfold use_delimiters, Nat.ltb. destruct DELIMITER; simpl; split; congruence.
Qed.

(** With delimiters configured, the loop's [is_split_point] is the Boundary
    of the classifier, at every index but 0. *)
Lemma is_split_point_boundary idx l :
  nth_error all_lines idx = Some l ->
  split_point_here idx l = true <-> (use_delims = true /\ 0 < idx /\ boundary idx).
Proof.
  intros Hl. unfold Words.is_split_point, WordsInv.boundary.
  rewrite In_split_points. rewrite (@nth_error_nth_default line _ _ _ EmptyString Hl).
  assert (Hlen : idx < length all_lines).
  { apply nth_error_Some. congruence. }
  unfold Words.line_contains_delimiter, find_prev_non_empty_line_is_delimiter.
  unfold Words.line_contains_delimiter, Delimiter.line_contains_delimiter.
  destruct use_delims eqn:Hu; simpl.
  2:{ split; [discriminate | intros [? _]; discriminate]. }
  destruct (existsb (fun d => PyStr.contains d l) DELIMITER) eqn:Hd; simpl.
  2:{ split; [discriminate | intros (_ & _ & _ & ? & _); discriminate]. }
  destruct idx as [|p]; simpl Nat.ltb; cbv iota.
  - split; [discriminate | intros (_ & ? & _); lia].
  - unfold Delimiter.is_split_point.
    destruct (prev_non_empty all_lines (S p)) as [q|]; simpl.
    + split; [intros H | intros (_ & _ & _ & _ & H); exact H].
      repeat split; [lia | assumption | exact H].
    + split; [intros _ | reflexivity]. repeat split; [lia | assumption].
Qed.

(** The turns of the loop, case by case. *)
Lemma step_cases st st' :
  step st = Some st' ->
  exists l, nth_error all_lines st.(i) = Some l /\
   (((W <= st.(current_words))%Z /\ split_point_here st.(i) l = true
       /\ st.(current_chunk) <> [] /\ st' = flush st)
    \/ (use_delims = true
        /\ ~ ((W <= st.(current_words))%Z /\ split_point_here st.(i) l = true
               /\ st.(current_chunk) <> [])
        /\ st' = append st l)
    \/ (use_delims = false
        /\ (W < st.(current_words) + line_words l)%Z
        /\ st.(current_chunk) <> [] /\ st' = append (flush st) l)
    \/ (use_delims = false
        /\ ~ ((W < st.(current_words) + line_words l)%Z
               /\ st.(current_chunk) <> [])
        /\ st' = append st l)).
Proof.
  unfold Words.step. destruct (nth_error all_lines st.(i)) as [l|]; [|discriminate].
  intros H. exists l. split; [reflexivity|].
  destruct ((W <=? st.(current_words))%Z && split_point_here st.(i) l
            && truthy st.(current_chunk)) eqn:Hflush.
  - left. injection H as <-.
    apply andb_prop in Hflush. destruct Hflush as [Hf Ht].
    apply andb_prop in Hf. destruct Hf as [Hw Hs].
    apply Z.leb_le in Hw. apply truthy_true in Ht. auto.
  - right.
    assert (Hno : ~ ((W <= st.(current_words))%Z /\ split_point_here st.(i) l = true
                     /\ st.(current_chunk) <> [])).
    { intros (Hw & Hs & Ht). apply Z.leb_le in Hw. apply truthy_true in Ht.
      rewrite Hw, Hs, Ht in Hflush. discriminate. }
    destruct use_delims eqn:Hu; simpl in H.
    + left. injection H as <-. auto.
    + right.
      destruct ((W <? st.(current_words) + line_words l)%Z
                && truthy st.(current_chunk)) eqn:Hg; injection H as <-.
      * left. apply andb_prop in Hg. destruct Hg as [Hw Ht].
        apply Z.ltb_lt in Hw. apply truthy_true in Ht. auto.
      * right. split; [reflexivity|]. split; [|reflexivity]. intros [Hw Ht].
        apply Z.ltb_lt in Hw. apply truthy_true in Ht.
        rewrite Hw, Ht in Hg. discriminate.
Qed.

(** *** Termination *)

Lemma step_decreases st st' : step st = Some st' -> variant all_lines st' < variant all_lines st.
Proof.
  intros H. destruct (step_cases _ H) as (l & Hl & Hc).
  assert (Hi : st.(i) < length all_lines) by (apply nth_error_Some; congruence).
  unfold variant.
  destruct Hc as [(_ & _ & Hne & ->) | [(_ & _ & ->) | [(_ & _ & _ & ->) | (_ & _ & ->)]]];
    simpl; rewrite ?truthy_snoc.
  - apply truthy_true in Hne. rewrite Hne. lia.
  - destruct (truthy st.(current_chunk)); lia.
  - lia.
  - destruct (truthy st.(current_chunk)); lia.
Qed.

Lemma loop_terminates fuel st :
  variant all_lines st < fuel -> exists st', loop fuel st = Some st'.
Proof.
  revert st. induction fuel as [|fuel IH]; intros st Hv; [lia|].
  simpl. destruct (step st) as [st1|] eqn:Hs.
  - apply IH. apply step_decreases in Hs. lia.
  - eauto.
Qed.

(** What every turn preserves holds when the loop is over, and the loop
    is over only when the test fails. *)
Lemma loop_invariant (P : loop_state -> Prop) :
  (forall st st', P st -> step st = Some st' -> P st') ->
  forall fuel st st', P st -> loop fuel st = Some st' ->
                      P st' /\ step st' = None.
Proof.
  intros Hpres. induction fuel as [|fuel IH]; intros st st' HP; simpl;
    [discriminate|].
  destruct (step st) as [st1|] eqn:Hs.
  - apply IH. eapply Hpres; eassumption.
  - intros [= <-]. auto.
Qed.

(** *** The invariants *)

Lemma base_init : base init.
Proof.
  unfold WordsInv.base, init. simpl.
  repeat split; try reflexivity; try lia; try constructor.
  intros _ Hne. destruct all_lines; [congruence | simpl; lia].
Qed.

Lemma base_flush st l :
  nth_error all_lines st.(i) = Some l ->
  st.(current_chunk) <> [] -> base st -> base (flush st).
Proof.
  intros Hl Hne (Hi & Hcat & Hw & Hnum & Hfc & Hall & Hlast).
  unfold WordsInv.base, flush. simpl.
  rewrite chunks_snoc, part_numbers_app, length_app, concat_app. simpl.
  rewrite !app_nil_r.
  repeat split; try assumption.
  - rewrite Hnum, Hfc. rewrite Nat.add_comm with (m := 1). rewrite seq_S.
    reflexivity.
  - rewrite Hfc. lia.
  - apply Forall_app. split; [assumption | repeat constructor; assumption].
  - intros _ _. apply nth_error_Some. congruence.
Qed.

Lemma base_append st l :
  nth_error all_lines st.(i) = Some l -> base st -> base (append st l).
Proof.
  intros Hl (Hi & Hcat & Hw & Hnum & Hfc & Hall & Hlast).
  assert (Hlt : st.(i) < length all_lines) by (apply nth_error_Some; congruence).
  unfold WordsInv.base, append. simpl.
  repeat split; try assumption.
  - lia.
  - rewrite app_assoc, Hcat, Nat.add_1_r. symmetry.
    apply firstn_snoc_nth_error. assumption.
  - rewrite chunk_words_app, chunk_words_one, Hw. reflexivity.
  - intros Hnil. destruct st.(current_chunk); discriminate.
Qed.

Lemma base_step st st' : base st -> step st = Some st' -> base st'.
Proof.
  intros Hb H. destruct (step_cases _ H) as (l & Hl & Hc).
  destruct Hc as [(_ & _ & Hne & ->) | [(_ & _ & ->) | [(_ & _ & Hne & ->) | (_ & _ & ->)]]].
  - eapply base_flush; eassumption.
  - apply base_append; assumption.
  - apply base_append; [exact Hl|]. eapply base_flush; eassumption.
  - apply base_append; assumption.
Qed.

(** Where the current chunk starts, and where it ends. *)
Lemma base_position st :
  base st ->
  offset (chunks st.(written)) + length st.(current_chunk) = st.(i).
Proof.
  intros (Hi & Hcat & _). apply (f_equal (@length line)) in Hcat.
  rewrite length_app, length_firstn in Hcat. unfold offset. lia.
Qed.

Lemma inner_ok_nil s : inner_ok s [].
Proof. intros b Hb. simpl in Hb. lia. Qed.

Lemma delim_step st st' :
  use_delims = true ->
  base st /\ delim_inv st -> step st = Some st' -> base st' /\ delim_inv st'.
Proof.
  intros Hu [Hb [Hwr Hcur]] H. split; [eapply base_step; eassumption|].
  pose proof (base_position Hb) as Hpos.
  destruct Hb as (_ & _ & Hw & _).
  destruct (step_cases _ H) as (l & Hl & Hc).
  destruct Hc as [(Hge & Hsp & Hne & ->) | [(_ & Hno & ->) | [(Hu' & _) | (Hu' & _)]]];
    try congruence.
  - (* a flush *)
    unfold WordsInv.delim_inv, flush. simpl. rewrite chunks_snoc. split.
    + apply chunked_snoc. split; [assumption|]. simpl.
      repeat split; [congruence | | assumption].
      rewrite Hpos. apply (is_split_point_boundary _ Hl). assumption.
    + apply inner_ok_nil.
  - (* an append *)
    unfold WordsInv.delim_inv, append. simpl. split; [assumption|].
    intros b Hb Hbd. rewrite length_app in Hb. simpl in Hb.
    set (s := offset (chunks st.(written))) in *.
    destruct (Nat.eq_dec b (s + length st.(current_chunk))) as [Heq|Hneq].
    + replace (b - s) with (length st.(current_chunk) + 0) by lia.
      rewrite firstn_app_2. simpl. rewrite app_nil_r.
      destruct (Z_lt_le_dec (chunk_words st.(current_chunk)) W) as [Hlt|Hge];
        [assumption|].
      exfalso. apply Hno. repeat split.
      * congruence.
      * apply (is_split_point_boundary _ Hl). repeat split;
          [assumption | lia | congruence].
      * intros Hnil. rewrite Hnil in Heq. simpl in Heq. lia.
    + rewrite firstn_app.
      replace (b - s - length st.(current_chunk)) with 0 by lia.
      simpl. rewrite app_nil_r. apply Hcur; [lia | assumption].
Qed.

Lemma greedy_step st st' :
  use_delims = false ->
  base st /\ greedy_inv st -> step st = Some st' -> base st' /\ greedy_inv st'.
Proof.
  intros Hu [Hb [Hwr Hcur]] H. split; [eapply base_step; eassumption|].
  pose proof (base_position Hb) as Hpos.
  destruct Hb as (_ & _ & Hw & _).
  destruct (step_cases _ H) as (l & Hl & Hc).
  destruct Hc as [(_ & Hsp & _) | [(Hu' & _) | [(_ & Hgt & Hne & ->) | (_ & Hno & ->)]]];
    try congruence.
  - apply (is_split_point_boundary _ Hl) in Hsp. destruct Hsp. congruence.
  - (* a flush, then the append *)
    unfold WordsInv.greedy_inv, append, flush. simpl. rewrite chunks_snoc. split.
    + apply chunked_snoc. split; [assumption|]. simpl. split; [assumption|].
      rewrite Hpos, (@nth_error_nth_default line _ _ _ EmptyString Hl). congruence.
    + intros n Hn. simpl in Hn. lia.
  - (* the append alone *)
    unfold WordsInv.greedy_inv, append. simpl. split; [assumption|].
    intros n Hn. rewrite length_app in Hn. simpl in Hn.
    destruct (Nat.eq_dec n (length st.(current_chunk) + 1)) as [->|Hneq].
    + rewrite firstn_app_2. simpl. rewrite chunk_words_app, chunk_words_one.
      destruct (Z_lt_le_dec W (chunk_words st.(current_chunk) + line_words l))
        as [Hlt|Hle]; [|assumption].
      exfalso. apply Hno. split; [congruence|].
      intros Hnil. rewrite Hnil in Hn. simpl in Hn. lia.
    + rewrite firstn_app. replace (n - length st.(current_chunk)) with 0 by lia.
      simpl. rewrite app_nil_r. apply Hcur. lia.
Qed.

End Loop.

(** *** The whole function *)

Section Run.

Variable DELIMITER : list string.
Variable words_per_file : Z.
Variable all_lines : list line.

Lemma step_None st :
  Words.step DELIMITER words_per_file all_lines st = None <->
  nth_error all_lines st.(i) = None.
Proof.
  unfold Words.step. destruct (nth_error all_lines st.(i)) as [l|].
  - match goal with |- context [if ?b then _ else _] => destruct b end;
      split; discriminate.
  - tauto.
Qed.

(** The loop is over within the turns [split_file_by_words] allows: the
    function returns. *)
Lemma split_file_by_words_total :
  exists evs, split_file_by_words DELIMITER words_per_file all_lines = Some evs.
Proof.
  unfold split_file_by_words, run.
  destruct (truthy all_lines); simpl negb; cbv iota; [|eauto].
  destruct (@loop_terminates DELIMITER words_per_file all_lines
              (2 * length all_lines + 1) init) as [st Hst].
  - unfold variant, init. simpl. lia.
  - rewrite Hst. simpl. eauto.
Qed.

Lemma split_file_by_words_empty evs :
  all_lines = [] ->
  split_file_by_words DELIMITER words_per_file all_lines = Some evs -> evs = [].
Proof.
  intros ->. unfold split_file_by_words, run. simpl. congruence.
Qed.

(** On a file that is not empty, the run ends with the final
    [write_part] of a chunk that is not empty, all lines read. *)
Lemma split_file_by_words_shape evs :
  all_lines <> [] ->
  split_file_by_words DELIMITER words_per_file all_lines = Some evs ->
  exists st,
    Words.loop DELIMITER words_per_file all_lines
      (2 * length all_lines + 1) init = Some st
    /\ evs = st.(written) ++ [WritePart st.(file_count) st.(current_chunk)]
    /\ st.(current_chunk) <> []
    /\ st.(i) = length all_lines
    /\ base all_lines st
    /\ (DELIMITER <> [] -> delim_inv DELIMITER words_per_file all_lines st)
    /\ (DELIMITER = [] -> greedy_inv words_per_file all_lines st).
Proof.
  intros Hne. unfold split_file_by_words, run.
  apply truthy_true in Hne. rewrite Hne. simpl negb. cbv iota.
  destruct (Words.loop DELIMITER words_per_file all_lines
              (2 * length all_lines + 1) init) as [st|] eqn:Hloop;
    [|discriminate].
  simpl. intros [= <-]. exists st.
  pose (P := fun st =>
    base all_lines st
    /\ (DELIMITER <> [] -> delim_inv DELIMITER words_per_file all_lines st)
    /\ (DELIMITER = [] -> greedy_inv words_per_file all_lines st)).
  assert (HP : P st /\ Words.step DELIMITER words_per_file all_lines st = None).
  { apply (@loop_invariant DELIMITER words_per_file all_lines P)
      with (fuel := 2 * length all_lines + 1) (st := init); [| |assumption].
    - intros st0 st1 (Hb & Hd & Hg) Hstep. unfold P.
      split; [eapply base_step; eassumption|]. split; intros HD.
      + apply (@delim_step DELIMITER words_per_file all_lines st0 st1);
          [apply use_delimiters_true; assumption | auto | assumption].
      + apply (@greedy_step DELIMITER words_per_file all_lines st0 st1);
          [apply use_delimiters_false; assumption | auto | assumption].
    - unfold P. split; [apply base_init|].
      split; intros _; split; simpl; try exact I.
      + apply inner_ok_nil.
      + intros n Hn. simpl in Hn. lia. }
  destruct HP as [(Hb & Hd & Hg) Hexit].
  apply step_None in Hexit. apply nth_error_None in Hexit.
  assert (Hi : st.(i) = length all_lines).
  { destruct Hb as (Hle & _). lia. }
  assert (Hc : st.(current_chunk) <> []).
  { intros Hnil. destruct Hb as (_ & _ & _ & _ & _ & _ & Hlast).
    apply truthy_true in Hne. specialize (Hlast Hnil Hne). lia. }
  unfold finish. apply truthy_true in Hc. rewrite Hc. apply truthy_true in Hc.
  split; [reflexivity|]. split; [reflexivity|].
  do 4 (split; [assumption|]). assumption.
Qed.

Lemma split_file_by_words_concat evs :
  split_file_by_words DELIMITER words_per_file all_lines = Some evs ->
  concat (chunks evs) = all_lines.
Proof.
  intros H. destruct (truthy all_lines) eqn:Hne;
    [apply truthy_true in Hne | apply truthy_false in Hne].
  2:{ rewrite (split_file_by_words_empty Hne H). symmetry. exact Hne. }
  destruct (split_file_by_words_shape Hne H)
    as (st & _ & -> & _ & Hi & Hb & _).
    destruct Hb as (_ & Hcat & _). rewrite chunks_snoc, concat_app. simpl.
    rewrite app_nil_r, Hcat, Hi. apply firstn_all.
Qed.

Lemma split_file_by_words_nonempty evs :
  split_file_by_words DELIMITER words_per_file all_lines = Some evs ->
  Forall (fun c => c <> []) (chunks evs).
Proof.
  intros H. destruct (truthy all_lines) eqn:Hne;
    [apply truthy_true in Hne | apply truthy_false in Hne].
  2:{ rewrite (split_file_by_words_empty Hne H). constructor. }
  destruct (split_file_by_words_shape Hne H)
    as (st & _ & -> & Hc & _ & Hb & _).
    destruct Hb as (_ & _ & _ & _ & _ & Hall & _). rewrite chunks_snoc.
    apply Forall_app. split; [assumption | repeat constructor; assumption].
Qed.

Lemma split_file_by_words_numbers evs :
  split_file_by_words DELIMITER words_per_file all_lines = Some evs ->
  part_numbers evs = seq 1 (length (chunks evs)).
Proof.
  intros H. destruct (truthy all_lines) eqn:Hne;
    [apply truthy_true in Hne | apply truthy_false in Hne].
  2:{ rewrite (split_file_by_words_empty Hne H). reflexivity. }
  destruct (split_file_by_words_shape Hne H)
    as (st & _ & -> & _ & _ & Hb & _).
    destruct Hb as (_ & _ & _ & Hnum & Hfc & _).
    rewrite chunks_snoc, part_numbers_app, length_app, Hnum, Hfc. simpl.
    rewrite Nat.add_comm with (m := 1). rewrite seq_S. reflexivity.
Qed.

(** The start of every chunk after the first is the Boundary on which the
    chunk before it was flushed. *)
Lemma flushed_start pre rest :
  chunked (flushed_at_boundary DELIMITER words_per_file all_lines) 0 (pre ++ rest) ->
  pre <> [] -> boundary DELIMITER all_lines (offset pre).
Proof.
  intros Hch Hne. destruct (exists_last Hne) as (pre' & c0 & ->).
  apply chunked_app in Hch. destruct Hch as [Hch _].
  apply chunked_snoc in Hch. destruct Hch as [_ (_ & Hb & _)].
  rewrite offset_snoc. exact Hb.
Qed.

(** With delimiters configured: every chunk, at its place. *)
Lemma delim_chunks evs pre c post :
  DELIMITER <> [] ->
  split_file_by_words DELIMITER words_per_file all_lines = Some evs ->
  chunks evs = pre ++ c :: post ->
  c <> []
  /\ inner_ok DELIMITER words_per_file all_lines (offset pre) c
  /\ (pre <> [] -> boundary DELIMITER all_lines (offset pre))
  /\ (post <> [] ->
      (words_per_file <= chunk_words c)%Z
      /\ boundary DELIMITER all_lines (offset pre + length c)).
Proof.
  intros HD H Hdec. destruct (truthy all_lines) eqn:Hne;
    [apply truthy_true in Hne | apply truthy_false in Hne].
  2:{ rewrite (split_file_by_words_empty Hne H) in Hdec.
      destruct pre; discriminate. }
  destruct (split_file_by_words_shape Hne H)
    as (st & _ & -> & Hc & _ & Hb & Hd & _).
    destruct (Hd HD) as [Hwr Hcur].
    destruct Hb as (_ & _ & _ & _ & _ & Hall & _).
    rewrite chunks_snoc in Hdec.
    apply snoc_eq_app_cons in Hdec.
    destruct Hdec as [(-> & -> & ->) | (post' & -> & Hw)].
    + split; [assumption|]. split; [assumption|]. split.
      * intros Hpre. apply flushed_start with (rest := []); [|assumption].
        rewrite app_nil_r. assumption.
      * intros Hpost. congruence.
    + rewrite Hw in Hwr, Hall.
      pose proof Hwr as Hat. apply chunked_at in Hat.
      destruct Hat as (Hge & Hbd & Hin).
      apply Forall_app in Hall. destruct Hall as [_ Hall].
      apply Forall_inv in Hall.
      split; [assumption|]. split; [assumption|]. split.
      * intros Hpre. apply flushed_start with (rest := c :: post'); assumption.
      * intros _. split; assumption.
Qed.

(** Without delimiters: every chunk, at its place. *)
Lemma greedy_chunks evs pre c post :
  DELIMITER = [] ->
  split_file_by_words DELIMITER words_per_file all_lines = Some evs ->
  chunks evs = pre ++ c :: post ->
  c <> []
  /\ greedy_inner words_per_file c
  /\ (post <> [] ->
      (words_per_file
       < chunk_words c
         + line_words (nth (offset pre + length c) all_lines EmptyString))%Z).
Proof.
  intros HD H Hdec. destruct (truthy all_lines) eqn:Hne;
    [apply truthy_true in Hne | apply truthy_false in Hne].
  2:{ rewrite (split_file_by_words_empty Hne H) in Hdec.
      destruct pre; discriminate. }
  destruct (split_file_by_words_shape Hne H)
    as (st & _ & -> & Hc & _ & Hb & _ & Hg).
    destruct (Hg HD) as [Hwr Hcur].
    destruct Hb as (_ & _ & _ & _ & _ & Hall & _).
    rewrite chunks_snoc in Hdec.
    apply snoc_eq_app_cons in Hdec.
    destruct Hdec as [(-> & -> & ->) | (post' & -> & Hw)].
    + split; [assumption|]. split; [assumption|]. intros Hpost. congruence.
    + rewrite Hw in Hwr, Hall.
      pose proof Hwr as Hat. apply chunked_at in Hat.
      destruct Hat as (Hin & Hgt).
      apply Forall_app in Hall. destruct Hall as [_ Hall].
      apply Forall_inv in Hall.
      split; [assumption|]. split; [assumption|]. intros _. assumption.
Qed.

(** With delimiters configured and no line that contains one, no turn of
    the loop flushes: the whole file is the one chunk. *)
Lemma split_file_by_words_no_match :
  DELIMITER <> [] -> all_lines <> [] ->
  (forall l, In l all_lines ->
             Delimiter.line_contains_delimiter DELIMITER l = false) ->
  split_file_by_words DELIMITER words_per_file all_lines
  = Some [WritePart 1 all_lines].
Proof.
  intros HD Hne Hno.
  destruct split_file_by_words_total as [evs Hevs]. rewrite Hevs. f_equal.
  destruct (split_file_by_words_shape Hne Hevs)
    as (st & Hloop & -> & _ & Hi & Hb & _).
  pose (Q := fun st : loop_state => st.(written) = [] /\ st.(file_count) = 1).
  assert (HQ : Q st).
  { apply (@loop_invariant DELIMITER words_per_file all_lines Q)
      with (fuel := 2 * length all_lines + 1) (st := init) (st' := st);
      [| split; reflexivity | assumption].
    intros st0 st1 [Hw Hfc] Hstep.
    destruct (@step_cases DELIMITER words_per_file all_lines _ _ Hstep)
      as (l & Hl & Hc).
    destruct Hc as [(_ & Hsp & _) | [(_ & _ & ->)
                   | [(Hu & _) | (Hu & _)]]].
    - exfalso. apply (proj1 (@is_split_point_boundary DELIMITER all_lines _ _ Hl)) in Hsp.
      destruct Hsp as (_ & _ & Hbd). apply In_split_points in Hbd.
      destruct Hbd as (_ & Hd & _).
      rewrite (@nth_error_nth_default line _ _ _ EmptyString Hl) in Hd.
      rewrite Hno in Hd; [discriminate|]. eapply nth_error_In; eassumption.
    - split; assumption.
    - apply use_delimiters_false in Hu. contradiction.
    - apply use_delimiters_false in Hu. contradiction. }
  destruct HQ as [Hw Hfc]. destruct Hb as (_ & Hcat & _).
  rewrite Hw in Hcat |- *. simpl in Hcat. rewrite Hfc, Hcat, Hi, firstn_all.
  reflexivity.
Qed.

End Run.

End WordsFacts.

(** ** [split_file_simple.py], and the two word splitters compared *)

Module SimpleFacts.

Import Delimiter.Words.

Lemma fold_left_invariant {S A} (P : S -> Prop) (body : S -> A -> S) :
  (forall st a, P st -> P (body st a)) ->
  forall l st, P st -> P (fold_left body l st).
Proof.
  intros Hpres. induction l as [|a l IH]; intros st HP; simpl; auto.
Qed.

(** Without delimiters, a turn of the [while] loop of
    [split_file_delimiter.py] is the body of the [for] loop of
    [split_file_simple.py]. *)
Lemma step_without_delimiters words_per_file all_lines st l :
  nth_error all_lines st.(i) = Some l ->
  step [] words_per_file all_lines st =
  Some (of_simple (st.(i) + 1)
          (Simple.words_body words_per_file (to_simple st) l)).
Proof.
  intros Hl. unfold step. rewrite Hl.
  unfold is_split_point, use_delimiters. simpl.
  rewrite andb_false_r. simpl.
  unfold Simple.words_body, to_simple. simpl.
  destruct ((words_per_file <? st.(current_words) + line_words l)%Z
            && truthy st.(current_chunk)); reflexivity.
Qed.

Lemma loop_without_delimiters words_per_file all_lines fuel :
  forall idx sst,
    length all_lines - idx < fuel ->
    loop [] words_per_file all_lines fuel (of_simple idx sst) =
    Some (of_simple (Nat.max idx (length all_lines))
            (fold_left (Simple.words_body words_per_file)
               (skipn idx all_lines) sst)).
Proof.
  induction fuel as [|fuel IH]; intros idx sst Hfuel; [lia|].
  simpl. destruct (nth_error all_lines idx) as [l|] eqn:Hl.
  - assert (Hlt : idx < length all_lines) by (apply nth_error_Some; congruence).
    rewrite step_without_delimiters with (l := l) by exact Hl.
    simpl. rewrite IH by lia.
    rewrite (skipn_cons_nth_error _ _ Hl). simpl.
    replace (to_simple (of_simple idx sst)) with sst by (destruct sst; reflexivity).
    rewrite Nat.add_1_r. f_equal. f_equal. lia.
  - replace (step [] words_per_file all_lines (of_simple idx sst)) with
      (@None loop_state).
    + apply nth_error_None in Hl. rewrite skipn_all2 by assumption. simpl.
      f_equal. f_equal. lia.
    + symmetry. unfold step. simpl. rewrite Hl. reflexivity.
Qed.

(** [split_file_by_words] of [split_file_delimiter.py] with an empty
    [DELIMITER] does what [split_file_by_words] of [split_file_simple.py]
    does. *)
Lemma words_without_delimiters words_per_file all_lines :
  Delimiter.split_file_by_words [] words_per_file all_lines =
  Some (Simple.split_file_by_words words_per_file all_lines).
Proof.
  unfold Delimiter.split_file_by_words, run.
  destruct all_lines as [|l0 ls] eqn:Hls; [reflexivity|]. rewrite <- Hls.
  replace (truthy all_lines) with true by (rewrite Hls; reflexivity).
  simpl negb. cbv iota.
  change init with (of_simple 0 Simple.init).
  rewrite loop_without_delimiters by lia. reflexivity.
Qed.

(** *** [split_file_by_lines] and [split_file_by_bytes] *)

Lemma split_file_by_lines_nonempty lines_per_file f :
  Forall (fun c => c <> []) (chunks (Simple.split_file_by_lines lines_per_file f)).
Proof.
  unfold Simple.split_file_by_lines.
  set (st := fold_left _ _ _).
  assert (Hinv : Forall (fun c => c <> []) (chunks st.(Simple.l_written))).
  { subst st. apply fold_left_invariant; [|constructor].
    intros st l Hst. unfold Simple.lines_body.
    destruct (lines_per_file <=? _)%Z; simpl; [|assumption].
    rewrite chunks_snoc. apply Forall_app. split; [assumption|].
    repeat constructor. destruct st.(Simple.l_lines); discriminate. }
  destruct (truthy st.(Simple.l_lines)) eqn:Ht; [|assumption].
  rewrite chunks_snoc. apply Forall_app. split; [assumption|].
  repeat constructor. apply truthy_true. assumption.
Qed.

Lemma split_file_by_bytes_nonempty bytes_per_file f :
  Forall (fun c => c <> []) (chunks (Simple.split_file_by_bytes bytes_per_file f)).
Proof.
  unfold Simple.split_file_by_bytes.
  set (st := fold_left _ _ _).
  assert (Hinv : Forall (fun c => c <> []) (chunks st.(Simple.b_written))).
  { subst st. apply fold_left_invariant; [|constructor].
    intros st l Hst. unfold Simple.bytes_body.
    destruct (_ && truthy st.(Simple.b_lines)) eqn:Hc; simpl; [|assumption].
    apply andb_prop in Hc. destruct Hc as [_ Ht].
    rewrite chunks_snoc. apply Forall_app. split; [assumption|].
    repeat constructor. apply truthy_true. assumption. }
  destruct (truthy st.(Simple.b_lines)) eqn:Ht; [|assumption].
  rewrite chunks_snoc. apply Forall_app. split; [assumption|].
  repeat constructor. apply truthy_true. assumption.
Qed.

(** *** [split_file_into_parts] *)

Lemma split_file_into_parts_nonempty num_parts lines evs :
  Simple.split_file_into_parts num_parts lines = Some evs ->
  Forall (fun c => c <> []) (chunks evs).
Proof.
  unfold Simple.split_file_into_parts. destruct (num_parts =? 0)%Z; [discriminate|].
  intros [= <-]. induction (Simple.range num_parts) as [|k r IH]; simpl;
    [constructor|].
  rewrite chunks_app. apply Forall_app. split; [|assumption].
  unfold Simple.parts_body.
  match goal with |- context [truthy ?x] => destruct (truthy x) eqn:Ht end.
  - repeat constructor. apply truthy_true. assumption.
  - constructor.
Qed.

End SimpleFacts.

(** * The properties of the specification *)

Import Delimiter ClassifierFacts.

(** ** Every line, once, in order *)

(** C1. Concatenating the chunks written, in the order they are written,
    gives back the lines of the input: for [split_file_by_delimiter] with any
    delimiters, and for [split_file_by_words] (of both scripts) with any
    [DELIMITER] and any budget, in particular any positive one.  The word
    splitter of [split_file_delimiter.py] does return. *)
Theorem chunks_concat_to_input :
  (forall d all_lines,
      concat (chunks (split_file_by_delimiter d all_lines)) = all_lines)
  /\ (forall DELIMITER words_per_file all_lines,
        exists evs,
          split_file_by_words DELIMITER words_per_file all_lines = Some evs
          /\ concat (chunks evs) = all_lines)
  /\ (forall words_per_file f,
        concat (chunks (Simple.split_file_by_words words_per_file f)) = f).
Proof.
  split; [|split].
  - apply DelimiterFacts.split_file_by_delimiter_concat.
  - intros D W ls.
    destruct (WordsFacts.split_file_by_words_total D W ls) as [evs Hevs].
    exists evs. split; [assumption|].
    eapply WordsFacts.split_file_by_words_concat. eassumption.
  - intros W f.
    eapply WordsFacts.split_file_by_words_concat.
    apply SimpleFacts.words_without_delimiters.
Qed.

(** ** The boundary classifier *)

(** C2, as amended.  A position is a split point of
    [split_file_by_delimiter] (and of [debug_split.py], whose loop is the
    same) if and only if it is a Boundary of the specification.  After a
    delimiter line that is not blank, the lines of a run of delimiter lines
    and blank lines are no split points: the run has no Boundary but,
    possibly, its first line. *)
Theorem split_points_are_boundaries delimiters all_lines :
  (forall k, In k (split_points delimiters all_lines)
             <-> boundary_spec delimiters all_lines k)
  /\ (forall k, In k (DebugSplit.split_points all_lines)
                <-> boundary_spec DebugSplit.delimiters all_lines k)
  /\ (forall a b,
        a <= b -> b < length all_lines ->
        is_blank (nth a all_lines EmptyString) = false ->
        line_contains_delimiter delimiters (nth a all_lines EmptyString) = true ->
        (forall j, a < j <= b ->
                   is_blank (nth j all_lines EmptyString) = true
                   \/ line_contains_delimiter delimiters
                        (nth j all_lines EmptyString) = true) ->
        forall j, a < j <= b -> ~ In j (split_points delimiters all_lines)).
Proof.
  assert (Hiff : forall ds k, In k (split_points ds all_lines)
                              <-> boundary_spec ds all_lines k).
  { intros ds k. rewrite In_split_points. unfold boundary_spec, is_split_point.
    split.
    - intros (Hk & Hd & Hsp). split; [assumption|]. split; [assumption|].
      destruct k as [|p]; [left; reflexivity | right].
      destruct (prev_non_empty all_lines (S p)) as [q|] eqn:Hq.
      + right. apply prev_non_empty_Some in Hq. destruct Hq as (Hlt & Hnb & Hbl).
        exists q. apply negb_true_iff in Hsp. auto.
      + left. apply prev_non_empty_None. assumption.
    - intros (Hk & Hd & Hcases). split; [assumption|]. split; [assumption|].
      destruct k as [|p]; [reflexivity|].
      destruct Hcases as [H0 | [Hall | (q & Hlt & Hnb & Hbl & Hnd)]].
      + discriminate.
      + apply prev_non_empty_None in Hall. rewrite Hall. reflexivity.
      + assert (Hq : prev_non_empty all_lines (S p) = Some q).
        { apply prev_non_empty_Some. auto. }
        rewrite Hq, Hnd. reflexivity. }
  split; [apply Hiff|]. split; [apply Hiff|].
  intros a b Hab Hb Hnb Hd Hrun j Hj Hin.
  apply In_split_points in Hin. destruct Hin as (_ & _ & Hsp).
  unfold is_split_point in Hsp. destruct j as [|p]; [lia|].
  destruct (prev_non_empty all_lines (S p)) as [q|] eqn:Hq.
  - apply prev_non_empty_Some in Hq. destruct Hq as (Hlt & Hqnb & Hbl).
    assert (Haq : a <= q).
    { destruct (Nat.le_gt_cases a q) as [Hle|Hgt]; [assumption|].
      rewrite Hbl in Hnb by lia. discriminate. }
    apply negb_true_iff in Hsp.
    destruct (Nat.eq_dec a q) as [<-|Hne]; [congruence|].
    destruct (Hrun q) as [Hblank|Hdelim]; [lia | congruence | congruence].
  - rewrite prev_non_empty_None in Hq. rewrite Hq in Hnb by lia. discriminate.
Qed.

(** The amended C2 on the file [-- Chat: A], blank line, [-- Chat: B],
    [world]: the second delimiter line is no split point. *)
Lemma split_points_are_boundaries_witness :
  is_blank (nth 0 Ex.repeated_lines EmptyString) = false
  /\ line_contains_delimiter Ex.chat_delimiters
       (nth 0 Ex.repeated_lines EmptyString) = true
  /\ ~ In 2 (split_points Ex.chat_delimiters Ex.repeated_lines).
Proof.
  split; [reflexivity|]. split; [reflexivity|].
  destruct (split_points_are_boundaries Ex.chat_delimiters Ex.repeated_lines)
    as (_ & _ & Hrun).
  apply (Hrun 0 2).
  - lia.
  - simpl. lia.
  - reflexivity.
  - reflexivity.
  - intros j Hj. assert (Hcases : j = 1 \/ j = 2) by lia.
    destruct Hcases as [-> | ->]; [left | right]; reflexivity.
  - lia.
Defined.

(** C2 as stated fails on its last part: with the delimiter [" "], the two
    lines [" \n"] and ["a b\n"] are delimiter lines with nothing between
    them, and both are split points. *)
Lemma delimiter_run_with_blank_line_not_collapsed :
  ~ (forall delimiters all_lines a b,
        a < b -> b < length all_lines ->
        line_contains_delimiter delimiters (nth a all_lines EmptyString) = true ->
        line_contains_delimiter delimiters (nth b all_lines EmptyString) = true ->
        (forall j, a < j < b -> is_blank (nth j all_lines EmptyString) = true) ->
        ~ In b (split_points delimiters all_lines)).
Proof.
  intros H.
  apply (H Ex.space_delimiters Ex.space_lines 0 1).
  - lia.
  - simpl. lia.
  - reflexivity.
  - reflexivity.
  - intros j Hj. lia.
  - vm_compute. auto.
Qed.

(** ** The numbers of the parts *)

(** C7, on the code.  With lines before the first split point,
    [split_file_by_delimiter] writes the leading chunk as part 0 and the
    first section as part 2: no part 1 is written. *)
Theorem leading_chunk_skips_part_1 :
  let evs := split_file_by_delimiter (ManyDelimiters Ex.chat_delimiters)
               Ex.intro_lines in
  evs = [WritePart 0 [Ex.intro]; WritePart 2 [Ex.chat_A; Ex.hello]]
  /\ part_numbers evs = [0; 2]
  /\ map fst (files_written Ex.splitext_basename Ex.path_join
                "chat.txt" "out" evs)
     = ["out/chat_part_0.txt"%string; "out/chat_part_2.txt"%string].
Proof.
  vm_compute. repeat split.
Qed.

(** ** Files without delimiter lines, and empty files *)

Lemma no_delimiter_indices delimiters all_lines :
  (forall l, In l all_lines -> line_contains_delimiter delimiters l = false) ->
  delimiter_indices delimiters all_lines = [].
Proof.
  intros Hno.
  destruct (delimiter_indices delimiters all_lines) as [|k r] eqn:Hd;
    [reflexivity|].
  assert (Hin : In k (delimiter_indices delimiters all_lines))
    by (rewrite Hd; left; reflexivity).
  apply In_delimiter_indices in Hin. destruct Hin as [Hk Hdk].
  rewrite Hno in Hdk; [discriminate|]. apply nth_In. assumption.
Qed.

(** C8. On a file that is not empty and has no line containing a delimiter,
    [split_file_by_delimiter] writes the whole file as part 1, prints a
    warning and returns; [split_file_by_words], with delimiters configured,
    writes the whole file as part 1 whatever the budget. *)
Theorem no_delimiter_line_one_chunk d DELIMITER words_per_file all_lines :
  all_lines <> [] ->
  (forall l, In l all_lines ->
             line_contains_delimiter (normalize d) l = false) ->
  DELIMITER <> [] ->
  (forall l, In l all_lines -> line_contains_delimiter DELIMITER l = false) ->
  split_file_by_delimiter d all_lines
  = [WritePart 1 all_lines; PrintWarning (NoDelimitersFound (normalize d))]
  /\ split_points (normalize d) all_lines = []
  /\ split_file_by_words DELIMITER words_per_file all_lines
     = Some [WritePart 1 all_lines].
Proof.
  intros Hne Hno HD HnoD.
  pose proof (no_delimiter_indices _ _ Hno) as Hidx.
  split; [|split].
  - destruct (DelimiterFacts.split_file_by_delimiter_cases d all_lines)
      as [[Hnil _] | [(_ & _ & H) | (_ & s0 & rest & Hs & _)]].
    + contradiction.
    + exact H.
    + unfold split_points in Hs. rewrite Hidx in Hs. discriminate.
  - unfold split_points. rewrite Hidx. reflexivity.
  - apply WordsFacts.split_file_by_words_no_match; assumption.
Qed.

Lemma no_delimiter_line_one_chunk_witness :
  [Ex.hello; Ex.world] <> []
  /\ Ex.chat_delimiters <> []
  /\ split_file_by_delimiter (ManyDelimiters Ex.chat_delimiters)
       [Ex.hello; Ex.world]
     = [WritePart 1 [Ex.hello; Ex.world];
        PrintWarning (NoDelimitersFound Ex.chat_delimiters)]
  /\ split_file_by_words Ex.chat_delimiters 1 [Ex.hello; Ex.world]
     = Some [WritePart 1 [Ex.hello; Ex.world]].
Proof.
  assert (Hne : [Ex.hello; Ex.world] <> []) by discriminate.
  assert (HD : Ex.chat_delimiters <> []) by discriminate.
  assert (Hno : forall l, In l [Ex.hello; Ex.world] ->
                          line_contains_delimiter Ex.chat_delimiters l = false).
  { intros l [<- | [<- | []]]; reflexivity. }
  destruct (@no_delimiter_line_one_chunk (ManyDelimiters Ex.chat_delimiters)
              Ex.chat_delimiters 1 [Ex.hello; Ex.world] Hne Hno HD Hno)
    as (H1 & _ & H2).
  split; [exact Hne|]. split; [exact HD|]. split; [exact H1 | exact H2].
Defined.

(** C9. On an empty file no splitter writes a part, and each returns:
    [split_file_by_delimiter] after printing that the file is empty, the
    word splitters silently. *)
Theorem empty_input_no_chunk :
  (forall d,
      split_file_by_delimiter d [] = [PrintWarning EmptyFile]
      /\ parts (split_file_by_delimiter d []) = [])
  /\ (forall DELIMITER words_per_file,
        split_file_by_words DELIMITER words_per_file [] = Some [])
  /\ (forall words_per_file, Simple.split_file_by_words words_per_file [] = []).
Proof.
  split; [|split].
  - intros d. split; reflexivity.
  - reflexivity.
  - reflexivity.
Qed.

(** ** No empty part *)

(** C10. No splitter calls [write_part] with an empty list of lines: in
    both scripts, by delimiter, by words (with or without delimiters), by
    lines, by bytes and into parts.  [split_file_into_parts] writes nothing
    when it raises on [num_parts = 0]. *)
Theorem no_empty_chunk_written :
  (forall d all_lines,
      Forall (fun c => c <> []) (chunks (split_file_by_delimiter d all_lines)))
  /\ (forall DELIMITER words_per_file all_lines,
        exists evs,
          split_file_by_words DELIMITER words_per_file all_lines = Some evs
          /\ Forall (fun c => c <> []) (chunks evs))
  /\ (forall words_per_file f,
        Forall (fun c => c <> [])
          (chunks (Simple.split_file_by_words words_per_file f)))
  /\ (forall lines_per_file f,
        Forall (fun c => c <> [])
          (chunks (Simple.split_file_by_lines lines_per_file f))
        /\ Forall (fun c => c <> [])
             (chunks (Delimiter.split_file_by_lines lines_per_file f)))
  /\ (forall bytes_per_file f,
        Forall (fun c => c <> [])
          (chunks (Simple.split_file_by_bytes bytes_per_file f))
        /\ Forall (fun c => c <> [])
             (chunks (Delimiter.split_file_by_bytes bytes_per_file f)))
  /\ (forall num_parts lines,
        match Simple.split_file_into_parts num_parts lines with
        | Some evs => Forall (fun c => c <> []) (chunks evs)
        | None => num_parts = 0%Z
        end
        /\ Delimiter.split_file_into_parts num_parts lines
           = Simple.split_file_into_parts num_parts lines).
Proof.
  split; [|split; [|split; [|split; [|split]]]].
  - apply DelimiterFacts.split_file_by_delimiter_nonempty.
  - intros D W ls.
    destruct (WordsFacts.split_file_by_words_total D W ls) as [evs Hevs].
    exists evs. split; [assumption|].
    eapply WordsFacts.split_file_by_words_nonempty. eassumption.
  - intros W f. eapply WordsFacts.split_file_by_words_nonempty.
    apply SimpleFacts.words_without_delimiters.
  - intros n f. split; apply SimpleFacts.split_file_by_lines_nonempty.
  - intros n f. split; apply SimpleFacts.split_file_by_bytes_nonempty.
  - intros n ls. split; [|reflexivity].
    destruct (Simple.split_file_into_parts n ls) as [evs|] eqn:H.
    + eapply SimpleFacts.split_file_into_parts_nonempty. eassumption.
    + unfold Simple.split_file_into_parts in H.
      destruct (n =? 0)%Z eqn:Hn; [|discriminate]. apply Z.eqb_eq. assumption.
Qed.

(** ** The word budget, with delimiters *)

(** C3, as amended.  With delimiters configured, in every chunk written by
    [split_file_by_words] the lines before a Boundary that lies inside the
    chunk count fewer than [words_per_file] words: a chunk reaches or
    exceeds the budget only with its last section, and exceeds it by less
    than the words of that section. *)
Theorem budget_holds_before_last_section DELIMITER words_per_file all_lines
  evs pre c post b :
  DELIMITER <> [] ->
  split_file_by_words DELIMITER words_per_file all_lines = Some evs ->
  chunks evs = pre ++ c :: post ->
  offset pre < b < offset pre + length c ->
  In b (split_points DELIMITER all_lines) ->
  (chunk_words (firstn (b - offset pre) c) < words_per_file)%Z
  /\ (chunk_words c
      < words_per_file + chunk_words (skipn (b - offset pre) c))%Z.
Proof.
  intros HD Hevs Hdec Hb Hin.
  destruct (@WordsFacts.delim_chunks _ _ _ _ _ _ _ HD Hevs Hdec) as (_ & Hinner & _).
  specialize (Hinner b Hb Hin). split; [assumption|].
  rewrite <- (firstn_skipn (b - offset pre) c) at 1.
  rewrite chunk_words_app. lia.
Qed.

Lemma budget_holds_before_last_section_witness :
  Ex.chat_delimiters <> []
  /\ split_file_by_words Ex.chat_delimiters 5 Ex.chat_lines
     = Some [WritePart 1 Ex.chat_lines]
  /\ In 2 (split_points Ex.chat_delimiters Ex.chat_lines)
  /\ (chunk_words (firstn (2 - offset []) Ex.chat_lines) < 5)%Z
  /\ (chunk_words Ex.chat_lines
      < 5 + chunk_words (skipn (2 - offset []) Ex.chat_lines))%Z.
Proof.
  assert (HD : Ex.chat_delimiters <> []) by discriminate.
  assert (Hevs : split_file_by_words Ex.chat_delimiters 5 Ex.chat_lines
                 = Some [WritePart 1 Ex.chat_lines]) by reflexivity.
  assert (Hin : In 2 (split_points Ex.chat_delimiters Ex.chat_lines))
    by (vm_compute; auto).
  assert (Hb : offset [] < 2 < offset [] + length Ex.chat_lines)
    by (vm_compute; lia).
  pose proof (@budget_holds_before_last_section Ex.chat_delimiters 5
                Ex.chat_lines [WritePart 1 Ex.chat_lines] [] Ex.chat_lines []
                2 HD Hevs eq_refl Hb Hin) as H.
  split; [exact HD|]. split; [exact Hevs|]. split; [exact Hin | exact H].
Defined.

(** C3 as stated fails: with the budget 5, the two sections of the sample
    chat file (4 words each) are written as one chunk of 8 words, which
    exceeds the budget and holds the Boundary of the second section. *)
Lemma chunk_over_budget_with_two_sections :
  ~ (forall DELIMITER words_per_file all_lines evs pre c post,
        DELIMITER <> [] -> (0 < words_per_file)%Z ->
        split_file_by_words DELIMITER words_per_file all_lines = Some evs ->
        chunks evs = pre ++ c :: post ->
        (chunk_words c <= words_per_file)%Z
        \/ (forall b, offset pre < b < offset pre + length c ->
                      ~ In b (split_points DELIMITER all_lines))).
Proof.
  intros H.
  destruct (H Ex.chat_delimiters 5%Z Ex.chat_lines
              [WritePart 1 Ex.chat_lines] [] Ex.chat_lines [])
    as [Hle | Hno].
  - discriminate.
  - lia.
  - reflexivity.
  - reflexivity.
  - vm_compute in Hle. apply Hle. reflexivity.
  - apply (Hno 2).
    + vm_compute. lia.
    + vm_compute. auto.
Qed.

(** C4. With delimiters configured, every chunk written by
    [split_file_by_words] is the slice of the input at its offset; the
    first starts at line 0 and every other one on a Boundary.  Hence a span
    of lines with no Boundary strictly inside (a section, whatever its word
    count) lies within one chunk, and within that one only. *)
Theorem chunks_start_on_boundaries DELIMITER words_per_file all_lines evs :
  DELIMITER <> [] ->
  split_file_by_words DELIMITER words_per_file all_lines = Some evs ->
  (forall pre c post,
      chunks evs = pre ++ c :: post ->
      c = slice (offset pre) (offset pre + length c) all_lines
      /\ (pre = [] -> c = firstn (length c) all_lines)
      /\ (pre <> [] -> In (offset pre) (split_points DELIMITER all_lines)))
  /\ (forall b e,
        b < e -> e <= length all_lines ->
        (forall k, b < k < e -> ~ In k (split_points DELIMITER all_lines)) ->
        exists pre c post,
          chunks evs = pre ++ c :: post
          /\ offset pre <= b /\ e <= offset pre + length c
          /\ forall pre' c' post',
               chunks evs = pre' ++ c' :: post' ->
               offset pre' <= b < offset pre' + length c' ->
               pre' = pre /\ c' = c /\ post' = post).
Proof.
  intros HD Hevs.
  pose proof (@WordsFacts.split_file_by_words_concat _ _ _ _ Hevs) as Hcat.
  assert (Hslice : forall pre c post,
             chunks evs = pre ++ c :: post ->
             c = slice (offset pre) (offset pre + length c) all_lines).
  { intros pre c post Hdec. rewrite <- Hcat, Hdec. symmetry.
    apply chunk_is_slice. }
  split.
  - intros pre c post Hdec. split; [eapply Hslice; eassumption|]. split.
    + intros ->. rewrite (Hslice _ _ _ Hdec) at 1.
      unfold offset. simpl. apply slice_from_0.
    + destruct (@WordsFacts.delim_chunks _ _ _ _ _ _ _ HD Hevs Hdec) as (_ & _ & Hb & _).
      exact Hb.
  - intros b e Hbe He Hno.
    destruct (@span_in_one_chunk
                (fun k => In k (split_points DELIMITER all_lines))
                (chunks evs) 0) with (b := b) (e := e)
      as (pre & c & post & Hdec & Hlo & Hhi); try assumption; try lia.
    + intros pre c post Hdec Hpre.
      destruct (@WordsFacts.delim_chunks _ _ _ _ _ _ _ HD Hevs Hdec) as (_ & _ & Hb & _).
      apply Hb. assumption.
    + simpl. unfold offset. rewrite Hcat. assumption.
    + exists pre, c, post. simpl in Hlo, Hhi.
      split; [assumption|]. split; [assumption|]. split; [assumption|].
      intros pre' c' post' Hdec' Hb'.
      destruct (@chunk_at_position_unique _ _ _ _ _ _ _ b Hdec' Hdec) as (-> & -> & ->);
        [assumption | lia | auto].
Qed.

Lemma chunks_start_on_boundaries_witness :
  Ex.chat_delimiters <> []
  /\ split_file_by_words Ex.chat_delimiters 3 Ex.chat_lines
     = Some [WritePart 1 [Ex.chat_A; Ex.hello];
             WritePart 2 [Ex.chat_B; Ex.world]]
  /\ In (offset [[Ex.chat_A; Ex.hello]])
       (split_points Ex.chat_delimiters Ex.chat_lines).
Proof.
  assert (HD : Ex.chat_delimiters <> []) by discriminate.
  assert (Hevs : split_file_by_words Ex.chat_delimiters 3 Ex.chat_lines
                 = Some [WritePart 1 [Ex.chat_A; Ex.hello];
                         WritePart 2 [Ex.chat_B; Ex.world]]) by reflexivity.
  destruct (@chunks_start_on_boundaries Ex.chat_delimiters 3 Ex.chat_lines _
              HD Hevs) as [Hstart _].
  destruct (Hstart [[Ex.chat_A; Ex.hello]] [Ex.chat_B; Ex.world] [] eq_refl)
    as (_ & _ & Hb).
  split; [exact HD|]. split; [exact Hevs|]. apply Hb. discriminate.
Defined.

(** C5. With delimiters configured, a turn of the loop of
    [split_file_by_words] writes a part only when the current chunk is not
    empty, [current_words] has reached [words_per_file] and the current line
    is a Boundary; so every chunk written but the last is not empty, counts
    at least [words_per_file] words, and ends where a Boundary begins. *)
Theorem flush_needs_budget_and_boundary DELIMITER words_per_file all_lines :
  DELIMITER <> [] ->
  (forall st st',
      Words.step DELIMITER words_per_file all_lines st = Some st' ->
      st'.(Words.written) <> st.(Words.written) ->
      st.(Words.current_chunk) <> []
      /\ (words_per_file <= st.(Words.current_words))%Z
      /\ In st.(Words.i) (split_points DELIMITER all_lines)
      /\ st' = Words.flush st)
  /\ (forall evs pre c post,
        split_file_by_words DELIMITER words_per_file all_lines = Some evs ->
        chunks evs = pre ++ c :: post ->
        post <> [] ->
        c <> []
        /\ (words_per_file <= chunk_words c)%Z
        /\ In (offset pre + length c) (split_points DELIMITER all_lines)).
Proof.
  intros HD. split.
  - intros st st' Hstep Hw.
    destruct (@WordsFacts.step_cases _ _ _ _ _ Hstep) as (l & Hl & Hc).
    destruct Hc as [(Hge & Hsp & Hne & ->) | [(_ & _ & ->)
                   | [(Hu & _) | (Hu & _)]]].
    + apply (proj1 (@WordsFacts.is_split_point_boundary DELIMITER all_lines
                      _ _ Hl)) in Hsp.
      destruct Hsp as (_ & _ & Hb). auto.
    + exfalso. apply Hw. reflexivity.
    + apply WordsFacts.use_delimiters_false in Hu. contradiction.
    + apply WordsFacts.use_delimiters_false in Hu. contradiction.
  - intros evs pre c post Hevs Hdec Hpost.
    destruct (@WordsFacts.delim_chunks _ _ _ _ _ _ _ HD Hevs Hdec) as (Hne & _ & _ & Hfl).
    destruct (Hfl Hpost) as [Hge Hb]. auto.
Qed.

Lemma flush_needs_budget_and_boundary_witness :
  Ex.chat_delimiters <> []
  /\ split_file_by_words Ex.chat_delimiters 3 Ex.chat_lines
     = Some [WritePart 1 [Ex.chat_A; Ex.hello];
             WritePart 2 [Ex.chat_B; Ex.world]]
  /\ [Ex.chat_A; Ex.hello] <> []
  /\ (3 <= chunk_words [Ex.chat_A; Ex.hello])%Z
  /\ In (offset [] + length [Ex.chat_A; Ex.hello])
       (split_points Ex.chat_delimiters Ex.chat_lines).
Proof.
  assert (HD : Ex.chat_delimiters <> []) by discriminate.
  assert (Hevs : split_file_by_words Ex.chat_delimiters 3 Ex.chat_lines
                 = Some [WritePart 1 [Ex.chat_A; Ex.hello];
                         WritePart 2 [Ex.chat_B; Ex.world]]) by reflexivity.
  destruct (@flush_needs_budget_and_boundary Ex.chat_delimiters 3
              Ex.chat_lines HD) as [_ Hout].
  assert (Hpost : [[Ex.chat_B; Ex.world]] <> []) by discriminate.
  pose proof (Hout _ [] [Ex.chat_A; Ex.hello] [[Ex.chat_B; Ex.world]]
                Hevs eq_refl Hpost) as H.
  split; [exact HD|]. split; [exact Hevs | exact H].
Defined.

(** ** The word budget, without delimiters *)

(** C6, as amended.  [split_file_by_words] of [split_file_simple.py], which
    the one of [split_file_delimiter.py] with no delimiter agrees with,
    flushes exactly when the current chunk is not empty and the line read
    would bring its words above [words_per_file], the test coming before the
    append.  So from its second line on a chunk is within the budget after
    every append, the line after a chunk that is not the last did not fit,
    and a chunk above the budget is a single line. *)
Theorem greedy_flush_before_append words_per_file f :
  (0 < words_per_file)%Z ->
  split_file_by_words [] words_per_file f
  = Some (Simple.split_file_by_words words_per_file f)
  /\ (forall st l,
        (Simple.words_body words_per_file st l).(Simple.written)
        <> st.(Simple.written)
        <-> (st.(Simple.current_chunk) <> []
             /\ (words_per_file < st.(Simple.current_words) + line_words l)%Z))
  /\ (forall pre c post,
        chunks (Simple.split_file_by_words words_per_file f) = pre ++ c :: post ->
        c <> []
        /\ (forall n, 2 <= n <= length c ->
                      (chunk_words (firstn n c) <= words_per_file)%Z)
        /\ (post <> [] ->
            (words_per_file
             < chunk_words c
               + line_words (nth (offset pre + length c) f EmptyString))%Z)
        /\ ((chunk_words c <= words_per_file)%Z \/ exists l, c = [l])
        /\ (exists l, In l c
                      /\ (chunk_words c <= words_per_file + line_words l)%Z)).
Proof.
  intros HW.
  pose proof (SimpleFacts.words_without_delimiters words_per_file f) as Href.
  split; [exact Href|]. split.
  - intros st l. unfold Simple.words_body.
    destruct ((words_per_file <? st.(Simple.current_words) + line_words l)%Z
              && truthy st.(Simple.current_chunk)) eqn:Hc; simpl.
    + apply andb_prop in Hc. destruct Hc as [Hlt Ht].
      apply Z.ltb_lt in Hlt. apply truthy_true in Ht. split; [auto|].
      intros _ Heq. apply (f_equal (@length event)) in Heq.
      rewrite length_app in Heq. simpl in Heq. lia.
    + split; [intros H; exfalso; apply H; reflexivity|].
      intros [Hne Hlt]. apply Z.ltb_lt in Hlt. apply truthy_true in Hne.
      rewrite Hlt, Hne in Hc. discriminate.
  - intros pre c post Hdec.
    destruct (@WordsFacts.greedy_chunks _ _ _ _ _ _ _ eq_refl Href Hdec)
      as (Hne & Hinner & Hnext).
    split; [assumption|]. split; [assumption|]. split; [assumption|].
    destruct c as [|l0 [|l1 c']]; [congruence | |].
    + split; [right; eauto|]. exists l0. split; [left; reflexivity|].
      rewrite chunk_words_one. lia.
    + assert (Hall : (chunk_words (l0 :: l1 :: c') <= words_per_file)%Z).
      { rewrite <- (firstn_all (l0 :: l1 :: c')). apply Hinner. simpl. lia. }
      split; [left; assumption|]. exists l0. split; [left; reflexivity|].
      pose proof (line_words_nonneg l0). lia.
Qed.

Lemma greedy_flush_before_append_witness :
  (0 < 3)%Z
  /\ split_file_by_words [] 3 Ex.chat_lines
     = Some (Simple.split_file_by_words 3 Ex.chat_lines)
  /\ Simple.split_file_by_words 3 Ex.chat_lines
     = [WritePart 1 [Ex.chat_A]; WritePart 2 [Ex.hello];
        WritePart 3 [Ex.chat_B]; WritePart 4 [Ex.world]]
  /\ (3 < chunk_words [Ex.hello]
          + line_words (nth (offset [[Ex.chat_A]] + length [Ex.hello])
                          Ex.chat_lines EmptyString))%Z.
Proof.
  assert (HW : (0 < 3)%Z) by lia.
  destruct (@greedy_flush_before_append 3 Ex.chat_lines HW) as (Href & _ & Hout).
  destruct (Hout [[Ex.chat_A]] [Ex.hello] [[Ex.chat_B]; [Ex.world]] eq_refl)
    as (_ & _ & Hnext & _).
  split; [exact HW|]. split; [exact Href|]. split; [reflexivity|].
  apply Hnext. discriminate.
Defined.

(** C6 as stated fails on its last part: a line of three words read into
    an empty chunk makes a chunk above the budget 2 right after the
    append. *)
Lemma single_line_over_budget_after_append :
  ~ (forall words_per_file f pre c post n,
        (0 < words_per_file)%Z ->
        chunks (Simple.split_file_by_words words_per_file f) = pre ++ c :: post ->
        1 <= n <= length c ->
        (chunk_words (firstn n c) <= words_per_file)%Z).
Proof.
  intros H.
  assert (Hle : (chunk_words (firstn 1 Ex.three_words) <= 2)%Z).
  { apply (H 2%Z Ex.three_words [] Ex.three_words [] 1).
    - lia.
    - reflexivity.
    - simpl. lia. }
  vm_compute in Hle. apply Hle. reflexivity.
Qed.

(** * Further properties of the splitters *)

Lemma fold_left_prefix_invariant {S A} (P : list A -> S -> Prop)
  (body : S -> A -> S) :
  (forall pre st a, P pre st -> P (pre ++ [a]) (body st a)) ->
  forall l pre st, P pre st -> P (pre ++ l) (fold_left body l st).
Proof.
  intros Hpres. induction l as [|a l IH]; intros pre st HP; simpl.
  - rewrite app_nil_r. assumption.
  - replace (pre ++ a :: l) with ((pre ++ [a]) ++ l)
      by (rewrite <- app_assoc; reflexivity).
    apply IH. apply Hpres. assumption.
Qed.

Lemma seq_snoc (a n : nat) : seq a (S n) = seq a n ++ [a + n].
Proof. apply seq_S. Qed.

(** The number of chunks of [q] full chunks of [m] lines and a rest of
    [r < m] lines. *)
Lemma ceil_div_count (m q r : nat) :
  0 < m -> r < m ->
  (q * m + r + m - 1) / m = q + (if r =? 0 then 0 else 1).
Proof.
  intros Hm Hr. destruct (r =? 0) eqn:H0.
  - apply Nat.eqb_eq in H0. subst r. symmetry.
    apply Nat.div_unique with (r := m - 1); lia.
  - apply Nat.eqb_neq in H0. symmetry.
    apply Nat.div_unique with (r := r - 1); lia.
Qed.

Module LinesFacts.

Section Lines.

Variable lines_per_file : Z.

Let m : nat := Z.to_nat (Z.max lines_per_file 1).

(** What the [for] loop of [split_file_by_lines] keeps, [pre] being the
    lines read. *)
Let inv (pre : list line) (st : Simple.lines_state) : Prop :=
  concat (chunks st.(Simple.l_written)) ++ st.(Simple.l_lines) = pre
  /\ Forall (fun c => length c = m) (chunks st.(Simple.l_written))
  /\ length st.(Simple.l_lines) < m
  /\ part_numbers st.(Simple.l_written)
     = seq 1 (length (chunks st.(Simple.l_written)))
  /\ st.(Simple.l_file_count) = S (length (chunks st.(Simple.l_written))).

Lemma lines_body_inv pre st l :
  inv pre st -> inv (pre ++ [l]) (Simple.lines_body lines_per_file st l).
Proof.
  intros (Hcat & Hfull & Hlt & Hnum & Hfc). unfold inv, Simple.lines_body.
  destruct (lines_per_file <=? Z.of_nat (length (st.(Simple.l_lines) ++ [l])))%Z
    eqn:Hc; simpl.
  - apply Z.leb_le in Hc. rewrite length_app in Hc. simpl in Hc.
    rewrite chunks_snoc, part_numbers_app, concat_app, length_app. simpl.
    rewrite !app_nil_r, <- Hcat, app_assoc.
    split; [reflexivity|]. split; [|split; [subst m; lia|split]].
    + apply Forall_app. split; [assumption|]. repeat constructor.
      rewrite length_app. simpl. subst m. lia.
    + rewrite Hnum, Hfc, Nat.add_1_r, seq_snoc. reflexivity.
    + rewrite Hfc. lia.
  - apply Z.leb_gt in Hc. rewrite length_app in *. simpl in *.
    rewrite <- Hcat, app_assoc.
    split; [reflexivity|]. split; [assumption|]. split; [subst m; lia|].
    split; assumption.
Qed.

Lemma split_file_by_lines_final f :
  exists st,
    fold_left (Simple.lines_body lines_per_file) f
      {| Simple.l_file_count := 1; Simple.l_lines := [];
         Simple.l_written := [] |} = st
    /\ inv f st.
Proof.
  eexists. split; [reflexivity|].
  apply (fold_left_prefix_invariant inv) with (pre := []).
  - intros pre st a. apply lines_body_inv.
  - unfold inv. simpl. repeat split; try constructor. subst m. lia.
Qed.

End Lines.

End LinesFacts.

(** X1. [split_file_by_lines] cuts the file into runs of
    [max(lines_per_file, 1)] lines: the chunks written, put together, are
    the input; every chunk but the last has exactly that many lines and the
    last has at least one and at most that many; the parts are numbered 1,
    2, ... and there are [ceil(len / max(lines_per_file, 1))] of them. *)
Theorem split_file_by_lines_chunks lines_per_file f :
  let m := Z.to_nat (Z.max lines_per_file 1) in
  let evs := Simple.split_file_by_lines lines_per_file f in
  concat (chunks evs) = f
  /\ part_numbers evs = seq 1 (length (chunks evs))
  /\ length (chunks evs) = (length f + m - 1) / m
  /\ forall pre c post,
      chunks evs = pre ++ c :: post ->
      1 <= length c <= m /\ (post <> [] -> length c = m).
Proof.
  intros m evs. subst evs. unfold Simple.split_file_by_lines.
  destruct (LinesFacts.split_file_by_lines_final lines_per_file f)
    as (st & -> & Hcat & Hfull & Hlt & Hnum & Hfc).
  fold m in Hfull, Hlt.
  assert (Hm : 0 < m) by (subst m; lia).
  assert (Hlen : length f
                 = length (chunks st.(Simple.l_written)) * m
                   + length st.(Simple.l_lines)).
  { rewrite <- Hcat, length_app. f_equal.
    clear - Hfull. induction Hfull as [|c cs Hc _ IH]; simpl; [reflexivity|].
    rewrite length_app, IH, Hc. reflexivity. }
  destruct (truthy st.(Simple.l_lines)) eqn:Ht.
  - apply truthy_true in Ht.
    assert (Hpos : 0 < length st.(Simple.l_lines)).
    { destruct st.(Simple.l_lines); [congruence | simpl; lia]. }
    rewrite chunks_snoc, part_numbers_app, concat_app, length_app. simpl.
    rewrite app_nil_r.
    split; [assumption|]. split; [|split].
    + rewrite Hnum, Hfc, Nat.add_1_r, seq_snoc. reflexivity.
    + rewrite Hlen, ceil_div_count by assumption.
      destruct (length st.(Simple.l_lines) =? 0) eqn:H0; [|reflexivity].
      apply Nat.eqb_eq in H0. lia.
    + intros pre c post Hdec. apply snoc_eq_app_cons in Hdec.
      destruct Hdec as [(-> & -> & ->) | (post' & -> & Hw)].
      * split; [lia | congruence].
      * rewrite Hw in Hfull. apply Forall_app in Hfull.
        destruct Hfull as [_ Hfull]. apply Forall_inv in Hfull.
        split; [lia | intros _; assumption].
  - apply truthy_false in Ht. rewrite Ht in *. simpl in Hlen.
    rewrite app_nil_r in Hcat.
    split; [assumption|]. split; [assumption|]. split.
    + rewrite Hlen, ceil_div_count by assumption. simpl. lia.
    + intros pre c post Hdec. rewrite Hdec in Hfull.
      apply Forall_app in Hfull. destruct Hfull as [_ Hfull].
      apply Forall_inv in Hfull. split; [lia | intros _; assumption].
Qed.

Lemma chunked_weaken (P Q : nat -> list line -> Prop) s cs :
  (forall s c, P s c -> Q s c) -> chunked P s cs -> chunked Q s cs.
Proof.
  intros HPQ. revert s. induction cs as [|c cs IH]; intros s; simpl; [tauto|].
  intros [H1 H2]. split; auto.
Qed.

Lemma chunk_bytes_app (c c' : list line) :
  chunk_bytes (c ++ c') = (chunk_bytes c + chunk_bytes c')%Z.
Proof.
  induction c as [|l c IH]; simpl; [reflexivity|]. rewrite IH. lia.
Qed.

Module BytesFacts.

Section Bytes.

Variable bytes_per_file : Z.

Let within (c : list line) : Prop :=
  (chunk_bytes c <= bytes_per_file)%Z \/ length c <= 1.

(** A chunk flushed by the loop, [pre] being the lines read: the line after
    it did not fit. *)
Let flushed (pre : list line) (s : nat) (c : list line) : Prop :=
  c <> [] /\ within c /\ s + length c < length pre
  /\ (bytes_per_file
      < chunk_bytes c + line_bytes (nth (s + length c) pre EmptyString))%Z.

Let inv (pre : list line) (st : Simple.bytes_state) : Prop :=
  concat (chunks st.(Simple.b_written)) ++ st.(Simple.b_lines) = pre
  /\ st.(Simple.b_current_bytes) = chunk_bytes st.(Simple.b_lines)
  /\ chunked (flushed pre) 0 (chunks st.(Simple.b_written))
  /\ within st.(Simple.b_lines)
  /\ part_numbers st.(Simple.b_written)
     = seq 1 (length (chunks st.(Simple.b_written)))
  /\ st.(Simple.b_file_count) = S (length (chunks st.(Simple.b_written))).

Lemma flushed_extend pre a s c : flushed pre s c -> flushed (pre ++ [a]) s c.
Proof.
  intros (Hne & Hw & Hlt & Hgt). unfold flushed.
  rewrite length_app, app_nth1 by assumption. simpl.
  repeat split; try assumption. lia.
Qed.

Lemma bytes_body_inv pre st l :
  inv pre st -> inv (pre ++ [l]) (Simple.bytes_body bytes_per_file st l).
Proof.
  intros (Hcat & Hcur & Hwr & Hin & Hnum & Hfc).
  assert (Hpos : offset (chunks st.(Simple.b_written))
                 + length st.(Simple.b_lines) = length pre).
  { rewrite <- Hcat, length_app. reflexivity. }
  apply (chunked_weaken (flushed pre) (flushed (pre ++ [l]))) in Hwr;
    [|intros s c; apply flushed_extend].
  unfold inv, Simple.bytes_body. fold (line_bytes l).
  destruct ((bytes_per_file <? st.(Simple.b_current_bytes) + line_bytes l)%Z
            && truthy st.(Simple.b_lines)) eqn:Hc; simpl.
  - apply andb_prop in Hc. destruct Hc as [Hgt Ht].
    apply Z.ltb_lt in Hgt. apply truthy_true in Ht.
    rewrite chunks_snoc, part_numbers_app, concat_app, length_app. simpl.
    rewrite !app_nil_r, <- Hcat.
    split; [reflexivity|]. split; [lia|]. split; [|split; [|split]].
    + apply chunked_snoc. split; [rewrite Hcat; assumption|]. simpl.
      rewrite Hcat. unfold flushed. rewrite Hpos, length_app, nth_middle.
      simpl. repeat split; try assumption; [lia | congruence].
    + right. simpl. lia.
    + rewrite Hnum, Hfc, Nat.add_1_r, seq_snoc. reflexivity.
    + rewrite Hfc. lia.
  - split; [rewrite app_assoc, Hcat; reflexivity|].
    split; [rewrite chunk_bytes_app; simpl; lia|].
    split; [assumption|]. split; [|split; assumption].
    unfold within. rewrite chunk_bytes_app, length_app. simpl.
    destruct st.(Simple.b_lines) as [|l0 r] eqn:Hl; [right; simpl; lia|].
    left. rewrite andb_true_r in Hc. apply Z.ltb_ge in Hc.
    rewrite Hcur in Hc. unfold line_bytes in *. lia.
Qed.

Lemma split_file_by_bytes_final f :
  inv f (fold_left (Simple.bytes_body bytes_per_file) f
           {| Simple.b_file_count := 1; Simple.b_lines := [];
              Simple.b_current_bytes := 0; Simple.b_written := [] |}).
Proof.
  apply (fold_left_prefix_invariant inv) with (pre := []).
  - intros pre st a. apply bytes_body_inv.
  - unfold inv. simpl. repeat split. right. simpl. lia.
Qed.

(** Every chunk written, at its place in the file. *)
Lemma split_file_by_bytes_at f pre c post :
  chunks (Simple.split_file_by_bytes bytes_per_file f) = pre ++ c :: post ->
  c <> []
  /\ ((chunk_bytes c <= bytes_per_file)%Z \/ exists l, c = [l])
  /\ (post <> [] ->
      (bytes_per_file
       < chunk_bytes c
         + line_bytes (nth (offset pre + length c) f EmptyString))%Z).
Proof.
  unfold Simple.split_file_by_bytes.
  destruct (split_file_by_bytes_final f) as (Hcat & Hcur & Hwr & Hin & _).
  set (st := fold_left _ _ _) in *.
  assert (Hsingle : forall c0 : list line,
             c0 <> [] -> within c0 ->
             (chunk_bytes c0 <= bytes_per_file)%Z \/ exists l, c0 = [l]).
  { intros c0 Hne [Hle|Hlen]; [left; assumption | right].
    destruct c0 as [|l [|l' r]]; [congruence | eauto | simpl in Hlen; lia]. }
  assert (Hold : forall pre0 c0 post0,
             chunks st.(Simple.b_written) = pre0 ++ c0 :: post0 ->
             c0 <> []
             /\ ((chunk_bytes c0 <= bytes_per_file)%Z \/ exists l, c0 = [l])
             /\ (bytes_per_file
                 < chunk_bytes c0
                   + line_bytes (nth (offset pre0 + length c0) f EmptyString))%Z).
  { intros pre0 c0 post0 Hdec. rewrite Hdec in Hwr. apply chunked_at in Hwr.
    destruct Hwr as (Hne & Hw & _ & Hgt). auto. }
  destruct (truthy st.(Simple.b_lines)) eqn:Ht.
  - apply truthy_true in Ht. rewrite chunks_snoc. intros Hdec.
    apply snoc_eq_app_cons in Hdec.
    destruct Hdec as [(-> & -> & ->) | (post' & -> & Hw)].
    + split; [assumption|]. split; [auto | congruence].
    + destruct (Hold _ _ _ Hw) as (H1 & H2 & H3). auto.
  - intros Hdec. destruct (Hold _ _ _ Hdec) as (H1 & H2 & H3). auto.
Qed.

End Bytes.

End BytesFacts.

(** X2. [split_file_by_bytes] is greedy on whole lines: the chunks written,
    put together, are the input; no chunk is empty; a chunk is within
    [bytes_per_file] bytes (UTF-8) unless it is a single line; the line
    that follows a chunk would have brought it above the budget; the parts
    are numbered 1, 2, .... *)
Theorem split_file_by_bytes_chunks bytes_per_file f :
  let evs := Simple.split_file_by_bytes bytes_per_file f in
  concat (chunks evs) = f
  /\ part_numbers evs = seq 1 (length (chunks evs))
  /\ forall pre c post,
      chunks evs = pre ++ c :: post ->
      c <> []
      /\ ((chunk_bytes c <= bytes_per_file)%Z \/ exists l, c = [l])
      /\ (post <> [] ->
          (bytes_per_file
           < chunk_bytes c
             + line_bytes (nth (offset pre + length c) f EmptyString))%Z).
Proof.
  intros evs. split; [|split].
  - subst evs. unfold Simple.split_file_by_bytes.
    destruct (BytesFacts.split_file_by_bytes_final bytes_per_file f)
      as (Hcat & _).
    set (st := fold_left _ _ _) in *.
    destruct (truthy st.(Simple.b_lines)) eqn:Ht.
    + rewrite chunks_snoc, concat_app. simpl. rewrite app_nil_r. assumption.
    + apply truthy_false in Ht. rewrite Ht, app_nil_r in Hcat. assumption.
  - subst evs. unfold Simple.split_file_by_bytes.
    destruct (BytesFacts.split_file_by_bytes_final bytes_per_file f)
      as (_ & _ & _ & _ & Hnum & Hfc).
    set (st := fold_left _ _ _) in *.
    destruct (truthy st.(Simple.b_lines)) eqn:Ht; [|assumption].
    rewrite chunks_snoc, part_numbers_app, length_app. simpl.
    rewrite Hnum, Hfc, Nat.add_1_r, seq_snoc. reflexivity.
  - intros pre c post. apply BytesFacts.split_file_by_bytes_at.
Qed.

Module PartsFacts.

Lemma firstn_add_skipn {A} (x y : nat) (l : list A) :
  firstn x l ++ firstn y (skipn x l) = firstn (x + y) l.
Proof.
  revert l. induction x as [|x IH]; intros l; simpl; [reflexivity|].
  destruct l as [|a l]; simpl.
  - rewrite firstn_nil. reflexivity.
  - f_equal. apply IH.
Qed.

Lemma py_index_nonneg {A} (l : list A) (x : Z) :
  (0 <= x)%Z -> py_index l x = Nat.min (Z.to_nat x) (length l).
Proof.
  intros Hx. unfold py_index.
  destruct (x <? 0)%Z eqn:Hneg; [apply Z.ltb_lt in Hneg; lia|]. lia.
Qed.

Lemma slice_clamped {A} (a b : nat) (l : list A) :
  a <= b ->
  slice (Nat.min a (length l)) (Nat.min b (length l)) l = slice a b l.
Proof.
  intros Hab. unfold slice.
  destruct (Nat.le_gt_cases (length l) a) as [Hge|Hlt].
  - rewrite !Nat.min_r by lia. rewrite !skipn_all2 by lia.
    rewrite !firstn_nil. reflexivity.
  - rewrite (Nat.min_l a) by lia.
    destruct (Nat.le_gt_cases b (length l)) as [Hb|Hb].
    + rewrite (Nat.min_l b) by lia. reflexivity.
    + rewrite (Nat.min_r b) by lia.
      rewrite !firstn_all2 by (rewrite length_skipn; lia). reflexivity.
Qed.

(** For indices that are not negative, [lines[start:end]] is the slice. *)
Lemma py_slice_nonneg {A} (a b : Z) (l : list A) :
  (0 <= a <= b)%Z -> py_slice a b l = slice (Z.to_nat a) (Z.to_nat b) l.
Proof.
  intros Hab. unfold py_slice. rewrite !py_index_nonneg by lia.
  apply slice_clamped. lia.
Qed.

Section Parts.

Variable lines : list line.
Variable lines_per_part : Z.
Hypothesis lines_per_part_nonneg : (0 <= lines_per_part)%Z.

Let L : nat := Z.to_nat lines_per_part.

Lemma parts_body_slice k :
  Simple.parts_body lines lines_per_part k =
  let part_lines := slice (k * L) (k * L + L) lines in
  if truthy part_lines then [WritePart (k + 1) part_lines] else [].
Proof.
  unfold Simple.parts_body. rewrite py_slice_nonneg by nia.
  replace (Z.to_nat (Z.of_nat k * lines_per_part)) with (k * L)
    by (subst L; nia).
  replace (Z.to_nat (Z.of_nat k * lines_per_part + lines_per_part))
    with (k * L + L) by (subst L; nia).
  reflexivity.
Qed.

Lemma slice_part_length k :
  length (slice (k * L) (k * L + L) lines)
  = Nat.min L (length lines - k * L).
Proof.
  unfold slice. rewrite length_firstn, length_skipn. f_equal. lia.
Qed.

Lemma parts_body_chunks k :
  concat (chunks (Simple.parts_body lines lines_per_part k))
  = firstn L (skipn (k * L) lines).
Proof.
  rewrite parts_body_slice. cbv zeta.
  destruct (truthy (slice (k * L) (k * L + L) lines)) eqn:Ht.
  - unfold chunks, slice. simpl. rewrite app_nil_r. f_equal. lia.
  - apply truthy_false in Ht. unfold slice in Ht.
    replace (k * L + L - k * L) with L in Ht by lia. rewrite Ht. reflexivity.
Qed.

Lemma parts_concat n a :
  concat (chunks (flat_map (Simple.parts_body lines lines_per_part) (seq a n)))
  = firstn (n * L) (skipn (a * L) lines).
Proof.
  revert a. induction n as [|n IH]; intros a; [reflexivity|].
  simpl flat_map. rewrite chunks_app, concat_app, parts_body_chunks, IH.
  replace (skipn (S a * L) lines) with (skipn L (skipn (a * L) lines))
    by (rewrite skipn_skipn; f_equal; lia).
  rewrite firstn_add_skipn. f_equal.
Qed.

(** Past the end of the file nothing is written. *)
Lemma parts_past_end n a :
  length lines <= a * L ->
  flat_map (Simple.parts_body lines lines_per_part) (seq a n) = [].
Proof.
  revert a. induction n as [|n IH]; intros a Ha; [reflexivity|].
  simpl. rewrite IH by lia. rewrite parts_body_slice. cbv zeta.
  assert (Hnil : slice (a * L) (a * L + L) lines = []).
  { apply length_zero_iff_nil. rewrite slice_part_length. lia. }
  rewrite Hnil. reflexivity.
Qed.

Lemma parts_shape n a :
  0 < L ->
  let evs := flat_map (Simple.parts_body lines lines_per_part) (seq a n) in
  part_numbers evs = seq (a + 1) (length (chunks evs))
  /\ length (chunks evs) <= n
  /\ forall pre c post,
      chunks evs = pre ++ c :: post ->
      1 <= length c <= L /\ (post <> [] -> length c = L).
Proof.
  intros HL. revert a. induction n as [|n IH]; intros a evs; subst evs.
  - simpl. repeat split; try lia; destruct pre; discriminate.
  - destruct (Nat.le_gt_cases (length lines) (a * L)) as [Hge|Hlt].
    + rewrite parts_past_end by assumption. simpl.
      repeat split; try lia; destruct pre; discriminate.
    + simpl flat_map. rewrite parts_body_slice. cbv zeta.
      pose proof (slice_part_length a) as Hlen.
      destruct (slice (a * L) (a * L + L) lines) as [|l0 c0] eqn:Hs;
        [simpl in Hlen; lia|].
      simpl truthy. cbv iota. destruct (IH (S a)) as (Hnum & Hcount & Hat).
      change (part_numbers ([WritePart (a + 1) (l0 :: c0)] ++ ?e))
        with (a + 1 :: part_numbers e).
      change (chunks ([WritePart (a + 1) (l0 :: c0)] ++ ?e))
        with ((l0 :: c0) :: chunks e).
      split; [|split].
      * rewrite Hnum. replace (S a + 1) with (S (a + 1)) by lia. reflexivity.
      * simpl. lia.
      * intros pre c post Hdec. destruct pre as [|c1 pre]; simpl in Hdec.
        -- injection Hdec as <- Hpost. split; [lia|]. intros Hne.
           destruct (Nat.le_gt_cases (length lines) (S a * L)) as [Hend|Hmore].
           ++ rewrite parts_past_end in Hpost by assumption.
              exfalso. apply Hne. symmetry. exact Hpost.
           ++ simpl in Hmore. lia.
        -- injection Hdec as _ Hdec. eapply Hat. eassumption.
Qed.

End Parts.

End PartsFacts.

(** X3. For a positive [num_parts], [split_file_into_parts] returns; the
    chunks written, put together, are the input; each has at most
    [ceil(total_lines / num_parts)] lines and at least one, and each but the
    last exactly that many; at most [num_parts] parts are written, numbered
    1, 2, ... with no gap. *)
Theorem split_file_into_parts_chunks num_parts lines :
  (0 < num_parts)%Z ->
  let lines_per_part :=
    ((Z.of_nat (length lines) + num_parts - 1) / num_parts)%Z in
  exists evs,
    Simple.split_file_into_parts num_parts lines = Some evs
    /\ concat (chunks evs) = lines
    /\ part_numbers evs = seq 1 (length (chunks evs))
    /\ (Z.of_nat (length (chunks evs)) <= num_parts)%Z
    /\ forall pre c post,
        chunks evs = pre ++ c :: post ->
        (1 <= Z.of_nat (length c) <= lines_per_part)%Z
        /\ (post <> [] -> Z.of_nat (length c) = lines_per_part).
Proof.
  intros Hn lpp. unfold Simple.split_file_into_parts. fold lpp.
  destruct (num_parts =? 0)%Z eqn:H0; [apply Z.eqb_eq in H0; lia|].
  eexists. split; [reflexivity|]. unfold Simple.range.
  assert (Hlpp : (0 <= lpp)%Z).
  { subst lpp. apply Z.div_pos; lia. }
  assert (Hcover : (Z.of_nat (length lines) <= num_parts * lpp)%Z).
  { subst lpp.
    pose proof (Z.mul_succ_div_gt (Z.of_nat (length lines) + num_parts - 1)
                  num_parts Hn). lia. }
  split.
  - rewrite (PartsFacts.parts_concat lines Hlpp). simpl.
    apply firstn_all2. nia.
  - destruct lines as [|l0 ls] eqn:Hl.
    + rewrite (@PartsFacts.parts_past_end [] lpp Hlpp) by (simpl; lia).
      simpl. repeat split; try lia; destruct pre; discriminate.
    + rewrite <- Hl in *.
      assert (HL : 0 < Z.to_nat lpp).
      { assert (0 < length lines) by (rewrite Hl; simpl; lia). nia. }
      destruct (@PartsFacts.parts_shape lines lpp Hlpp (Z.to_nat num_parts) 0 HL)
        as (Hnum & Hcount & Hat).
      split; [exact Hnum|]. split; [lia|].
      intros pre c post Hdec. destruct (Hat _ _ _ Hdec) as [Hlen Hfull].
      split; [lia|]. intros Hpost. specialize (Hfull Hpost). lia.
Qed.

Module SectionsFacts.

Import Delimiter ClassifierFacts.

Lemma slice_cons {A} (a b : nat) (l : list A) (d : A) :
  a < b -> a < length l ->
  slice a b l = nth a l d :: slice (S a) b l.
Proof.
  intros Hab Hlen. unfold slice.
  destruct (nth_error l a) as [x|] eqn:Hx;
    [|apply nth_error_None in Hx; lia].
  rewrite (skipn_cons_nth_error _ _ Hx).
  rewrite (nth_error_nth_default _ _ d Hx).
  replace (b - a) with (S (b - S a)) by lia. reflexivity.
Qed.

Section Sections.

Variable delimiters : list string.
Variable all_lines : list line.

Lemma some_delimiter_index l :
  In l all_lines -> line_contains_delimiter delimiters l = true ->
  delimiter_indices delimiters all_lines <> [].
Proof.
  intros Hin Hl Hnil. apply (In_nth _ _ EmptyString) in Hin.
  destruct Hin as (j & Hj & <-).
  assert (Hj' : In j (delimiter_indices delimiters all_lines)).
  { apply In_delimiter_indices. split; assumption. }
  rewrite Hnil in Hj'. contradiction.
Qed.

(** The first delimiter index is the first split point. *)
Lemma first_split_point d0 r :
  delimiter_indices delimiters all_lines = d0 :: r ->
  exists rest, split_points delimiters all_lines = d0 :: rest.
Proof.
  intros Hd. unfold split_points. rewrite Hd. simpl.
  assert (Hsp : is_split_point delimiters all_lines d0 = true).
  { unfold is_split_point. destruct d0 as [|p]; [reflexivity|].
    destruct (prev_non_empty all_lines (S p)) as [q|] eqn:Hq; [|reflexivity].
    apply prev_non_empty_Some in Hq. destruct Hq as (Hlt & _ & _).
    unfold delimiter_indices in Hd.
    rewrite (before_first_delimiter_index _ _ _ Hd q); [reflexivity|].
    simpl. lia. }
  rewrite Hsp. eauto.
Qed.

(** No line before the first split point contains a delimiter. *)
Lemma header_has_no_delimiter s0 rest :
  split_points delimiters all_lines = s0 :: rest ->
  Forall (fun l => line_contains_delimiter delimiters l = false)
    (firstn s0 all_lines).
Proof.
  intros Hs.
  destruct (delimiter_indices delimiters all_lines) as [|d0 r] eqn:Hd.
  - unfold split_points in Hs. rewrite Hd in Hs. discriminate.
  - destruct (first_split_point Hd) as [rest' Hs']. rewrite Hs in Hs'.
    injection Hs' as -> _. unfold delimiter_indices in Hd.
    apply Forall_forall. intros l Hin.
    apply (In_nth _ _ EmptyString) in Hin. destruct Hin as (j & Hj & <-).
    rewrite length_firstn in Hj. rewrite nth_firstn.
    replace (j <? d0) with true by (symmetry; apply Nat.ltb_lt; lia).
    apply (before_first_delimiter_index _ _ _ Hd j). simpl. lia.
Qed.

Lemma write_sections_starts rest : forall s0 file_count lo,
  ascending lo (length all_lines) (s0 :: rest) ->
  starts s0 (chunks (write_sections all_lines (s0 :: rest) file_count))
  = s0 :: rest.
Proof.
  induction rest as [|s1 rest IH]; intros s0 fc lo Hasc;
    rewrite (DelimiterFacts.write_sections_unfold _ _ Hasc).
  - reflexivity.
  - change (s0 :: starts (s0 + length (slice s0 s1 all_lines))
                    (chunks (write_sections all_lines (s1 :: rest) (S fc)))
            = s0 :: s1 :: rest).
    destruct Hasc as [Hs0 Hasc]. pose proof Hasc as [Hs1 _].
    rewrite slice_length by lia.
    replace (s0 + (s1 - s0)) with s1 by lia.
    rewrite (IH _ _ _ Hasc). reflexivity.
Qed.

(** Every section is numbered from 1 on and begins with a line that
    contains a delimiter. *)
Lemma write_sections_heads sps : forall file_count lo,
  ascending lo (length all_lines) sps ->
  Forall (fun s => line_contains_delimiter delimiters
                     (nth s all_lines EmptyString) = true) sps ->
  Forall (fun p => fst p <> 0
                   /\ exists l r, snd p = l :: r
                                  /\ line_contains_delimiter delimiters l = true)
    (parts (write_sections all_lines sps file_count)).
Proof.
  induction sps as [|s0 rest IH]; intros fc lo Hasc Hd; [constructor|].
  rewrite (DelimiterFacts.write_sections_unfold _ _ Hasc).
  destruct Hasc as [Hs0 Hasc]. simpl parts.
  apply Forall_cons_iff in Hd. destruct Hd as [Hd0 Hd].
  constructor; [|eapply IH; eassumption].
  simpl. split; [discriminate|].
  assert (Hlt : s0 < hd (length all_lines) rest).
  { destruct rest as [|s1 r]; simpl in *; lia. }
  rewrite (@slice_cons line s0 _ all_lines EmptyString Hlt) by lia. eauto.
Qed.

End Sections.

End SectionsFacts.

(** X4. On a file with a line that contains a delimiter,
    [split_file_by_delimiter] prints no warning and starts a part at every
    split point and, when lines come before the first split point, at line
    0; it starts a part nowhere else. *)
Theorem parts_start_at_split_points d all_lines :
  (exists l, In l all_lines
             /\ Delimiter.line_contains_delimiter (Delimiter.normalize d) l
                = true) ->
  let evs := Delimiter.split_file_by_delimiter d all_lines in
  let sps := Delimiter.split_points (Delimiter.normalize d) all_lines in
  warnings evs = []
  /\ sps <> []
  /\ starts 0 (chunks evs) = if 0 <? hd 0 sps then 0 :: sps else sps.
Proof.
  intros (l & Hin & Hl) evs sps. subst evs sps.
  pose proof (ClassifierFacts.split_points_ascending
                (Delimiter.normalize d) all_lines) as Hasc.
  destruct (DelimiterFacts.split_file_by_delimiter_cases d all_lines)
    as [[Hnil _] | [(_ & Hidx & _) | (_ & s0 & rest & Hs & ->)]].
  - rewrite Hnil in Hin. contradiction.
  - exfalso. eapply SectionsFacts.some_delimiter_index; eassumption.
  - rewrite Hs in Hasc |- *. simpl hd. split; [|split; [discriminate|]].
    + assert (Hw : forall sps fc,
                 warnings (Delimiter.write_sections all_lines sps fc) = []).
      { induction sps as [|a sps IH]; intros fc; simpl; [reflexivity|].
        match goal with |- context [truthy ?x] => destruct (truthy x) end;
          simpl; apply IH. }
      destruct (0 <? s0); [cbn [warnings]|]; apply Hw.
    + destruct (0 <? s0) eqn:H0.
      * change (0 :: starts (0 + length (firstn s0 all_lines))
                       (chunks (Delimiter.write_sections all_lines
                                  (s0 :: rest) 1))
                = 0 :: s0 :: rest).
        destruct Hasc as [Hs0 Hrest]. rewrite length_firstn.
        replace (0 + Nat.min s0 (length all_lines)) with s0 by lia.
        rewrite (@SectionsFacts.write_sections_starts all_lines rest s0 1 0);
          [reflexivity | split; assumption].
      * apply Nat.ltb_ge in H0. assert (s0 = 0) by lia. subst s0.
        apply (@SectionsFacts.write_sections_starts all_lines rest 0 0 0).
        assumption.
Qed.

Lemma parts_start_at_split_points_witness :
  (exists l, In l Ex.intro_lines
             /\ Delimiter.line_contains_delimiter Ex.chat_delimiters l = true)
  /\ starts 0 (chunks (Delimiter.split_file_by_delimiter
                         (Delimiter.ManyDelimiters Ex.chat_delimiters)
                         Ex.intro_lines))
     = [0; 1].
Proof.
  assert (H : exists l, In l Ex.intro_lines
                        /\ Delimiter.line_contains_delimiter
                             Ex.chat_delimiters l = true).
  { exists Ex.chat_A. split; [right; left; reflexivity | reflexivity]. }
  split; [exact H|].
  destruct (@parts_start_at_split_points
              (Delimiter.ManyDelimiters Ex.chat_delimiters) Ex.intro_lines H)
    as (_ & _ & Hst).
  exact Hst.
Defined.

(** X5. On a file with a line that contains a delimiter, the part numbered
    0 of [split_file_by_delimiter] (the lines before the first split point)
    holds no line that contains a delimiter, and every other part begins
    with a line that contains one. *)
Theorem sections_begin_with_delimiter d all_lines n c :
  (exists l, In l all_lines
             /\ Delimiter.line_contains_delimiter (Delimiter.normalize d) l
                = true) ->
  In (n, c) (parts (Delimiter.split_file_by_delimiter d all_lines)) ->
  (n = 0 ->
   Forall (fun l => Delimiter.line_contains_delimiter
                      (Delimiter.normalize d) l = false) c)
  /\ (n <> 0 ->
      exists l r, c = l :: r
                  /\ Delimiter.line_contains_delimiter
                       (Delimiter.normalize d) l = true).
Proof.
  intros (l & Hin & Hl) Hpart.
  pose proof (ClassifierFacts.split_points_ascending
                (Delimiter.normalize d) all_lines) as Hasc.
  destruct (DelimiterFacts.split_file_by_delimiter_cases d all_lines)
    as [[Hnil _] | [(_ & Hidx & _) | (_ & s0 & rest & Hs & Hevs)]].
  - rewrite Hnil in Hin. contradiction.
  - exfalso. eapply SectionsFacts.some_delimiter_index; eassumption.
  - rewrite Hevs in Hpart. rewrite Hs in Hasc.
    assert (Hdelim : Forall (fun s => Delimiter.line_contains_delimiter
                                        (Delimiter.normalize d)
                                        (nth s all_lines EmptyString) = true)
                       (s0 :: rest)).
    { apply Forall_forall. intros s Hsin. rewrite <- Hs in Hsin.
      apply ClassifierFacts.In_split_points in Hsin. tauto. }
    assert (Hsec : forall fc,
               In (n, c) (parts (Delimiter.write_sections all_lines
                                   (s0 :: rest) fc)) ->
               n <> 0
               /\ exists l r, c = l :: r
                              /\ Delimiter.line_contains_delimiter
                                   (Delimiter.normalize d) l = true).
    { intros fc Hp.
      pose proof (@SectionsFacts.write_sections_heads
                    (Delimiter.normalize d) all_lines (s0 :: rest) fc 0
                    Hasc Hdelim) as Hall.
      rewrite Forall_forall in Hall. apply (Hall (n, c) Hp). }
    destruct (0 <? s0).
    + destruct Hpart as [Heq | Hpart].
      * injection Heq as <- <-. split; [|congruence]. intros _.
        eapply SectionsFacts.header_has_no_delimiter. eassumption.
      * destruct (Hsec 1 Hpart) as [Hn Hhead]. split; [congruence | auto].
    + destruct (Hsec 0 Hpart) as [Hn Hhead]. split; [congruence | auto].
Qed.

Lemma sections_begin_with_delimiter_witness :
  (exists l, In l Ex.intro_lines
             /\ Delimiter.line_contains_delimiter Ex.chat_delimiters l = true)
  /\ In (2, [Ex.chat_A; Ex.hello])
       (parts (Delimiter.split_file_by_delimiter
                 (Delimiter.ManyDelimiters Ex.chat_delimiters) Ex.intro_lines))
  /\ exists l r, [Ex.chat_A; Ex.hello] = l :: r
                 /\ Delimiter.line_contains_delimiter Ex.chat_delimiters l
                    = true.
Proof.
  assert (H : exists l, In l Ex.intro_lines
                        /\ Delimiter.line_contains_delimiter
                             Ex.chat_delimiters l = true).
  { exists Ex.chat_A. split; [right; left; reflexivity | reflexivity]. }
  assert (Hp : In (2, [Ex.chat_A; Ex.hello])
                 (parts (Delimiter.split_file_by_delimiter
                           (Delimiter.ManyDelimiters Ex.chat_delimiters)
                           Ex.intro_lines))).
  { right. left. reflexivity. }
  split; [exact H|]. split; [exact Hp|].
  destruct (@sections_begin_with_delimiter
              (Delimiter.ManyDelimiters Ex.chat_delimiters) Ex.intro_lines
              2 [Ex.chat_A; Ex.hello] H Hp) as [_ Hhead].
  apply Hhead. discriminate.
Defined.

(** X6. The word splitters number their parts 1, 2, ..., with no gap and
    whatever the delimiters and the budget: [split_file_by_words] of
    [split_file_delimiter.py], which returns, and the one of
    [split_file_simple.py]. *)
Theorem word_parts_numbered_from_1 :
  (forall DELIMITER words_per_file all_lines,
      exists evs,
        Delimiter.split_file_by_words DELIMITER words_per_file all_lines
        = Some evs
        /\ part_numbers evs = seq 1 (length (chunks evs)))
  /\ (forall words_per_file f,
        part_numbers (Simple.split_file_by_words words_per_file f)
        = seq 1 (length (chunks (Simple.split_file_by_words words_per_file f)))).
Proof.
  split.
  - intros D W ls.
    destruct (WordsFacts.split_file_by_words_total D W ls) as [evs Hevs].
    exists evs. split; [assumption|].
    eapply WordsFacts.split_file_by_words_numbers. eassumption.
  - intros W f. eapply WordsFacts.split_file_by_words_numbers.
    apply SimpleFacts.words_without_delimiters.
Qed.

(** X7. With delimiters configured, the test [is_split_point] of the loop
    of [split_file_by_words] agrees with the split points of
    [split_file_by_delimiter] at every line but the first; at line 0 the
    loop never sees a split point. *)
Theorem loop_split_point_is_split_point DELIMITER all_lines idx l :
  DELIMITER <> [] ->
  nth_error all_lines idx = Some l ->
  (0 < idx ->
   Delimiter.Words.is_split_point DELIMITER all_lines idx l = true
   <-> In idx (Delimiter.split_points DELIMITER all_lines))
  /\ (idx = 0 ->
      Delimiter.Words.is_split_point DELIMITER all_lines idx l = false).
Proof.
  intros HD Hl.
  pose proof (@WordsFacts.is_split_point_boundary DELIMITER all_lines idx l Hl)
    as Hiff.
  apply WordsFacts.use_delimiters_true in HD. split.
  - intros Hpos. rewrite Hiff. unfold WordsInv.boundary. tauto.
  - intros ->.
    destruct (Delimiter.Words.is_split_point DELIMITER all_lines 0 l) eqn:Hsp;
      [|reflexivity].
    destruct (proj1 Hiff eq_refl) as (_ & Hlt & _). lia.
Qed.

Lemma loop_split_point_is_split_point_witness :
  Ex.chat_delimiters <> []
  /\ nth_error Ex.chat_lines 2 = Some Ex.chat_B
  /\ (Delimiter.Words.is_split_point Ex.chat_delimiters Ex.chat_lines 2
        Ex.chat_B = true
      <-> In 2 (Delimiter.split_points Ex.chat_delimiters Ex.chat_lines)).
Proof.
  assert (HD : Ex.chat_delimiters <> []) by discriminate.
  assert (Hl : nth_error Ex.chat_lines 2 = Some Ex.chat_B) by reflexivity.
  split; [exact HD|]. split; [exact Hl|].
  destruct (@loop_split_point_is_split_point Ex.chat_delimiters Ex.chat_lines
              2 Ex.chat_B HD Hl) as [Hpos _].
  apply Hpos. lia.
Defined.

(** ** The names of the parts *)

Module NameFacts.

Lemma string_length_append (s t : string) :
  String.length (s ++ t) = String.length s + String.length t.
Proof. induction s as [|c s IH]; simpl; [reflexivity|]. rewrite IH. reflexivity. Qed.

Lemma string_append_inv_tail (s s' t : string) :
  (s ++ t)%string = (s' ++ t)%string -> s = s'.
Proof.
  intros H.
  assert (Hlen : String.length s = String.length s').
  { apply (f_equal String.length) in H. rewrite !string_length_append in H. lia. }
  revert s' H Hlen. induction s as [|c s IH]; intros [|c' s'] H Hlen;
    simpl in *; try discriminate; [reflexivity|].
  injection H as -> H. f_equal. apply IH; [assumption | lia].
Qed.

Lemma string_append_inv_head (s t t' : string) :
  (s ++ t)%string = (s ++ t')%string -> t = t'.
Proof.
  induction s as [|c s IH]; simpl; intros H; [assumption|].
  injection H as H. auto.
Qed.

(** [str(n)] tells the numbers apart. *)
Lemma str_of_nat_inj (n m : nat) :
  PyStr.str_of_nat n = PyStr.str_of_nat m -> n = m.
Proof.
  unfold PyStr.str_of_nat. intros H.
  assert (Hnn : forall k, Nat.to_uint k <> Decimal.Nil).
  { intros k. rewrite <- (DecimalNat.Unsigned.of_to k) at 1.
    rewrite DecimalNat.Unsigned.to_of. apply DecimalFacts.unorm_nonnil. }
  apply (f_equal NilZero.uint_of_string) in H.
  rewrite !NilZero.usu in H by apply Hnn.
  injection H as H. apply DecimalNat.Unsigned.to_uint_inj. assumption.
Qed.

Lemma NoDup_map_injective {A B} (f : A -> B) (l : list A) :
  (forall x y, f x = f y -> x = y) -> NoDup l -> NoDup (map f l).
Proof.
  intros Hinj Hnd. induction Hnd as [|x l Hx _ IH]; simpl; constructor;
    [|assumption].
  intros Hin. apply in_map_iff in Hin. destruct Hin as (y & Hy & Hin).
  apply Hinj in Hy. subst y. contradiction.
Qed.

(** The part numbers of a run of [split_file_by_delimiter] are all
    different. *)
Lemma delimiter_numbers_NoDup d all_lines :
  NoDup (part_numbers (Delimiter.split_file_by_delimiter d all_lines)).
Proof.
  destruct (DelimiterFacts.split_file_by_delimiter_cases d all_lines)
    as [[_ ->] | [(_ & _ & ->) | (_ & s0 & rest & Hs & _)]].
  - constructor.
  - repeat constructor. simpl. tauto.
  - rewrite (DelimiterFacts.split_file_by_delimiter_numbers _ _ Hs).
    destruct (0 <? s0); [|apply seq_NoDup].
    constructor; [|apply seq_NoDup]. rewrite in_seq. lia.
Qed.

End NameFacts.

Section PartNames.

Variable splitext_basename : string -> string * string.
Variable path_join : string -> string -> string.
Variable original_filepath output_dir : string.

(** [os.path.join(output_dir, ...)] keeps two part names of the file
    apart. *)
Hypothesis path_join_keeps_apart :
  forall n m,
    output_filename splitext_basename path_join original_filepath n output_dir
    = output_filename splitext_basename path_join original_filepath m output_dir ->
    (fst (splitext_basename original_filepath) ++ "_part_"
       ++ PyStr.str_of_nat n ++ snd (splitext_basename original_filepath))%string
    = (fst (splitext_basename original_filepath) ++ "_part_"
         ++ PyStr.str_of_nat m ++ snd (splitext_basename original_filepath))%string.

Lemma output_filename_inj n m :
  output_filename splitext_basename path_join original_filepath n output_dir
  = output_filename splitext_basename path_join original_filepath m output_dir ->
  n = m.
Proof.
  intros H. apply path_join_keeps_apart in H.
  apply NameFacts.string_append_inv_head in H.
  apply NameFacts.string_append_inv_head in H.
  apply NameFacts.string_append_inv_tail in H.
  apply NameFacts.str_of_nat_inj. assumption.
Qed.

Lemma files_written_names evs :
  map fst (files_written splitext_basename path_join original_filepath
             output_dir evs)
  = map (fun n => output_filename splitext_basename path_join
                    original_filepath n output_dir)
      (part_numbers evs).
Proof.
  unfold files_written, part_numbers. rewrite !map_map. reflexivity.
Qed.

(** X8. Within one run no two parts get the same file name, so no part
    overwrites another: for [split_file_by_delimiter] (whose numbers skip 1
    after a leading chunk), for the word splitters and for the line, byte
    and part splitters. *)
Theorem part_files_are_distinct :
  let names evs :=
    map fst (files_written splitext_basename path_join original_filepath
               output_dir evs) in
  (forall d all_lines,
      NoDup (names (Delimiter.split_file_by_delimiter d all_lines)))
  /\ (forall DELIMITER words_per_file all_lines,
        exists evs,
          Delimiter.split_file_by_words DELIMITER words_per_file all_lines
          = Some evs
          /\ NoDup (names evs))
  /\ (forall words_per_file f,
        NoDup (names (Simple.split_file_by_words words_per_file f)))
  /\ (forall lines_per_file f,
        NoDup (names (Simple.split_file_by_lines lines_per_file f)))
  /\ (forall bytes_per_file f,
        NoDup (names (Simple.split_file_by_bytes bytes_per_file f)))
  /\ (forall num_parts lines evs,
        Simple.split_file_into_parts num_parts lines = Some evs ->
        NoDup (names evs)).
Proof.
  intros names.
  assert (Hnames : forall evs, NoDup (part_numbers evs) -> NoDup (names evs)).
  { intros evs Hnd. subst names. cbv beta. rewrite files_written_names.
    apply NameFacts.NoDup_map_injective; [|assumption].
    intros x y. apply output_filename_inj. }
  split; [|split; [|split; [|split; [|split]]]].
  - intros d ls. apply Hnames. apply NameFacts.delimiter_numbers_NoDup.
  - intros D W ls.
    destruct (WordsFacts.split_file_by_words_total D W ls) as [evs Hevs].
    exists evs. split; [assumption|]. apply Hnames.
    rewrite (@WordsFacts.split_file_by_words_numbers _ _ _ _ Hevs).
    apply seq_NoDup.
  - intros W f. apply Hnames.
    rewrite (@WordsFacts.split_file_by_words_numbers [] W f _
               (SimpleFacts.words_without_delimiters W f)).
    apply seq_NoDup.
  - intros n f. apply Hnames.
    destruct (LinesFacts.split_file_by_lines_final n f)
      as (st & Hst & _ & _ & _ & Hnum & Hfc).
    unfold Simple.split_file_by_lines. rewrite Hst.
    destruct (truthy st.(Simple.l_lines)).
    + rewrite part_numbers_app, Hnum, Hfc. simpl.
      rewrite <- seq_snoc. apply seq_NoDup.
    + rewrite Hnum. apply seq_NoDup.
  - intros n f. apply Hnames.
    destruct (BytesFacts.split_file_by_bytes_final n f)
      as (_ & _ & _ & _ & Hnum & Hfc).
    unfold Simple.split_file_by_bytes.
    set (st := fold_left _ _ _) in *.
    destruct (truthy st.(Simple.b_lines)).
    + rewrite part_numbers_app, Hnum, Hfc. simpl.
      rewrite <- seq_snoc. apply seq_NoDup.
    + rewrite Hnum. apply seq_NoDup.
  - intros n ls evs Hevs. apply Hnames.
    unfold Simple.split_file_into_parts in Hevs.
    destruct (n =? 0)%Z; [discriminate|]. injection Hevs as <-.
    unfold Simple.range. generalize (Z.to_nat n) as k.
    assert (Hgen : forall k a,
               NoDup (part_numbers
                        (flat_map (Simple.parts_body ls
                                     ((Z.of_nat (length ls) + n - 1) / n))
                           (seq a k)))
               /\ forall x, In x (part_numbers
                                   (flat_map (Simple.parts_body ls
                                      ((Z.of_nat (length ls) + n - 1) / n))
                                      (seq a k))) -> a < x).
    { induction k as [|k IH]; intros a; simpl.
      - split; [constructor | intros x []].
      - destruct (IH (S a)) as [Hnd Hgt].
        rewrite part_numbers_app. unfold Simple.parts_body at 1 3.
        match goal with |- context [truthy ?x] => destruct (truthy x) end;
          simpl.
        + split.
          * constructor; [|assumption]. intros Hin. apply Hgt in Hin. lia.
          * intros x [<- | Hin]; [lia|]. apply Hgt in Hin. lia.
        + split; [assumption|]. intros x Hin. apply Hgt in Hin. lia. }
    intros k. apply (Hgen k 0).
Qed.

End PartNames.

(** * The command lines *)

Module MainFacts.

Lemma truthy_int_nonzero x : truthy_int x = true -> int_of x <> 0%Z.
Proof.
  destruct x as [z|]; simpl; [|discriminate].
  intros H. apply negb_true_iff in H. apply Z.eqb_neq. assumption.
Qed.

Lemma truthy_IntArg z : truthy_arg (IntArg z) = true -> z <> 0%Z.
Proof.
  simpl. intros H. apply negb_true_iff in H. apply Z.eqb_neq. assumption.
Qed.

(** The last step of [main]: [if method and value]. *)
Ltac last_step :=
  cbn [fst]; cbv beta iota;
  match goal with
  | |- (if truthy_arg ?v then _ else _) = _ -> _ =>
      let Ht := fresh "Ht" in
      destruct (truthy_arg v) eqn:Ht; [|discriminate];
      intros [= <- <- <- <-]
  | |- NoSplitMethod = _ -> _ => discriminate
  end.

(** Whatever [main] passes on is true in Python's sense, and a number
    unless the method is [split_file_by_delimiter]. *)
Lemma delimiter_main_call cfg args input_path output_dir m value :
  DelimiterMain.main cfg args = ProcessPath input_path output_dir m value ->
  input_path <> EmptyString
  /\ truthy_arg value = true
  /\ (m <> by_delimiter -> exists z, value = IntArg z /\ z <> 0%Z).
Proof.
  unfold DelimiterMain.main, DelimiterMain.fallback. cbv zeta.
  destruct (String.eqb (str_or _ _) EmptyString) eqn:Hin; [discriminate|].
  apply String.eqb_neq in Hin.
  destruct (truthy_int (ns_lines args));
    [|destruct (truthy_int (ns_bytes args));
      [|destruct (truthy_int (ns_parts args));
        [|destruct (truthy_int (ns_words args));
          [|destruct (ns_delimiter args) as [[|d ds]|]]]]];
    repeat match goal with
           | |- context [if String.eqb ?a ?b then _ else _] =>
               destruct (String.eqb a b)
           end;
    last_step;
    (split; [assumption|]); (split; [assumption|]); intros Hm;
    try congruence; eauto using truthy_IntArg.
Qed.

Lemma simple_main_call cfg args input_path output_dir m value :
  SimpleMain.main cfg args = ProcessPath input_path output_dir m value ->
  input_path <> EmptyString
  /\ m <> by_delimiter
  /\ exists z, value = IntArg z /\ z <> 0%Z.
Proof.
  unfold SimpleMain.main, SimpleMain.fallback. cbv zeta.
  destruct (String.eqb (str_or _ _) EmptyString) eqn:Hin; [discriminate|].
  apply String.eqb_neq in Hin.
  destruct (truthy_int (ns_lines args));
    [|destruct (truthy_int (ns_bytes args));
      [|destruct (truthy_int (ns_parts args));
        [|destruct (truthy_int (ns_words args))]]];
    repeat match goal with
           | |- context [if String.eqb ?a ?b then _ else _] =>
               destruct (String.eqb a b)
           end;
    last_step;
    (split; [assumption|]); (split; [discriminate|]);
    eauto using truthy_IntArg.
Qed.

End MainFacts.

(** X9. Whatever the flags and the configuration, when [main] of either
    script calls [split_file_into_parts], the number of parts is not 0: the
    division by [num_parts] does not fail and the function returns. *)
Theorem main_never_divides_by_zero cfg args input_path output_dir value :
  DelimiterMain.main cfg args
  = ProcessPath input_path output_dir into_parts value
  \/ SimpleMain.main cfg args
     = ProcessPath input_path output_dir into_parts value ->
  exists num_parts,
    value = IntArg num_parts
    /\ num_parts <> 0%Z
    /\ forall lines,
        exists evs, Simple.split_file_into_parts num_parts lines = Some evs.
Proof.
  intros Hmain.
  assert (Hz : exists z, value = IntArg z /\ z <> 0%Z).
  { destruct Hmain as [H|H].
    - apply MainFacts.delimiter_main_call in H. destruct H as (_ & _ & H).
      apply H. discriminate.
    - apply MainFacts.simple_main_call in H. tauto. }
  destruct Hz as (z & -> & Hz). exists z.
  split; [reflexivity|]. split; [assumption|].
  intros lines. unfold Simple.split_file_into_parts.
  apply Z.eqb_neq in Hz. rewrite Hz. eauto.
Qed.

Lemma main_never_divides_by_zero_witness :
  let cfg := {| INPUT_PATH := "book.txt"; OUTPUT_DIR := "out";
                SPLIT_METHOD := "words"; SPLIT_VALUE := 50000;
                DELIMITER := Ex.chat_delimiters |} in
  let args := {| ns_input_path := None; ns_output_dir := None;
                 ns_lines := None; ns_bytes := None; ns_parts := Some 4%Z;
                 ns_words := None; ns_delimiter := None |} in
  DelimiterMain.main cfg args
  = ProcessPath "book.txt" "out" into_parts (IntArg 4)
  /\ exists evs, Simple.split_file_into_parts 4 Ex.chat_lines = Some evs.
Proof.
  intros cfg args.
  assert (H : DelimiterMain.main cfg args
              = ProcessPath "book.txt" "out" into_parts (IntArg 4))
    by reflexivity.
  split; [exact H|].
  destruct (@main_never_divides_by_zero cfg args "book.txt"%string
              "out"%string (IntArg 4) (or_introl H))
    as (n & Hn & _ & Hret).
  injection Hn as <-. apply Hret.
Defined.



(** * [json_to_txt.py] *)

Module JsonFacts.

Import JsonToTxt.

(** Induction on the data, through the lists and the dicts. *)
Lemma data_induction (P : data -> Prop) :
  P PyNone -> (forall b, P (PyBool b)) -> (forall z, P (PyInt z)) ->
  (forall f, P (PyFloat f)) -> (forall s, P (PyStr s)) ->
  (forall items, Forall P items -> P (PyList items)) ->
  (forall items, Forall (fun kv => P (snd kv)) items -> P (PyDict items)) ->
  forall d, P d.
Proof.
  intros HNone HBool HInt HFloat HStr HList HDict.
  fix IH 1. intros [ |b|z|f|s|items|items].
  - exact HNone.
  - apply HBool.
  - apply HInt.
  - apply HFloat.
  - apply HStr.
  - apply HList. induction items as [|d items IHitems]; constructor;
      [apply IH | assumption].
  - apply HDict. induction items as [|[k d] items IHitems]; constructor;
      [apply IH | assumption].
Qed.

Lemma split_char_lacks c s :
  PyStr.lacks c s = true -> PyStr.split_char c s = [s].
Proof.
  induction s as [|a s IH]; simpl; [reflexivity|].
  intros H. apply andb_prop in H. destruct H as [Ha Hs].
  apply negb_true_iff in Ha. rewrite Ha, (IH Hs). reflexivity.
Qed.

Lemma split_char_piece c s rest :
  PyStr.lacks c s = true ->
  PyStr.split_char c (s ++ String c rest)
  = s :: PyStr.split_char c rest.
Proof.
  induction s as [|a s IH]; simpl.
  - intros _. rewrite Ascii.eqb_refl. reflexivity.
  - intros H. apply andb_prop in H. destruct H as [Ha Hs].
    apply negb_true_iff in Ha. rewrite Ha, (IH Hs). reflexivity.
Qed.

(** Splitting on the separator undoes [join], when no piece holds the
    separator. *)
Lemma split_char_join c l :
  l <> [] -> Forall (fun s => PyStr.lacks c s = true) l ->
  PyStr.split_char c (PyStr.join (String c EmptyString) l) = l.
Proof.
  induction l as [|s l IH]; [congruence|]. intros _ Hall.
  apply Forall_cons_iff in Hall. destruct Hall as [Hs Hall].
  destruct l as [|s' l]; [apply split_char_lacks; assumption|].
  change (PyStr.join (String c EmptyString) (s :: s' :: l))
    with (s ++ String c (PyStr.join (String c EmptyString) (s' :: l)))%string.
  rewrite split_char_piece by assumption. f_equal.
  apply IH; [discriminate | assumption].
Qed.

End JsonFacts.

(** X11. [extract_text] returns the string values of the data and nothing
    else: a string is in the result exactly when it is a value somewhere in
    the data, at any depth; keys of dicts, numbers, booleans and [None]
    give nothing. *)
Theorem extract_text_is_the_string_values d s :
  In s (JsonToTxt.extract_text d) <-> JsonToTxt.string_value s d.
Proof.
  split.
  - revert d. apply (@JsonFacts.data_induction
                       (fun d => In s (JsonToTxt.extract_text d) ->
                                 JsonToTxt.string_value s d)); simpl;
      try (intros; contradiction).
    + intros s0 [-> | []]. constructor.
    + intros items Hall Hin. apply in_flat_map in Hin.
      destruct Hin as (d & Hd & Hin). rewrite Forall_forall in Hall.
      eapply JsonToTxt.sv_item; [eassumption | auto].
    + intros items Hall Hin. apply in_flat_map in Hin.
      destruct Hin as ([k d] & Hd & Hin). rewrite Forall_forall in Hall.
      eapply JsonToTxt.sv_value; [eassumption | apply (Hall _ Hd Hin)].
  - induction 1 as [|items d Hd _ IH|items k d Hd _ IH]; simpl.
    + left. reflexivity.
    + apply in_flat_map. eauto.
    + apply in_flat_map. exists (k, d). auto.
Qed.

(** X12. [convert] writes one line per string value, in the order of
    [extract_text], with no newline after the last: when no value holds a
    newline, splitting the text written on newlines gives the values back;
    when the data holds no string value the text written is empty. *)
Theorem convert_writes_one_line_per_value raw :
  Forall (fun s => PyStr.lacks (ascii_of_nat 10) s = true)
    (JsonToTxt.extract_text raw) ->
  (JsonToTxt.extract_text raw = [] -> JsonToTxt.convert raw = EmptyString)
  /\ (JsonToTxt.extract_text raw <> [] ->
      PyStr.split_char (ascii_of_nat 10) (JsonToTxt.convert raw)
      = JsonToTxt.extract_text raw).
Proof.
  intros Hall. unfold JsonToTxt.convert. split.
  - intros ->. reflexivity.
  - intros Hne. apply JsonFacts.split_char_join; assumption.
Qed.

Lemma convert_writes_one_line_per_value_witness :
  let raw := JsonToTxt.PyDict
               [("title"%string, JsonToTxt.PyStr "One");
                ("pages"%string, JsonToTxt.PyInt 3);
                ("parts"%string,
                  JsonToTxt.PyList [JsonToTxt.PyStr "a b";
                                    JsonToTxt.PyNone;
                                    JsonToTxt.PyStr "c"])] in
  JsonToTxt.extract_text raw = ["One"; "a b"; "c"]%string
  /\ PyStr.split_char (ascii_of_nat 10) (JsonToTxt.convert raw)
     = ["One"; "a b"; "c"]%string.
Proof.
  intros raw.
  assert (Hall : Forall (fun s => PyStr.lacks (ascii_of_nat 10) s = true)
                   (JsonToTxt.extract_text raw)).
  { repeat constructor. }
  destruct (convert_writes_one_line_per_value raw Hall) as [_ Hsplit].
  split; [reflexivity|]. apply Hsplit. discriminate.
Defined.

(** * [htmltotxt.py] *)

Module HtmlFacts.

Import HtmlToTxt HtmlInv.

Section Loop.

Variable limit : Z.

Local Abbreviation fits := (fits limit).
Local Abbreviation parts_ok := (parts_ok limit).
Local Abbreviation inv := (inv limit).

Lemma part_words_app p q : part_words (p ++ q) = (part_words p + part_words q)%Z.
Proof. induction p as [|e p IH]; simpl; [reflexivity|]. rewrite IH. lia. Qed.

Lemma part_words_one e : part_words [e] = count_words e.(e_text).
Proof. simpl. lia. Qed.

Lemma count_words_nonneg t : (0 <= count_words t)%Z.
Proof. unfold count_words. lia. Qed.

(** The files, one after the other, are their messages one after the
    other. *)
Lemma fold_files files : forall st,
  fold_left (handle_file limit) files st
  = fold_left (handle_message limit) (messages_of files) st.
Proof.
  induction files as [|[ms|] files IH]; intros st; simpl; [reflexivity| |].
  - unfold messages_of in *. simpl. rewrite fold_left_app. apply IH.
  - apply IH.
Qed.

Lemma parts_ok_append ps p e :
  parts_ok (ps ++ [p]) -> fits (p ++ [e]) -> (p = [] -> ps = []) ->
  parts_ok (ps ++ [p ++ [e]]).
Proof.
  induction ps as [|a ps IH]; simpl; intros Hok Hfit Hne.
  - tauto.
  - destruct Hok as (Ha & Hnext & Hok). split; [assumption|].
    destruct ps as [|b ps]; simpl in *.
    + destruct Hnext as (e0 & q' & -> & Hgt). split.
      * exists e0, (q' ++ [e]). auto.
      * tauto.
    + split; [assumption|]. apply IH; [assumption | assumption |].
      intros Hp. specialize (Hne Hp). discriminate.
Qed.

Lemma parts_ok_new ps p e :
  parts_ok (ps ++ [p]) ->
  (limit < part_words p + count_words e.(e_text))%Z ->
  parts_ok ((ps ++ [p]) ++ [[e]]).
Proof.
  induction ps as [|a ps IH]; simpl; intros Hok Hgt.
  - destruct Hok as (Hp & _ & _). split; [assumption|]. split; [eauto|].
    split; [right; simpl; lia | auto].
  - destruct Hok as (Ha & Hnext & Hok). split; [assumption|]. split.
    + destruct ps as [|b ps]; simpl in *; assumption.
    + apply IH; assumption.
Qed.

Lemma parts_ok_at ps : forall pre p post,
  ps = pre ++ p :: post -> parts_ok ps ->
  fits p
  /\ forall q post', post = q :: post' ->
       exists e q', q = e :: q'
                    /\ (limit < part_words p + count_words e.(e_text))%Z.
Proof.
  induction ps as [|a ps IH]; intros pre p post Hdec Hok.
  - destruct pre; discriminate.
  - destruct Hok as (Ha & Hnext & Hok). destruct pre as [|b pre]; simpl in Hdec.
    + injection Hdec as -> ->. split; [assumption|].
      intros q post' ->. assumption.
    + injection Hdec as _ Hdec. eapply IH; eassumption.
Qed.

Lemma handle_message_inv pre st msg :
  inv pre st -> inv (pre ++ [msg]) (handle_message limit st msg).
Proof.
  intros (Hcat & Hw & Hnum & Hpart & Hok & Hempty & Hne).
  unfold HtmlInv.inv, handle_message. rewrite flat_map_app.
  remember (flat_map entry_of pre) as E eqn:HE. clear HE. simpl.
  rewrite app_nil_r. unfold entry_of.
  destruct (negb msg.(has_body)).
  { rewrite app_nil_r. repeat split; assumption. }
  destruct msg.(text_div) as [raw|].
  2:{ rewrite app_nil_r. repeat split; assumption. }
  set (e := {| e_date := _; e_sender := _; e_text := clean_text raw |}).
  change (count_words (clean_text raw)) with (count_words e.(e_text)).
  destruct (limit <? st.(current_word_count) + count_words e.(e_text))%Z
    eqn:Hc; simpl.
  - apply Z.ltb_lt in Hc. rewrite Hw in Hc.
    rewrite map_app, concat_app, length_app, map_app. simpl.
    rewrite app_nil_r, Hcat.
    split; [reflexivity|]. split; [lia|]. split; [|split; [|split; [|split]]].
    + rewrite Hnum, Hpart, Nat.add_1_r. symmetry. apply seq_S.
    + rewrite Hpart. lia.
    + apply (parts_ok_new _ _ e) in Hok; [|assumption]. exact Hok.
    + discriminate.
    + destruct (map snd st.(closed)) as [|p0 ps] eqn:Hcl; simpl.
      * constructor.
      * simpl in Hne. apply Forall_app. split; [assumption|].
        repeat constructor. intros Hnil.
        specialize (Hempty Hnil). rewrite Hempty in Hcl. discriminate.
  - apply Z.ltb_ge in Hc. rewrite Hw in Hc |- *.
    rewrite <- Hcat, <- app_assoc.
    split; [reflexivity|]. split; [rewrite part_words_app; simpl; lia|].
    split; [assumption|]. split; [assumption|]. split; [|split].
    + apply parts_ok_append; [assumption | |].
      * left. rewrite part_words_app, part_words_one. exact Hc.
      * intros Hnil. specialize (Hempty Hnil). rewrite Hempty. reflexivity.
    + intros Hnil. destruct st.(outfile); discriminate.
    + assumption.
Qed.

Lemma main_final files :
  exists st,
    main limit files = st.(closed) ++ [(st.(current_part), st.(outfile))]
    /\ inv (messages_of files) st.
Proof.
  unfold main. rewrite fold_files. eexists. split; [reflexivity|].
  apply (fold_left_prefix_invariant inv) with (pre := []).
  - intros pre st a. apply handle_message_inv.
  - unfold HtmlInv.inv. simpl.
    do 4 (split; [reflexivity|]). split; [|split; [reflexivity | constructor]].
    split; [right; simpl; lia | tauto].
Qed.

End Loop.

End HtmlFacts.

(** X13. [main] of [htmltotxt.py] always leaves at least one file; the
    files are numbered 1, 2, ... in the order they were opened; and the
    entries written, file after file, are the entries of all the messages
    that have a body and a text, in the order of the files read, each once.
    A file on which reading raised adds nothing. *)
Theorem html_parts_hold_every_entry limit files :
  let out := HtmlToTxt.main limit files in
  out <> []
  /\ map fst out = seq 1 (length out)
  /\ concat (map snd out)
     = flat_map HtmlToTxt.entry_of (HtmlToTxt.messages_of files).
Proof.
  intros out. subst out.
  destruct (HtmlFacts.main_final limit files)
    as (st & -> & Hcat & _ & Hnum & Hpart & _).
  split; [|split].
  - destruct (HtmlToTxt.closed st); discriminate.
  - rewrite map_app, length_app, Hnum, Hpart. simpl.
    rewrite Nat.add_1_r. symmetry. apply seq_S.
  - rewrite map_app, concat_app. simpl. rewrite app_nil_r. assumption.
Qed.

(** X14. In what [main] of [htmltotxt.py] writes, a file is within the
    limit of words unless it holds a single entry; the first entry of the
    next file would have brought it above the limit; and no file but the
    first can be empty.  (The first is, when its first entry alone is above
    the limit, or when there is no entry at all.) *)
Theorem html_parts_within_limit limit files pre p post :
  map snd (HtmlToTxt.main limit files) = pre ++ p :: post ->
  ((HtmlToTxt.part_words p <= limit)%Z \/ length p <= 1)
  /\ (p = [] -> pre = [])
  /\ (forall q post',
        post = q :: post' ->
        exists e q',
          q = e :: q'
          /\ (limit < HtmlToTxt.part_words p
                      + HtmlToTxt.count_words e.(HtmlToTxt.e_text))%Z).
Proof.
  destruct (HtmlFacts.main_final limit files)
    as (st & -> & _ & _ & _ & _ & Hok & Hempty & Hne).
  rewrite map_app. simpl. intros Hdec.
  destruct (@HtmlFacts.parts_ok_at limit _ pre p post Hdec Hok) as [Hfit Hnext].
  split; [exact Hfit|]. split; [|exact Hnext].
  intros Hp. destruct pre as [|a pre]; [reflexivity|]. exfalso.
  destruct (map snd (HtmlToTxt.closed st)) as [|c0 cs] eqn:Hcl;
    simpl in Hdec.
  - injection Hdec as _ Hdec. destruct pre; discriminate.
  - injection Hdec as _ Hdec. simpl in Hne.
    apply snoc_eq_app_cons in Hdec.
    destruct Hdec as [(_ & _ & Heq) | (post' & _ & Hcs)].
    + rewrite Heq in Hp. specialize (Hempty Hp).
      rewrite Hempty in Hcl. discriminate.
    + rewrite Hcs in Hne. apply Forall_app in Hne. destruct Hne as [_ Hne].
      apply Forall_inv in Hne. contradiction.
Qed.

Lemma html_parts_within_limit_witness :
  let long := {| HtmlToTxt.has_body := true;
                 HtmlToTxt.date_title := None;
                 HtmlToTxt.from_name := Some " Ann "%string;
                 HtmlToTxt.text_div := Some "a b c"%string |} in
  let out := HtmlToTxt.main 2 [Some [long]] in
  map snd out
  = [[]; [{| HtmlToTxt.e_date := "?"; HtmlToTxt.e_sender := "Ann";
             HtmlToTxt.e_text := "a b c" |}]]
  /\ ((HtmlToTxt.part_words [] <= 2)%Z \/ length (@nil HtmlToTxt.entry) <= 1).
Proof.
  intros long out.
  assert (H : map snd out
              = [] ++ [] :: [[{| HtmlToTxt.e_date := "?";
                                 HtmlToTxt.e_sender := "Ann";
                                 HtmlToTxt.e_text := "a b c" |}]])
    by reflexivity.
  split; [exact H|].
  destruct (@html_parts_within_limit 2 [Some [long]] _ _ _ H) as [Hfit _].
  exact Hfit.
Defined.

Module FileNumberFacts.

Import HtmlToTxt.

(** The digits of a number are digits, and nothing but the whole run is
    taken. *)
Lemma take_digits_uint d rest :
  take_digits rest = (EmptyString, rest) ->
  take_digits (NilEmpty.string_of_uint d ++ rest)
  = (NilEmpty.string_of_uint d, rest).
Proof.
  intros Hrest. induction d; simpl; [assumption| | | | | | | | | |];
    rewrite IHd; reflexivity.
Qed.

Lemma to_uint_nonnil n : Nat.to_uint n <> Decimal.Nil.
Proof.
  rewrite <- (DecimalNat.Unsigned.of_to n) at 1.
  rewrite DecimalNat.Unsigned.to_of. apply DecimalFacts.unorm_nonnil.
Qed.

Lemma str_of_nat_digits n :
  PyStr.str_of_nat n = NilEmpty.string_of_uint (Nat.to_uint n).
Proof.
  unfold PyStr.str_of_nat, NilZero.string_of_uint.
  pose proof (to_uint_nonnil n). destruct (Nat.to_uint n); congruence.
Qed.

Lemma str_of_nat_nonempty n : PyStr.str_of_nat n <> EmptyString.
Proof.
  intros H. pose proof (NilZero.usu (Nat.to_uint n) (to_uint_nonnil n)) as Hu.
  unfold PyStr.str_of_nat in H. rewrite H in Hu. discriminate.
Qed.

Lemma int_of_digits_str n : int_of_digits (PyStr.str_of_nat n) = n.
Proof.
  unfold int_of_digits, PyStr.str_of_nat.
  rewrite NilZero.usu by apply to_uint_nonnil.
  apply DecimalNat.Unsigned.of_to.
Qed.

End FileNumberFacts.

(** X15. [get_file_number] reads the number back from the name of an
    export file: [messages<n>.html] gives [n], for every [n], so that
    sorting on it puts [messages10.html] after [messages2.html]. *)
Theorem get_file_number_reads_the_number n :
  HtmlToTxt.get_file_number
    ("messages" ++ PyStr.str_of_nat n ++ ".html")%string = n.
Proof.
  unfold HtmlToTxt.get_file_number.
  assert (Hne : String.eqb ("messages" ++ PyStr.str_of_nat n ++ ".html")
                  "messages.html" = false).
  { apply String.eqb_neq. intros H.
    change "messages.html"%string
      with ("messages" ++ EmptyString ++ ".html")%string in H.
    apply NameFacts.string_append_inv_head in H.
    apply NameFacts.string_append_inv_tail in H.
    exact (@FileNumberFacts.str_of_nat_nonempty n H). }
  rewrite Hne.
  assert (Hs : HtmlToTxt.search
                 ("messages" ++ PyStr.str_of_nat n ++ ".html")
               = Some (PyStr.str_of_nat n)).
  { change ("messages" ++ PyStr.str_of_nat n ++ ".html")%string
      with (String "m" ("essages" ++ PyStr.str_of_nat n ++ ".html"))%string.
    unfold HtmlToTxt.search; fold HtmlToTxt.search.
    assert (Hm : HtmlToTxt.match_here
                   (String "m" ("essages" ++ PyStr.str_of_nat n ++ ".html"))
                 = Some (PyStr.str_of_nat n)).
    { unfold HtmlToTxt.match_here.
      change (HtmlToTxt.strip_prefix "messages"
                (String "m" ("essages" ++ PyStr.str_of_nat n ++ ".html")))
        with (Some (PyStr.str_of_nat n ++ ".html")%string).
      rewrite FileNumberFacts.str_of_nat_digits.
      rewrite FileNumberFacts.take_digits_uint by reflexivity.
      rewrite <- FileNumberFacts.str_of_nat_digits.
      pose proof (@FileNumberFacts.str_of_nat_nonempty n) as Hn.
      destruct (PyStr.str_of_nat n); [congruence | reflexivity]. }
    rewrite Hm. reflexivity. }
  rewrite Hs. apply FileNumberFacts.int_of_digits_str.
Qed.

(** * The properties above on sample files *)

Lemma split_file_by_lines_chunks_witness :
  chunks (Simple.split_file_by_lines 3 Ex.chat_lines)
  = [] ++ [Ex.chat_A; Ex.hello; Ex.chat_B] :: [[Ex.world]]
  /\ length [Ex.chat_A; Ex.hello; Ex.chat_B] = Z.to_nat (Z.max 3 1).
Proof.
  assert (H : chunks (Simple.split_file_by_lines 3 Ex.chat_lines)
              = [] ++ [Ex.chat_A; Ex.hello; Ex.chat_B] :: [[Ex.world]])
    by reflexivity.
  split; [exact H|].
  destruct (split_file_by_lines_chunks 3 Ex.chat_lines) as (_ & _ & _ & Hat).
  destruct (Hat _ _ _ H) as [_ Hfull]. apply Hfull. discriminate.
Defined.

Lemma split_file_by_bytes_chunks_witness :
  chunks (Simple.split_file_by_bytes 12 Ex.chat_lines)
  = [] ++ [Ex.chat_A] :: [[Ex.hello]; [Ex.chat_B]; [Ex.world]]
  /\ (12 < chunk_bytes [Ex.chat_A]
           + line_bytes (nth (offset [] + length [Ex.chat_A]) Ex.chat_lines
                           EmptyString))%Z.
Proof.
  assert (H : chunks (Simple.split_file_by_bytes 12 Ex.chat_lines)
              = [] ++ [Ex.chat_A] :: [[Ex.hello]; [Ex.chat_B]; [Ex.world]])
    by reflexivity.
  split; [exact H|].
  destruct (split_file_by_bytes_chunks 12 Ex.chat_lines) as (_ & _ & Hat).
  destruct (Hat _ _ _ H) as (_ & _ & Hnext). apply Hnext. discriminate.
Defined.

(** Five lines into four parts: three parts are written, of two, two and
    one lines. *)
Lemma split_file_into_parts_chunks_witness :
  (0 < 4)%Z
  /\ exists evs,
      Simple.split_file_into_parts 4 (Ex.intro :: Ex.chat_lines) = Some evs
      /\ chunks evs
         = [[Ex.intro; Ex.chat_A]; [Ex.hello; Ex.chat_B]; [Ex.world]]
      /\ part_numbers evs = seq 1 (length (chunks evs)).
Proof.
  assert (Hn : (0 < 4)%Z) by lia.
  split; [exact Hn|].
  destruct (@split_file_into_parts_chunks 4 (Ex.intro :: Ex.chat_lines) Hn)
    as (evs & Hevs & _ & Hnum & _).
  exists evs. split; [exact Hevs|]. split; [|exact Hnum].
  assert (He : Simple.split_file_into_parts 4 (Ex.intro :: Ex.chat_lines)
               = Some [WritePart 1 [Ex.intro; Ex.chat_A];
                       WritePart 2 [Ex.hello; Ex.chat_B];
                       WritePart 3 [Ex.world]]) by reflexivity.
  rewrite He in Hevs. injection Hevs as <-. reflexivity.
Defined.

Lemma part_files_are_distinct_witness :
  (forall n m,
      output_filename Ex.splitext_basename Ex.path_join "chat.txt" n "out"
      = output_filename Ex.splitext_basename Ex.path_join "chat.txt" m "out" ->
      (fst (Ex.splitext_basename "chat.txt") ++ "_part_"
         ++ PyStr.str_of_nat n ++ snd (Ex.splitext_basename "chat.txt"))%string
      = (fst (Ex.splitext_basename "chat.txt") ++ "_part_"
           ++ PyStr.str_of_nat m ++ snd (Ex.splitext_basename "chat.txt"))%string)
  /\ NoDup (map fst (files_written Ex.splitext_basename Ex.path_join
                       "chat.txt" "out"
                       (Delimiter.split_file_by_delimiter
                          (Delimiter.ManyDelimiters Ex.chat_delimiters)
                          Ex.intro_lines))).
Proof.
  assert (H : forall n m,
             output_filename Ex.splitext_basename Ex.path_join "chat.txt" n "out"
             = output_filename Ex.splitext_basename Ex.path_join "chat.txt" m "out" ->
             (fst (Ex.splitext_basename "chat.txt") ++ "_part_"
                ++ PyStr.str_of_nat n
                ++ snd (Ex.splitext_basename "chat.txt"))%string
             = (fst (Ex.splitext_basename "chat.txt") ++ "_part_"
                  ++ PyStr.str_of_nat m
                  ++ snd (Ex.splitext_basename "chat.txt"))%string).
  { intros n m Heq. unfold output_filename, Ex.path_join in Heq. simpl in Heq.
    simpl. congruence. }
  split; [exact H|].
  destruct (@part_files_are_distinct Ex.splitext_basename Ex.path_join
              "chat.txt"%string "out"%string H) as (Hd & _).
  apply Hd.
Defined.

(** ** The text extractor of [epub_to_txt.py] *)

Module EpubFacts.

Import PyStr Epub EpubInv.
Local Open Scope string_scope.

Lemma string_app_assoc (a b c : string) : (a ++ b) ++ c = a ++ (b ++ c).
Proof. induction a as [|x a IH]; simpl; congruence. Qed.

Lemma string_app_nil_r (a : string) : a ++ "" = a.
Proof. induction a as [|x a IH]; simpl; congruence. Qed.

Lemma string_app_nonempty_r (a b : string) : b <> "" -> a ++ b <> "".
Proof. destruct a; simpl; [auto | discriminate]. Qed.

Lemma join_app sep (l l' : list string) :
  l <> [] -> l' <> [] ->
  join sep (l ++ l') = join sep l ++ sep ++ join sep l'.
Proof.
  induction l as [|a l IH]; [congruence|]. intros _ Hl'.
  destruct l as [|b l].
  - destruct l' as [|c l']; [congruence | reflexivity].
  - change (join sep ((a :: b :: l) ++ l'))
      with (a ++ sep ++ join sep ((b :: l) ++ l')).
    rewrite IH by (discriminate || assumption).
    change (join sep (a :: b :: l)) with (a ++ sep ++ join sep (b :: l)).
    rewrite !string_app_assoc. reflexivity.
Qed.

Lemma join_empty_snoc (l : list string) (x : string) :
  join "" (l ++ [x]) = join "" l ++ x.
Proof.
  destruct l as [|a l]; [reflexivity|].
  rewrite join_app by discriminate. reflexivity.
Qed.

Lemma no_space_app (a b : string) :
  no_space (a ++ b) = no_space a && no_space b.
Proof.
  induction a as [|x a IH]; simpl; [reflexivity|].
  rewrite IH, andb_assoc. reflexivity.
Qed.

Lemma no_linebreak_app (a b : string) :
  no_linebreak (a ++ b) = no_linebreak a && no_linebreak b.
Proof.
  induction a as [|x a IH]; simpl; [reflexivity|].
  rewrite IH, andb_assoc. reflexivity.
Qed.

Lemma linebreak_is_space (c : ascii) :
  is_linebreak c = true -> isspace c = true.
Proof.
  destruct c as [[|] [|] [|] [|] [|] [|] [|] [|]]; vm_compute;
    congruence.
Qed.

Lemma no_space_no_linebreak (s : string) :
  no_space s = true -> no_linebreak s = true.
Proof.
  induction s as [|c s IH]; simpl; [reflexivity|].
  intros H. apply andb_true_iff in H. destruct H as [Hc Hs].
  rewrite (IH Hs), andb_true_r.
  destruct (is_linebreak c) eqn:E; [|reflexivity].
  rewrite (linebreak_is_space c E) in Hc. discriminate.
Qed.

Lemma first_is_space_app (a b : string) :
  a <> "" -> first_is_space (a ++ b) = first_is_space a.
Proof. destruct a; [congruence | reflexivity]. Qed.

Lemma last_is_space_app (a b : string) :
  b <> "" -> last_is_space (a ++ b) = last_is_space b.
Proof.
  intros Hb. induction a as [|x a IH]; [reflexivity|].
  change ((String x a) ++ b) with (String x (a ++ b)).
  assert (Hab : a ++ b <> "") by (apply string_app_nonempty_r; assumption).
  destruct (a ++ b) eqn:E; [congruence|].
  exact IH.
Qed.

Lemma no_space_last (s : string) :
  no_space s = true -> last_is_space s = false.
Proof.
  induction s as [|c s IH]; [reflexivity|].
  simpl no_space. intros H. apply andb_true_iff in H. destruct H as [Hc Hs].
  destruct s as [|d s].
  - simpl. apply negb_true_iff. assumption.
  - exact (IH Hs).
Qed.

Lemma word_trimmed (w : string) : word w -> trimmed w.
Proof.
  intros [Hne Hw]. split; [assumption|]. split.
  - destruct w as [|c w]; [congruence|]. simpl in *.
    apply andb_true_iff in Hw. destruct Hw as [Hc _].
    apply negb_true_iff. assumption.
  - apply no_space_last. assumption.
Qed.

Lemma join_trimmed sep (l : list string) :
  l <> [] -> Forall trimmed l -> trimmed (join sep l).
Proof.
  induction l as [|a l IH]; [congruence|]. intros _ Hall.
  apply Forall_cons_iff in Hall. destruct Hall as [Ha Hall].
  destruct l as [|b l]; [exact Ha|].
  change (join sep (a :: b :: l)) with (a ++ sep ++ join sep (b :: l)).
  destruct (IH ltac:(discriminate) Hall) as (Hne & Hf & Hl).
  destruct Ha as (Hane & Haf & Hal).
  split; [|split].
  - destruct a; [congruence | discriminate].
  - rewrite first_is_space_app by assumption. assumption.
  - rewrite last_is_space_app
      by (apply string_app_nonempty_r; assumption).
    rewrite last_is_space_app by assumption. assumption.
Qed.

Lemma text_line_trimmed (l : string) : text_line l -> trimmed l.
Proof.
  intros (ws & Hne & Hws & ->). apply join_trimmed; [assumption|].
  eapply Forall_impl; [|exact Hws]. apply word_trimmed.
Qed.

Lemma text_line_no_linebreak (l : string) :
  text_line l -> no_linebreak l = true.
Proof.
  intros (ws & _ & Hws & ->).
  induction Hws as [|w ws Hw Hws IH]; [reflexivity|].
  destruct ws as [|w' ws].
  - apply no_space_no_linebreak. apply Hw.
  - change (join " " (w :: w' :: ws)) with (w ++ " " ++ join " " (w' :: ws)).
    rewrite !no_linebreak_app, IH.
    rewrite (no_space_no_linebreak w (proj2 Hw)). reflexivity.
Qed.

Lemma text_line_glue (a b : string) :
  text_line a -> text_line b -> text_line (a ++ " " ++ b).
Proof.
  intros (wa & Hna & Hwa & ->) (wb & Hnb & Hwb & ->).
  exists (wa ++ wb)%list. split; [|split].
  - destruct wa; [congruence | discriminate].
  - apply Forall_app. split; assumption.
  - rewrite join_app by assumption. reflexivity.
Qed.

(** [str.split] gives words. *)
Lemma split_from_words (s tok : string) :
  no_space tok = true -> Forall word (split_from tok s).
Proof.
  revert tok. induction s as [|c s IH]; intros tok Htok; simpl.
  - destruct tok; constructor; [|constructor].
    split; [discriminate | assumption].
  - destruct (isspace c) eqn:E.
    + destruct tok; [apply IH; reflexivity|].
      constructor; [split; [discriminate | assumption]|].
      apply IH. reflexivity.
    + apply IH. rewrite no_space_app, Htok. simpl. rewrite E. reflexivity.
Qed.

Lemma collapsed_cases (text : string) :
  join " " (split text) = "" \/ text_line (join " " (split text)).
Proof.
  assert (Hws : Forall word (split text))
    by (apply split_from_words; reflexivity).
  destruct (split text) as [|w ws] eqn:E; [left; reflexivity|].
  right. exists (w :: ws). split; [discriminate|]. split; [assumption|].
  reflexivity.
Qed.

Lemma split_from_word (w tok s : string) :
  no_space w = true -> split_from tok (w ++ s) = split_from (tok ++ w) s.
Proof.
  revert tok. induction w as [|c w IH]; intros tok Hw.
  - rewrite string_app_nil_r. reflexivity.
  - simpl in Hw. apply andb_true_iff in Hw. destruct Hw as [Hc Hw].
    apply negb_true_iff in Hc. simpl. rewrite Hc.
    rewrite IH by assumption. rewrite string_app_assoc. reflexivity.
Qed.

(** [" ".join(ws).split()] gives the words back. *)
Lemma split_join_words (ws : list string) :
  Forall word ws -> split (join " " ws) = ws.
Proof.
  induction 1 as [|w ws [Hne Hw] Hws IH]; [reflexivity|].
  destruct ws as [|w' ws].
  - unfold split. simpl join. rewrite <- (string_app_nil_r w) at 1.
    rewrite split_from_word by assumption. simpl.
    destruct w; [congruence | reflexivity].
  - change (join " " (w :: w' :: ws))
      with (w ++ String " " (join " " (w' :: ws))).
    unfold split. rewrite split_from_word by assumption.
    change ("" ++ w) with w.
    change (split_from w (String " " (join " " (w' :: ws))))
      with (match w with
            | "" => split_from "" (join " " (w' :: ws))
            | _ => w :: split_from "" (join " " (w' :: ws))
            end).
    destruct w; [congruence|]. f_equal. exact IH.
Qed.

Lemma text_line_normal (l : string) :
  text_line l -> l <> "" /\ join " " (split l) = l.
Proof.
  intros Hl. split; [apply (text_line_trimmed Hl)|].
  destruct Hl as (ws & _ & Hws & ->).
  rewrite split_join_words by assumption. reflexivity.
Qed.

Lemma lstrip_trimmed (s : string) : first_is_space s = false -> lstrip s = s.
Proof. destruct s; simpl; [reflexivity|]. intros ->. reflexivity. Qed.

Lemma rstrip_trimmed (s : string) : last_is_space s = false -> rstrip s = s.
Proof.
  induction s as [|c s IH]; [reflexivity|].
  destruct s as [|d s].
  - simpl. intros ->. reflexivity.
  - intros H. change (last_is_space (String d s) = false) in H.
    change (rstrip (String c (String d s)))
      with (match rstrip (String d s) with
            | "" => if isspace c then "" else String c ""
            | r' => String c r'
            end).
    rewrite (IH H). reflexivity.
Qed.

Lemma strip_trimmed (s : string) : trimmed s -> strip s = s.
Proof.
  intros (_ & Hf & Hl). unfold strip.
  rewrite lstrip_trimmed by assumption. apply rstrip_trimmed. assumption.
Qed.

Lemma endswith_space (x : ascii) (s : string) :
  isspace x = true -> last_is_space s = false -> endswith_char x s = false.
Proof.
  intros Hx. induction s as [|c s IH]; [reflexivity|].
  destruct s as [|d s].
  - simpl. intros Hc. destruct (Ascii.eqb_spec c x); [|reflexivity].
    congruence.
  - exact IH.
Qed.

(** [str.splitlines] on a text without a line break, then on a line break. *)
Lemma splitlines_from_line (l cur s : string) :
  no_linebreak l = true ->
  splitlines_from cur (l ++ s) = splitlines_from (cur ++ l) s.
Proof.
  revert cur. induction l as [|c l IH]; intros cur Hl.
  - rewrite string_app_nil_r. reflexivity.
  - simpl in Hl. apply andb_true_iff in Hl. destruct Hl as [Hc Hl].
    apply negb_true_iff in Hc. simpl. rewrite Hc.
    rewrite IH by assumption. rewrite string_app_assoc. reflexivity.
Qed.

Lemma splitlines_from_nl (cur s : string) :
  splitlines_from cur (nl ++ s) = cur :: splitlines_from "" s.
Proof. reflexivity. Qed.

Lemma splitlines_lines (L : list string) (trail : bool) :
  L <> [] -> Forall text_line L ->
  splitlines_from "" (join nl L ++ (if trail then nl else "")) = L.
Proof.
  induction L as [|l L IH]; [congruence|]. intros _ Hall.
  apply Forall_cons_iff in Hall. destruct Hall as [Hl Hall].
  pose proof (text_line_no_linebreak Hl) as Hnb.
  destruct (text_line_trimmed Hl) as (Hne & _ & _).
  destruct L as [|l' L].
  - simpl join. rewrite splitlines_from_line by assumption.
    change ("" ++ l) with l.
    destruct trail.
    + rewrite <- (string_app_nil_r nl), splitlines_from_nl. reflexivity.
    + simpl. destruct l; [congruence | reflexivity].
  - change (join nl (l :: l' :: L)) with (l ++ nl ++ join nl (l' :: L)).
    rewrite !string_app_assoc.
    rewrite splitlines_from_line by assumption.
    change ("" ++ l) with l. rewrite splitlines_from_nl. f_equal.
    apply IH; [discriminate | assumption].
Qed.

(** The loop of [get_text] keeps lines of text as they are. *)
Lemma fold_clean_lines (L acc : list string) (b : bool) :
  Forall text_line L ->
  fst (fold_left clean_line L (acc, b)) = (acc ++ L)%list.
Proof.
  intros Hall. revert acc b.
  induction Hall as [|l L Hl Hall IH]; intros acc b.
  - simpl. rewrite app_nil_r. reflexivity.
  - pose proof (text_line_trimmed Hl) as Ht.
    simpl fold_left.
    rewrite (strip_trimmed Ht). destruct Ht as (Hne & _ & _).
    destruct l as [|c l]; [congruence|].
    rewrite IH, <- app_assoc. reflexivity.
Qed.

Lemma get_text_shape chunks lead L trail :
  shape chunks lead L trail -> get_text chunks = join nl L.
Proof.
  intros [Hraw Hlines Htrail _ _ _]. unfold get_text.
  rewrite Hraw. unfold render, splitlines.
  destruct L as [|l L].
  - destruct trail; [exfalso; apply Htrail; reflexivity|].
    destruct lead; reflexivity.
  - assert (Hsplit :
      splitlines_from ""
        (join nl (l :: L) ++ (if trail then nl else "")) = l :: L)
      by (apply splitlines_lines; [discriminate | assumption]).
    assert (Hclean : fst (fold_left clean_line
       (splitlines_from ""
          ((if lead then nl else "")
           ++ join nl (l :: L) ++ (if trail then nl else "")))
       ([], true)) = l :: L).
    { destruct lead.
      - rewrite splitlines_from_nl, Hsplit.
        change (fold_left clean_line ("" :: l :: L) ([], true))
          with (fold_left clean_line (l :: L) ([], true)).
        apply (fold_clean_lines [] true Hlines).
      - change ("" ++ join nl (l :: L) ++ (if trail then nl else ""))
          with (join nl (l :: L) ++ (if trail then nl else "")).
        rewrite Hsplit. apply (fold_clean_lines [] true Hlines). }
    rewrite Hclean. apply strip_trimmed.
    apply join_trimmed; [discriminate|].
    eapply Forall_impl; [|exact Hlines]. apply text_line_trimmed.
Qed.

Lemma shape_nil : shape [] false [] false.
Proof.
  split; try reflexivity; [constructor | discriminate | congruence].
Qed.

(** A chunk list that is not empty and does not end in a line break has an
    open last line. *)
Lemma shape_open chunks lead L trail :
  shape chunks lead L trail -> chunks <> [] ->
  endswith_char (ascii_of_nat 10) (last_chunk chunks) = false ->
  trail = false /\ L <> [].
Proof.
  intros [_ _ _ Hne Hnl _] Hchunks Hends.
  rewrite Hnl in Hends. apply orb_false_iff in Hends.
  destruct Hends as [Ht Hl]. split; [assumption|].
  destruct (Hne Hchunks) as [-> | HL]; [|assumption].
  destruct L; [discriminate | discriminate].
Qed.

Lemma _append_nl_shape chunks :
  well_shaped chunks -> well_shaped (_append chunks nl).
Proof.
  intros (lead & L & trail & Hs). unfold _append.
  destruct (truthy chunks) eqn:Ht; simpl negb; cbv iota.
  - rewrite String.eqb_refl.
    destruct (endswith_char (ascii_of_nat 10) (last_chunk chunks)) eqn:He;
      simpl negb; cbv iota.
    + exists lead, L, trail. assumption.
    + apply truthy_true in Ht.
      destruct (shape_open Hs Ht He) as [-> HL].
      destruct Hs as [Hraw Hlines _ _ _ _].
      exists lead, L, true. split.
      * rewrite join_empty_snoc, Hraw. unfold render.
        rewrite string_app_nil_r, string_app_assoc. reflexivity.
      * assumption.
      * intros _. assumption.
      * intros _. right. assumption.
      * unfold last_chunk. rewrite last_last. reflexivity.
      * unfold last_chunk. rewrite last_last. reflexivity.
  - apply truthy_false in Ht. subst chunks.
    exists true, [], false. split; try reflexivity.
    + constructor.
    + discriminate.
    + intros _. left. reflexivity.
Qed.

Section Callbacks.

Variable unescape : string -> string.

Lemma handle_data_shape chunks data :
  well_shaped chunks -> well_shaped (handle_data unescape chunks data).
Proof.
  intros (lead & L & trail & Hs). unfold handle_data.
  set (text := unescape _).
  destruct (collapsed_cases text) as [-> | Hc];
    [exists lead, L, trail; assumption|].
  pose proof (text_line_trimmed Hc) as (Hcne & _ & Hclast).
  set (c := join " " (split text)) in *.
  assert (Hcnl : endswith_char (ascii_of_nat 10) c = false)
    by (apply endswith_space; [reflexivity | assumption]).
  assert (Hcsp : endswith_char (ascii_of_nat 32) c = false)
    by (apply endswith_space; [reflexivity | assumption]).
  assert (Hgoal : well_shaped
    ((if truthy chunks
         && negb (endswith_char (ascii_of_nat 10) (last_chunk chunks)
                  || endswith_char (ascii_of_nat 32) (last_chunk chunks))
      then chunks ++ [" "] else chunks) ++ [c])%list).
  { rewrite (shape_last_sp Hs), orb_false_r.
    destruct (truthy chunks) eqn:Ht; simpl andb.
    - apply truthy_true in Ht.
      destruct (endswith_char (ascii_of_nat 10) (last_chunk chunks)) eqn:He;
        simpl negb; cbv iota.
      + (* after a line break: a new line *)
        destruct Hs as [Hraw Hlines Htrail _ Hnl _].
        rewrite He in Hnl. exists lead, (L ++ [c])%list, false. split.
        * rewrite join_empty_snoc, Hraw. unfold render.
          rewrite string_app_nil_r, !string_app_assoc. f_equal.
          destruct trail.
          -- rewrite join_app by (auto; discriminate). reflexivity.
          -- simpl in Hnl. symmetry in Hnl. apply andb_true_iff in Hnl.
             destruct Hnl as [_ HL]. destruct L; [reflexivity | discriminate].
        * apply Forall_app. split; [assumption | constructor; auto].
        * discriminate.
        * intros _. right. destruct L; discriminate.
        * unfold last_chunk. rewrite last_last.
          rewrite Hcnl.
          destruct lead; [|reflexivity]. destruct L; reflexivity.
        * unfold last_chunk. rewrite last_last.
          exact Hcsp.
      + (* inside a line: a space, then the words *)
        destruct (shape_open Hs Ht He) as [-> HL].
        destruct Hs as [Hraw Hlines _ _ _ _].
        destruct (exists_last HL) as (L' & l & ->).
        apply Forall_app in Hlines. destruct Hlines as [HL' Hl].
        apply Forall_cons_iff in Hl. destruct Hl as [Hl _].
        exists lead, (L' ++ [(l ++ " " ++ c)%string])%list, false. split.
        * rewrite !join_empty_snoc, Hraw. unfold render.
          rewrite !string_app_nil_r, !string_app_assoc. f_equal.
          destruct L' as [|a L'].
          -- simpl. reflexivity.
          -- rewrite !join_app by discriminate.
             simpl join. rewrite !string_app_assoc. reflexivity.
        * apply Forall_app. split; [assumption|].
          constructor; [|constructor]. apply text_line_glue; assumption.
        * discriminate.
        * intros _. right. destruct L'; discriminate.
        * unfold last_chunk. rewrite last_last.
          rewrite Hcnl.
          destruct lead; [|reflexivity]. destruct L'; reflexivity.
        * unfold last_chunk. rewrite last_last.
          exact Hcsp.
    - apply truthy_false in Ht. subst chunks.
      exists false, [c], false. split.
      + simpl. unfold render. simpl. rewrite string_app_nil_r. reflexivity.
      + constructor; [assumption | constructor].
      + discriminate.
      + intros _. right. discriminate.
      + unfold last_chunk. simpl last.
        rewrite Hcnl. reflexivity.
      + unfold last_chunk. simpl last.
        exact Hcsp. }
  destruct c; [congruence | exact Hgoal].
Qed.

Lemma handle_shape chunks cb :
  well_shaped chunks -> well_shaped (handle unescape chunks cb).
Proof.
  intros Hs. destruct cb as [tag | tag | data]; simpl.
  - unfold handle_starttag.
    destruct (tag_in _ _); [apply _append_nl_shape|]; assumption.
  - unfold handle_endtag.
    destruct (tag_in _ _); [apply _append_nl_shape|]; assumption.
  - apply handle_data_shape. assumption.
Qed.

Lemma feed_shape callbacks : well_shaped (feed unescape callbacks).
Proof.
  unfold feed. apply SimpleFacts.fold_left_invariant.
  - intros st a. apply handle_shape.
  - exists false, [], false. apply shape_nil.
Qed.

End Callbacks.

Section OneLine.

Variable unescape : string -> string.

Lemma handle_one_line ws chunks cb :
  breaks_line cb = false -> one_line ws chunks ->
  one_line (ws ++ words_of unescape cb) (handle unescape chunks cb).
Proof.
  intros Hcb Hinv.
  destruct cb as [tag | tag | data]; cbn [breaks_line] in Hcb;
    cbn [handle words_of].
  - unfold handle_starttag. rewrite Hcb, app_nil_r. assumption.
  - unfold handle_endtag. rewrite Hcb, app_nil_r. assumption.
  - unfold handle_data. set (text := unescape _).
    assert (Hws : Forall word (split text))
      by (apply split_from_words; reflexivity).
    destruct (split text) as [|w ws'] eqn:E;
      [simpl; rewrite app_nil_r; assumption|].
    assert (Hc : text_line (join " " (w :: ws'))).
    { exists (w :: ws'). split; [discriminate|]. split; [assumption|].
      reflexivity. }
    pose proof (text_line_trimmed Hc) as (Hcne & _ & Hclast).
    set (c := join " " (w :: ws')) in *.
    assert (Hcnl : endswith_char (ascii_of_nat 10) c = false)
      by (apply endswith_space; [reflexivity | assumption]).
    assert (Hcsp : endswith_char (ascii_of_nat 32) c = false)
      by (apply endswith_space; [reflexivity | assumption]).
    destruct Hinv as (Hraw & Hwords & Hnil & Hcons).
    assert (Hgoal : one_line (ws ++ w :: ws')
      ((if truthy chunks
           && negb (endswith_char (ascii_of_nat 10) (last_chunk chunks)
                    || endswith_char (ascii_of_nat 32) (last_chunk chunks))
        then chunks ++ [" "] else chunks) ++ [c])%list).
    { assert (Hlast : forall l : list string,
        (l ++ [c])%list <> []
        -> (ws ++ w :: ws')%list <> []
           /\ endswith_char (ascii_of_nat 10) (last_chunk (l ++ [c])) = false
           /\ endswith_char (ascii_of_nat 32) (last_chunk (l ++ [c]))
              = false).
      { intros l _. unfold last_chunk. rewrite last_last.
        split; [destruct ws; discriminate | split; assumption]. }
      destruct (truthy chunks) eqn:Ht; simpl andb.
      - apply truthy_true in Ht. destruct (Hcons Ht) as (Hne & -> & ->).
        simpl negb; cbv iota. split; [|split; [|split]].
        + rewrite !join_empty_snoc, Hraw.
          rewrite join_app by (assumption || discriminate).
          rewrite string_app_assoc. reflexivity.
        + apply Forall_app. split; assumption.
        + intros H. destruct chunks; discriminate.
        + apply Hlast.
      - apply truthy_false in Ht. subst chunks.
        pose proof (Hnil eq_refl) as Hws0. subst ws.
        simpl andb; cbv iota. split; [|split; [|split]].
        + reflexivity.
        + assumption.
        + discriminate.
        + apply (Hlast []). }
    destruct c; [congruence | exact Hgoal].
Qed.

Lemma feed_one_line callbacks :
  Forall (fun cb => breaks_line cb = false) callbacks ->
  forall ws chunks, one_line ws chunks ->
  one_line (ws ++ flat_map (words_of unescape) callbacks)
    (fold_left (handle unescape) callbacks chunks).
Proof.
  induction 1 as [|cb callbacks Hcb Hall IH]; intros ws chunks Hinv; simpl.
  - rewrite app_nil_r. assumption.
  - rewrite app_assoc. apply IH. apply handle_one_line; assumption.
Qed.

Lemma one_line_shape ws chunks :
  one_line ws chunks ->
  shape chunks false (if is_nil ws then [] else [join " " ws]) false.
Proof.
  intros (Hraw & Hwords & Hnil & Hcons).
  destruct chunks as [|c0 chunks].
  - rewrite (Hnil eq_refl). apply shape_nil.
  - destruct (Hcons ltac:(discriminate)) as (Hne & Hnl & Hsp).
    destruct ws as [|w ws]; [congruence|]. simpl is_nil. split.
    + rewrite Hraw. unfold render. simpl.
      rewrite string_app_nil_r. reflexivity.
    + constructor; [|constructor]. exists (w :: ws).
      split; [discriminate|]. split; [assumption | reflexivity].
    + discriminate.
    + intros _. right. discriminate.
    + rewrite Hnl. reflexivity.
    + assumption.
Qed.

End OneLine.

Lemma no_linebreak_lacks_nl (s : string) :
  no_linebreak s = true -> lacks (ascii_of_nat 10) s = true.
Proof.
  induction s as [|c s IH]; [reflexivity|]. simpl.
  intros H. apply andb_true_iff in H. destruct H as [Hc Hs].
  rewrite (IH Hs), andb_true_r.
  destruct (Ascii.eqb_spec c (ascii_of_nat 10)) as [->|]; [|reflexivity].
  discriminate.
Qed.

(** [str.strip] gives the empty string or a trimmed one. *)
Lemma lstrip_first (s : string) : first_is_space (lstrip s) = false.
Proof.
  induction s as [|c s IH]; [reflexivity|]. simpl.
  destruct (isspace c) eqn:E; [assumption|]. simpl. assumption.
Qed.

Lemma rstrip_last (s : string) : last_is_space (rstrip s) = false.
Proof.
  induction s as [|c s IH]; [reflexivity|]. simpl.
  destruct (rstrip s) as [|d r] eqn:E.
  - destruct (isspace c) eqn:Ec; [reflexivity|]. simpl. assumption.
  - exact IH.
Qed.

Lemma rstrip_first (s : string) :
  first_is_space s = false -> first_is_space (rstrip s) = false.
Proof.
  destruct s as [|c s]; [reflexivity|]. simpl. intros Hc.
  destruct (rstrip s); [rewrite Hc|]; simpl; assumption.
Qed.

Lemma strip_cases (s : string) : strip s = "" \/ trimmed (strip s).
Proof.
  destruct (strip s) as [|c r] eqn:E; [left; reflexivity|]. right.
  rewrite <- E. split; [rewrite E; discriminate|]. unfold strip. split.
  - apply rstrip_first, lstrip_first.
  - apply rstrip_last.
Qed.

Lemma rstrip_app_nl (s : string) :
  s <> "" -> last_is_space s = false -> rstrip (s ++ nl) = s.
Proof.
  induction s as [|c s IH]; [congruence|]. intros _ Hlast.
  destruct s as [|d s].
  - simpl in Hlast. simpl. rewrite Hlast. reflexivity.
  - change (rstrip ((String c (String d s)) ++ nl))
      with (match rstrip (String d s ++ nl) with
            | "" => if isspace c then "" else String c ""
            | r' => String c r'
            end).
    rewrite IH by (discriminate || exact Hlast). reflexivity.
Qed.

Lemma strip_app_nl (s : string) : trimmed s -> strip (s ++ nl) = s.
Proof.
  intros (Hne & Hf & Hl). unfold strip. rewrite lstrip_trimmed.
  - apply rstrip_app_nl; assumption.
  - rewrite first_is_space_app; assumption.
Qed.

Section Spine.

Variable payload : Type.
Variable read : string -> option payload.
Variable decode_bytes : payload -> string.
Variable parser : string -> list callback.
Variable unescape : string -> string.
Variable normalize_member_path : string -> string -> string.

Lemma spine_body_trimmed opf_path manifest sections item_id :
  Forall trimmed sections ->
  Forall trimmed
    (spine_body read decode_bytes parser unescape normalize_member_path
       opf_path manifest sections item_id).
Proof.
  intros Hall. unfold spine_body.
  destruct (dict_get item_id manifest) as [entry|]; [|assumption].
  destruct (_ && _); [assumption|].
  destruct (read _) as [p|]; [|assumption].
  match goal with
  | |- context [strip ?t] =>
      pose proof (strip_cases t) as Ht; destruct (strip t) eqn:E
  end; [assumption|].
  destruct Ht as [Ht | Ht]; [discriminate|].
  apply Forall_app. split; [assumption|]. constructor; [|constructor].
  assumption.
Qed.

End Spine.

Lemma before_app (c : ascii) (s rest : string) :
  lacks c s = true -> before c (s ++ String c rest) = Some s.
Proof.
  induction s as [|a s IH]; simpl.
  - intros _. rewrite Ascii.eqb_refl. reflexivity.
  - intros H. apply andb_true_iff in H. destruct H as [Ha Hs].
    apply negb_true_iff in Ha. rewrite Ha, (IH Hs). reflexivity.
Qed.

End EpubFacts.

(** X16. Whatever the parser calls back, the text that
    [extract_text_from_markup] returns is empty or made of lines that are
    not empty and whose words are separated by one space each: no blank
    line, no space at the start or the end of a line, no run of spaces. *)
Theorem extracted_text_is_normalised (unescape : string -> string)
  (callbacks : list Epub.callback) :
  let text := Epub.extract_text_from_callbacks unescape callbacks in
  text = EmptyString
  \/ Forall (fun l => l <> EmptyString
                      /\ PyStr.join " " (PyStr.split l) = l)
       (PyStr.split_char (ascii_of_nat 10) text).
Proof.
  intros text. subst text. unfold Epub.extract_text_from_callbacks.
  destruct (EpubFacts.feed_shape unescape callbacks)
    as (lead & L & trail & Hs).
  rewrite (EpubFacts.get_text_shape Hs).
  pose proof (EpubInv.shape_lines Hs) as Hlines.
  destruct L as [|l L]; [left; reflexivity|]. right.
  change PyStr.nl with (String (ascii_of_nat 10) EmptyString).
  rewrite JsonFacts.split_char_join.
  - eapply Forall_impl; [|exact Hlines]. apply EpubFacts.text_line_normal.
  - discriminate.
  - eapply Forall_impl; [|exact Hlines]. intros a Ha.
    apply EpubFacts.no_linebreak_lacks_nl.
    apply EpubFacts.text_line_no_linebreak. assumption.
Qed.

(** X17. When no callback asks for a line break, the extracted text is one
    line: the words of all the pieces of character data, in order, with one
    space between two.  Two pieces that only a tag separates are never
    glued together. *)
Theorem inline_markup_gives_one_line (unescape : string -> string)
  (callbacks : list Epub.callback) :
  Forall (fun cb => EpubInv.breaks_line cb = false) callbacks ->
  Epub.extract_text_from_callbacks unescape callbacks
  = PyStr.join " " (flat_map (EpubInv.words_of unescape) callbacks).
Proof.
  intros Hall. unfold Epub.extract_text_from_callbacks, Epub.feed.
  assert (H0 : EpubInv.one_line [] []).
  { split; [reflexivity|]. split; [constructor|].
    split; [reflexivity | congruence]. }
  pose proof (EpubFacts.feed_one_line unescape Hall H0) as Hinv.
  simpl app in Hinv. apply EpubFacts.one_line_shape in Hinv.
  rewrite (EpubFacts.get_text_shape Hinv).
  destruct (flat_map (EpubInv.words_of unescape) callbacks); reflexivity.
Qed.

Lemma inline_markup_gives_one_line_witness :
  Epub.extract_text_from_callbacks (fun s => s)
    [Epub.Data "un"; Epub.Starttag "b"; Epub.Data "believ";
     Epub.Endtag "b"; Epub.Data "able"]%string
  = "un believ able"%string.
Proof.
  rewrite inline_markup_gives_one_line; [reflexivity|].
  repeat constructor.
Defined.

(** X18. A start tag or an end tag that asks for a line break right after
    another one adds nothing: line breaks do not pile up in [_chunks]. *)
Theorem line_breaks_do_not_pile_up (unescape : string -> string)
  (chunks : list string) (cb1 cb2 : Epub.callback) :
  EpubInv.breaks_line cb1 = true -> EpubInv.breaks_line cb2 = true ->
  Epub.handle unescape (Epub.handle unescape chunks cb1) cb2
  = Epub.handle unescape chunks cb1.
Proof.
  assert (Hstep : forall c cb, EpubInv.breaks_line cb = true ->
    Epub.handle unescape c cb = Epub._append c PyStr.nl).
  { intros c [tag | tag | data] H; cbn [EpubInv.breaks_line] in H;
      cbn [Epub.handle]; try discriminate.
    - unfold Epub.handle_starttag. rewrite H. reflexivity.
    - unfold Epub.handle_endtag. rewrite H. reflexivity. }
  intros H1 H2. rewrite !Hstep by assumption.
  assert (Hr : truthy (Epub._append chunks PyStr.nl) = true
    /\ PyStr.endswith_char (ascii_of_nat 10)
         (Epub.last_chunk (Epub._append chunks PyStr.nl)) = true).
  { unfold Epub._append.
    destruct (truthy chunks) eqn:Ht; simpl negb; cbv iota.
    - rewrite String.eqb_refl.
      destruct (PyStr.endswith_char (ascii_of_nat 10)
                  (Epub.last_chunk chunks)) eqn:He; simpl negb; cbv iota.
      + split; assumption.
      + rewrite truthy_snoc. unfold Epub.last_chunk. rewrite last_last.
        split; reflexivity.
    - apply truthy_false in Ht. subst chunks. split; reflexivity. }
  destruct Hr as [Ht He].
  remember (Epub._append chunks PyStr.nl) as r eqn:Er.
  unfold Epub._append. rewrite Ht, String.eqb_refl, He. reflexivity.
Qed.

Lemma line_breaks_do_not_pile_up_witness :
  Epub.handle (fun s => s)
    (Epub.handle (fun s => s) ["one"%string] (Epub.Endtag "P"))
    (Epub.Starttag "br")
  = ["one"%string; PyStr.nl].
Proof.
  rewrite line_breaks_do_not_pile_up; reflexivity.
Defined.

(** X19. When [extract_spine_text] returns, it returns at least one
    section, and every section is a text that is not empty and has no space
    at its start or its end. *)
Theorem spine_sections_are_trimmed (payload : Type)
  (read : string -> option payload)
  (parse_xml : payload -> option Epub.element)
  (decode_bytes : payload -> string)
  (parser : string -> list Epub.callback) (unescape : string -> string)
  (normalize_member_path : string -> string -> string)
  (opf_path : string) (sections : list string) :
  Epub.extract_spine_text read parse_xml decode_bytes parser unescape
    normalize_member_path opf_path = Epub.Returns sections ->
  sections <> []
  /\ Forall (fun s => s <> EmptyString /\ PyStr.strip s = s) sections.
Proof.
  unfold Epub.extract_spine_text.
  destruct (read opf_path) as [opf|]; [|discriminate].
  destruct (parse_xml opf) as [package_root|]; [|discriminate].
  destruct (Epub.build_manifest _ _) as [manifest|]; [|discriminate].
  destruct (Epub.iter_spine_itemrefs _ _) as [item_ids|]; [|discriminate].
  set (body := Epub.spine_body _ _ _ _ _ _ _).
  assert (Hall : Forall EpubInv.trimmed (fold_left body item_ids [])).
  { apply SimpleFacts.fold_left_invariant; [|constructor].
    intros st a. apply EpubFacts.spine_body_trimmed. }
  destruct (truthy (fold_left body item_ids [])) eqn:Ht; simpl negb;
    cbv iota; [|discriminate].
  intros H. injection H as <-. split; [apply truthy_true; assumption|].
  eapply Forall_impl; [|exact Hall]. intros s Hs.
  split; [apply Hs | apply EpubFacts.strip_trimmed; assumption].
Qed.

(** X20. The text that [convert_epub_to_txt] writes has no space at its
    start and ends with one line break and no other space: stripping it
    removes the last line break and nothing else. *)
Theorem written_text_ends_with_one_newline (payload : Type)
  (read : string -> option payload)
  (parse_xml : payload -> option Epub.element)
  (decode_bytes : payload -> string)
  (parser : string -> list Epub.callback) (unescape : string -> string)
  (normalize_member_path : string -> string -> string)
  (is_file : bool) (written : string) :
  Epub.convert_epub_to_txt read parse_xml decode_bytes parser unescape
    normalize_member_path is_file = Epub.Returns written ->
  (PyStr.strip written ++ PyStr.nl)%string = written.
Proof.
  unfold Epub.convert_epub_to_txt.
  destruct is_file; simpl negb; cbv iota; [|discriminate].
  destruct (Epub.locate_opf _ _) as [opf_path|]; [|discriminate].
  destruct (Epub.extract_spine_text _ _ _ _ _ _ _) as [sections|] eqn:E;
    [|discriminate].
  intros H. injection H as <-.
  assert (Hall : sections <> [] /\ Forall EpubInv.trimmed sections).
  { revert E. unfold Epub.extract_spine_text.
    destruct (read opf_path) as [opf|]; [|discriminate].
    destruct (parse_xml opf) as [package_root|]; [|discriminate].
    destruct (Epub.build_manifest _ _) as [manifest|]; [|discriminate].
    destruct (Epub.iter_spine_itemrefs _ _) as [item_ids|]; [|discriminate].
    set (body := Epub.spine_body _ _ _ _ _ _ _).
    destruct (truthy (fold_left body item_ids [])) eqn:Ht; simpl negb;
      cbv iota; [|discriminate].
    intros H. injection H as <-. split; [apply truthy_true; assumption|].
    apply SimpleFacts.fold_left_invariant; [|constructor].
    intros st a. apply EpubFacts.spine_body_trimmed. }
  destruct Hall as [Hne Hall].
  rewrite EpubFacts.strip_app_nl; [reflexivity|].
  apply EpubFacts.join_trimmed; assumption.
Qed.

(** X21. The namespace read off the tag of the package root is the one the
    tag was qualified with, so the manifest and the spine are looked up in
    the namespace of the root. *)
Theorem namespace_of_qualified (ns name : string) :
  ns <> EmptyString -> PyStr.lacks "}" ns = true ->
  Epub.namespace_of (Epub.qualified ns name) = ns.
Proof.
  intros Hne Hlacks. unfold Epub.qualified.
  destruct ns as [|a ns]; [congruence|].
  change ("{" ++ String a ns ++ "}" ++ name)%string
    with (String "{" (String a ns ++ String "}" name)).
  unfold Epub.namespace_of. rewrite Ascii.eqb_refl.
  rewrite EpubFacts.before_app by assumption. reflexivity.
Qed.

Lemma namespace_of_qualified_witness :
  Epub.namespace_of
    (Epub.qualified "http://www.idpf.org/2007/opf" "package")
  = "http://www.idpf.org/2007/opf"%string.
Proof.
  apply namespace_of_qualified; [discriminate | reflexivity].
Defined.

Lemma spine_sections_are_trimmed_witness :
  ["hello"; "two"]%string <> []
  /\ Forall (fun s => s <> EmptyString /\ PyStr.strip s = s)
       ["hello"; "two"]%string.
Proof.
  apply (@spine_sections_are_trimmed string Ex.epub_read Ex.epub_parse_xml
           (fun p => p) Ex.epub_parser (fun s => s)
           Ex.epub_normalize_member_path "content.opf"%string).
  reflexivity.
Defined.

Lemma written_text_ends_with_one_newline_witness :
  let written :=
    ("hello" ++ PyStr.nl ++ PyStr.nl ++ "two" ++ PyStr.nl)%string in
  (PyStr.strip written ++ PyStr.nl)%string = written.
Proof.
  apply (@written_text_ends_with_one_newline string Ex.epub_read
           Ex.epub_parse_xml (fun p => p) Ex.epub_parser (fun s => s)
           Ex.epub_normalize_member_path true).
  reflexivity.
Defined.
